(** * Lifeplan: the yearly cash-flow projection of [store/simulator.ts]

    A shallow embedding of the simulator store: the data model of the store
    (its TypeScript interfaces), the three helper calculators defined in the
    store file ([calculateEducationExpense], [calculateLifeEventExpense],
    [getUniversityCost]), the store actions [initializeCashFlow] and
    [updateCashFlowValue], and the properties of the projection they compute.

    Numbers.  Ages, calendar years and counts are integers ([Z]).  A stored
    amount or rate is the decimal that was entered ([Qc], canonical
    fractions, so that equality is Leibniz equality).  The computations are
    written twice.  In the first reading the arithmetic is exact and only
    the decimal rounding that the code asks for with [toFixed(1)] is kept;
    it serves the properties that do not depend on the rounding of [+], [*]
    and [Math.pow]: which inputs are read, which keys and cells are written,
    which branch is taken, signs and order.  In the second reading ([Js],
    over the interface [Number]) the arithmetic is that of the program, IEEE
    754 double precision ([Double]); it serves the properties whose
    conclusion is a computed number.

    Objects.  [CashFlowData] and its rows are JavaScript objects used as
    dictionaries; they are finite maps ([gmap]).  Optional properties are
    [option]s. *)

From Stdlib Require Import ZArith QArith Qcanon Qround Lia.
From Stdlib Require Floats.PrimFloat Floats.SpecFloat Floats.FloatOps.
From stdpp Require Import base numbers option list gmap fin_maps strings.

Local Open Scope Z_scope.

(** ** JavaScript numbers, in exact arithmetic *)

Module Num.

(** A decimal literal with one digit after the point: [dec1 233] is 23.3. *)
Definition dec1 (n : Z) : Qc := Q2Qc (n # 10).

Definition ofZ (n : Z) : Qc := Q2Qc (inject_Z n).

(** The integer [n] for which [n / 10 - q] is closest to zero, the larger
    one on a tie (the rule of [Number.prototype.toFixed], for [0 <= q]). *)
Definition nearestTenth (q : Q) : Z := Qfloor (q * 10 + (1 # 2))%Q.

(** [Number(x.toFixed(1))].  [toFixed] formats the magnitude and puts the
    sign in front. *)
Definition toFixed1 (x : Qc) : Qc :=
  if decide (x < 0)%Qc
  then (- dec1 (nearestTenth (- x)%Qc))%Qc
  else dec1 (nearestTenth x).

(** [Math.pow(b, k)] for an integer exponent, in exact arithmetic.  A zero
    base with a negative exponent has no value there and is given 0, where
    [Math.pow] gives [Infinity]; the store never asks for it, since no year
    of the horizon lies before the start year. *)
Definition pow (b : Qc) (k : Z) : Qc :=
  if decide (0 <= k) then (b ^ Z.to_nat k)%Qc
  else (/ (b ^ Z.to_nat (- k)))%Qc.

(** [Array.prototype.reduce((sum, value) => sum + value, 0)]. *)
Definition sum (l : list Qc) : Qc := fold_left Qcplus l 0%Qc.

End Num.

(** ** The data model of the store *)

Inductive Occupation :=
  | company_employee
  | part_time_with_pension
  | part_time_without_pension
  | self_employed
  | homemaker.

(** The string behind each member of the [Occupation] union type. *)
Definition occupation_name (o : Occupation) : string :=
  match o with
  | company_employee => "company_employee"
  | part_time_with_pension => "part_time_with_pension"
  | part_time_without_pension => "part_time_without_pension"
  | self_employed => "self_employed"
  | homemaker => "homemaker"
  end.

Inductive Gender := male | female.
Inductive MaritalStatus := single | married | planning.

Global Instance MaritalStatus_eq_dec : EqDecision MaritalStatus.
Proof. solve_decision. Defined.

Inductive HousingType := rent_type | own_type.

Module Rent.
Record t := mk { monthlyRent : Qc; annualIncreaseRate : Qc }.
End Rent.

Module Own.
Record t := mk {
  purchaseYear : Z;
  purchasePrice : Qc;
  loanAmount : Qc;
  interestRate : Qc;
  loanTermYears : Z;
  maintenanceCostRate : Qc }.
End Own.

Module HousingInfo.
Record t := mk {
  type : HousingType;
  rent : option Rent.t;
  own : option Own.t }.
End HousingInfo.

Module SpouseInfo.
Record t := mk {
  age : option Z;
  currentAge : option Z;
  marriageAge : option Z;
  occupation : option string;
  additionalExpense : option Qc }.
End SpouseInfo.

Module EducationPlan.
Record t := mk {
  nursery : string;
  preschool : string;
  elementary : string;
  juniorHigh : string;
  highSchool : string;
  university : string }.
End EducationPlan.

Module Child.
Record t := mk { currentAge : Z; educationPlan : EducationPlan.t }.
End Child.

Module PlannedChild.
Record t := mk { yearsFromNow : Z; educationPlan : EducationPlan.t }.
End PlannedChild.

Module BasicInfo.
Record t := mk {
  currentAge : Z;
  startYear : Z;
  deathAge : Z;
  gender : Gender;
  monthlyLivingExpense : Qc;
  occupation : Occupation;
  maritalStatus : MaritalStatus;
  housingInfo : HousingInfo.t;
  spouseInfo : option SpouseInfo.t;
  children : list Child.t;
  plannedChildren : list PlannedChild.t }.
End BasicInfo.

Module SideIncome.
Inductive kind := one_time | recurring.
Record oneTime_t := mkOneTime {
  ot_age : Z; ot_amount : Qc; ot_description : string }.
Record recurring_t := mkRecurring {
  monthlyAmount : Qc; startAge : Z; endAge : Z; rc_description : string }.
Record t := mk {
  type : kind;
  oneTime : option oneTime_t;
  recurring_ : option recurring_t }.
End SideIncome.

Module SpouseIncome.
Record t := mk {
  annualIncome : Qc;
  severancePay : Qc;
  workStartAge : Z;
  workEndAge : Z;
  pensionAmount : Qc }.
End SpouseIncome.

Module IncomeInfo.
Record t := mk {
  annualIncome : Qc;
  raiseRate : Qc;
  severancePay : Qc;
  workStartAge : Z;
  workEndAge : Z;
  pensionStartAge : Z;
  pensionAmount : Qc;
  sideIncomes : list SideIncome.t;
  spouse : option SpouseIncome.t }.
End IncomeInfo.

Module LifeEvent.
Inductive kind := income | expense.
Record t := mk {
  year : Z;
  description : string;
  type : kind;
  category : string;
  amount : Qc }.
End LifeEvent.

Module Assets.
Record t := mk {
  cash : Qc;
  savings : Qc;
  stocks : Qc;
  investmentTrust : Qc;
  realEstate : Qc }.
(** [Object.values(assets)] *)
Definition values (a : t) : list Qc :=
  [cash a; savings a; stocks a; investmentTrust a; realEstate a].
End Assets.

Module Liabilities.
Record t := mk { loans : Qc; creditCards : Qc }.
(** [Object.values(liabilities)] *)
Definition values (l : t) : list Qc := [loans l; creditCards l].
End Liabilities.

Module AssetsLiabilities.
Record t := mk { assets : Assets.t; liabilities : Liabilities.t }.
End AssetsLiabilities.

Module Parameters.
Record t := mk {
  inflationRate : Qc;
  educationCostIncreaseRate : Qc;
  investmentReturn : Qc }.
End Parameters.

(** The keys of a cash-flow row, [keyof CashFlowData[number]]. *)
Module Field.
Inductive t :=
  | mainIncome
  | sideIncome
  | investmentIncome
  | spouseIncome
  | livingExpense
  | housingExpense
  | educationExpense
  | otherExpense.

Global Instance eq_dec : EqDecision t.
Proof. solve_decision. Defined.

Definition index (f : t) : nat :=
  match f with
  | mainIncome => 0 | sideIncome => 1 | investmentIncome => 2
  | spouseIncome => 3 | livingExpense => 4 | housingExpense => 5
  | educationExpense => 6 | otherExpense => 7
  end%nat.

Definition of_index (n : nat) : option t :=
  match n with
  | 0 => Some mainIncome | 1 => Some sideIncome | 2 => Some investmentIncome
  | 3 => Some spouseIncome | 4 => Some livingExpense | 5 => Some housingExpense
  | 6 => Some educationExpense | 7 => Some otherExpense
  | _ => None
  end%nat.

Global Instance countable : Countable t.
Proof.
  apply (inj_countable index of_index).
  intros []; reflexivity.
Defined.
End Field.

(** A row is an object with (at most) the eight properties; the table is an
    object keyed by calendar year. *)
Abbreviation Row := (gmap Field.t Qc).
Abbreviation CashFlowData := (gmap Z (gmap Field.t Qc)).

Module SimulatorState.
(** [expenseInfo] is part of the store but is read by neither action
    modelled here; it is kept as the two amounts that are plain numbers. *)
Record t := mk {
  currentStep : Z;
  basicInfo : BasicInfo.t;
  incomeInfo : IncomeInfo.t;
  expenseInfo : Qc * Qc;
  lifeEvents : list LifeEvent.t;
  assetsLiabilities : AssetsLiabilities.t;
  parameters : Parameters.t;
  cashFlow : CashFlowData }.

(** [set({ cashFlow: data })]: the store merges the partial state, the
    other properties stay as they are. *)
Definition set_cashFlow (data : CashFlowData) (s : t) : t :=
  mk (currentStep s) (basicInfo s) (incomeInfo s) (expenseInfo s)
     (lifeEvents s) (assetsLiabilities s) (parameters s) data.
End SimulatorState.

(** ** The helper calculators of the store file

    In exact arithmetic; [Js] below has the same calculators, and the store
    actions after them, in the arithmetic of the program. *)

Local Open Scope Qc_scope.

(** [getUniversityCost] *)
Definition getUniversityCost (universityType : string) : Qc :=
  if String.eqb universityType "公立大学（文系）" then Num.ofZ 325
  else if String.eqb universityType "公立大学（理系）" then Num.ofZ 375
  else if String.eqb universityType "私立大学（文系）" then Num.ofZ 550
  else if String.eqb universityType "私立大学（理系）" then Num.ofZ 650
  else 0.

(** [a >= lo && a <= hi] on ages *)
Definition between (lo hi a : Z) : bool := (lo <=? a)%Z && (a <=? hi)%Z.

(** [plan.band === '私立' ? priv : pub], the entries of the [costs] object *)
Definition bandCost (track : string) (priv pub : Qc) : Qc :=
  if String.eqb track "私立" then priv else pub.

(** [plan.band !== '行かない' ? cost : 0] *)
Definition attends (track : string) (cost : Qc) : Qc :=
  if String.eqb track "行かない" then 0 else cost.

(** The body shared, word for word, by the two reducers of
    [calculateEducationExpense]: the [costs] object and the six [if]
    statements that assign [expense] in turn. *)
Definition childExpense (childAge : Z) (plan : EducationPlan.t) : Qc :=
  let nursery := bandCost (EducationPlan.nursery plan) (Num.ofZ 50) (Num.dec1 233) in
  let preschool := bandCost (EducationPlan.preschool plan) (Num.ofZ 100) (Num.dec1 583) in
  let elementary := bandCost (EducationPlan.elementary plan) (Num.dec1 833) (Num.dec1 417) in
  let juniorHigh := bandCost (EducationPlan.juniorHigh plan) (Num.dec1 1333) (Num.dec1 667) in
  let highSchool := bandCost (EducationPlan.highSchool plan) (Num.ofZ 250) (Num.dec1 833) in
  let expense := 0 in
  let expense := if between 0 2 childAge
    then attends (EducationPlan.nursery plan) nursery else expense in
  let expense := if between 3 5 childAge
    then attends (EducationPlan.preschool plan) preschool else expense in
  let expense := if between 6 11 childAge
    then attends (EducationPlan.elementary plan) elementary else expense in
  let expense := if between 12 14 childAge
    then attends (EducationPlan.juniorHigh plan) juniorHigh else expense in
  let expense := if between 15 17 childAge
    then attends (EducationPlan.highSchool plan) highSchool else expense in
  let expense := if between 18 21 childAge
    then attends (EducationPlan.university plan)
           (getUniversityCost (EducationPlan.university plan)) else expense in
  expense.

(** The reducer over [children]. *)
Definition existingChildStep (year startYear : Z) (educationCostIncreaseRate : Qc)
    (total : Qc) (child : Child.t) : Qc :=
  let childAge := (Child.currentAge child + (year - startYear))%Z in
  let expense := childExpense childAge (Child.educationPlan child) in
  let yearsSinceStart := (year - startYear)%Z in
  let increaseMultiplier := Num.pow (1 + educationCostIncreaseRate / Num.ofZ 100) yearsSinceStart in
  total + expense * increaseMultiplier.

(** The reducer over [plannedChildren]. *)
Definition plannedChildStep (year startYear : Z) (educationCostIncreaseRate : Qc)
    (total : Qc) (child : PlannedChild.t) : Qc :=
  let yearsSinceStart := (year - startYear)%Z in
  if (PlannedChild.yearsFromNow child <=? yearsSinceStart)%Z then
    let childAge := (yearsSinceStart - PlannedChild.yearsFromNow child)%Z in
    let expense := childExpense childAge (PlannedChild.educationPlan child) in
    let increaseMultiplier := Num.pow (1 + educationCostIncreaseRate / Num.ofZ 100) yearsSinceStart in
    total + expense * increaseMultiplier
  else total.

(** [calculateEducationExpense]; [currentAge] is a parameter the body never
    reads. *)
Definition calculateEducationExpense (children : list Child.t)
    (plannedChildren : list PlannedChild.t) (year currentAge startYear : Z)
    (educationCostIncreaseRate : Qc) : Qc :=
  let existingChildrenExpense :=
    fold_left (existingChildStep year startYear educationCostIncreaseRate) children 0 in
  let plannedChildrenExpense :=
    fold_left (plannedChildStep year startYear educationCostIncreaseRate) plannedChildren 0 in
  Num.toFixed1 (existingChildrenExpense + plannedChildrenExpense).

(** The reducer of [calculateLifeEventExpense]. *)
Definition lifeEventStep (year : Z) (total : Qc) (event : LifeEvent.t) : Qc :=
  if (LifeEvent.year event =? year)%Z then
    match LifeEvent.type event with
    | LifeEvent.expense => total + LifeEvent.amount event
    | LifeEvent.income => total - LifeEvent.amount event
    end
  else total.

(** [calculateLifeEventExpense] *)
Definition calculateLifeEventExpense (lifeEvents : list LifeEvent.t) (year : Z) : Qc :=
  let expense := fold_left (lifeEventStep year) lifeEvents 0 in
  Num.toFixed1 expense.

(** ** The calculators imported from [@/lib/calculations]

    [calculateNetIncomeWithRaise], [calculateHousingExpense] and
    [calculatePension] are imported by the store; the store only calls them.
    They are taken as an interface, and everything below holds for every
    implementation of it. *)
Module Calculations.
Record t := mk {
  (** [(annualIncome, occupation, raiseRate, year, startYear)] *)
  calculateNetIncomeWithRaise : Qc -> string -> Qc -> Z -> Z -> Qc;
  (** [(housingInfo, year)] *)
  calculateHousingExpense : HousingInfo.t -> Z -> Qc;
  (** [(annualIncome, workStartAge, workEndAge, pensionStartAge, occupation)] *)
  calculatePension : Qc -> Z -> Z -> Z -> string -> Qc }.
End Calculations.

(** [x !== undefined], and the truthiness of an optional object *)
Definition defined {A} (o : option A) : bool :=
  match o with Some _ => true | None => false end.

(** [occupation || 'company_employee']: the empty string is falsy too. *)
Definition occupationOr (o : option string) (d : string) : string :=
  match o with
  | Some s => if String.eqb s EmptyString then d else s
  | None => d
  end.

(** ** The store actions *)

Section Store.

Variable lib : Calculations.t.

(** [Array.from({ length: yearsUntilDeath + 1 }, (_, i) => startYear + i)];
    a negative length gives the empty array. *)
Definition years (basicInfo : BasicInfo.t) : list Z :=
  let yearsUntilDeath := (BasicInfo.deathAge basicInfo - BasicInfo.currentAge basicInfo)%Z in
  map (fun i : nat => (BasicInfo.startYear basicInfo + Z.of_nat i)%Z)
      (seq 0 (Z.to_nat (yearsUntilDeath + 1))).

(** "Calculate initial total assets" *)
Definition initialAssets (al : AssetsLiabilities.t) : Qc :=
  Num.sum (Assets.values (AssetsLiabilities.assets al))
  - Num.sum (Liabilities.values (AssetsLiabilities.liabilities al)).

(** "Calculate main income": the local [mainIncome] after the two [if]s. *)
Definition mainIncome (basicInfo : BasicInfo.t) (incomeInfo : IncomeInfo.t)
    (year : Z) : Qc :=
  let yearsSinceStart := (year - BasicInfo.startYear basicInfo)%Z in
  let age := (BasicInfo.currentAge basicInfo + yearsSinceStart)%Z in
  let mainIncome := 0 in
  let mainIncome :=
    if between (IncomeInfo.workStartAge incomeInfo) (IncomeInfo.workEndAge incomeInfo) age
    then Calculations.calculateNetIncomeWithRaise lib
           (IncomeInfo.annualIncome incomeInfo)
           (occupation_name (BasicInfo.occupation basicInfo))
           (IncomeInfo.raiseRate incomeInfo)
           year
           (BasicInfo.startYear basicInfo)
    else mainIncome in
  let mainIncome :=
    if (IncomeInfo.pensionStartAge incomeInfo <=? age)%Z
    then mainIncome + Calculations.calculatePension lib
           (IncomeInfo.annualIncome incomeInfo)
           (IncomeInfo.workStartAge incomeInfo)
           (IncomeInfo.workEndAge incomeInfo)
           (IncomeInfo.pensionStartAge incomeInfo)
           (occupation_name (BasicInfo.occupation basicInfo))
    else mainIncome in
  mainIncome.

(** The two [if]s that both spouse branches run once the spouse's age and
    the base year of the income are known. *)
Definition spouseEarnings (incomeInfo : IncomeInfo.t) (spouse : SpouseIncome.t)
    (occupation : option string) (spouseAge year baseYear : Z) : Qc :=
  let spouseIncome := 0 in
  let spouseIncome :=
    if between (SpouseIncome.workStartAge spouse) (SpouseIncome.workEndAge spouse) spouseAge
    then Calculations.calculateNetIncomeWithRaise lib
           (SpouseIncome.annualIncome spouse)
           (occupationOr occupation "company_employee")
           0
           year
           baseYear
    else spouseIncome in
  let spouseIncome :=
    if (IncomeInfo.pensionStartAge incomeInfo <=? spouseAge)%Z
    then spouseIncome + Calculations.calculatePension lib
           (SpouseIncome.annualIncome spouse)
           (SpouseIncome.workStartAge spouse)
           (SpouseIncome.workEndAge spouse)
           (IncomeInfo.pensionStartAge incomeInfo)
           (occupationOr occupation "company_employee")
    else spouseIncome in
  spouseIncome.

(** "Calculate spouse income".  Reading a property of [basicInfo.spouseInfo]
    or of [incomeInfo.spouse] throws a TypeError when the object is
    undefined, and an undefined age is no operand for [+]: each such read
    is a bind, and [None] is the run that does not complete. *)
Definition spouseIncome (basicInfo : BasicInfo.t) (incomeInfo : IncomeInfo.t)
    (year : Z) : option Qc :=
  let yearsSinceStart := (year - BasicInfo.startYear basicInfo)%Z in
  if bool_decide (BasicInfo.maritalStatus basicInfo = married)
     && defined (BasicInfo.spouseInfo basicInfo ≫= SpouseInfo.currentAge)
     && defined (IncomeInfo.spouse incomeInfo)
  then
    spouseInfo ← BasicInfo.spouseInfo basicInfo;
    currentAge ← SpouseInfo.currentAge spouseInfo;
    spouse ← IncomeInfo.spouse incomeInfo;
    let spouseAge := (currentAge + yearsSinceStart)%Z in
    Some (spouseEarnings incomeInfo spouse (SpouseInfo.occupation spouseInfo)
            spouseAge year (BasicInfo.startYear basicInfo))
  else if bool_decide (BasicInfo.maritalStatus basicInfo = planning)
          && defined (BasicInfo.spouseInfo basicInfo ≫= SpouseInfo.marriageAge)
  then
    spouseInfo ← BasicInfo.spouseInfo basicInfo;
    marriageAge ← SpouseInfo.marriageAge spouseInfo;
    let marriageYear :=
      (BasicInfo.startYear basicInfo + (marriageAge - BasicInfo.currentAge basicInfo))%Z in
    if (marriageYear <=? year)%Z
       && defined (IncomeInfo.spouse incomeInfo)
       && defined (SpouseInfo.age spouseInfo)
    then
      spouse ← IncomeInfo.spouse incomeInfo;
      age ← SpouseInfo.age spouseInfo;
      let spouseAge := (age + (year - marriageYear))%Z in
      Some (spouseEarnings incomeInfo spouse (SpouseInfo.occupation spouseInfo)
              spouseAge year marriageYear)
    else Some 0
  else Some 0.

(** "Calculate investment return" *)
Definition investmentReturn (parameters : Parameters.t) (previousYearAssets : Qc) : Qc :=
  if decide (0 < previousYearAssets)
  then Num.toFixed1 (previousYearAssets * (Parameters.investmentReturn parameters / Num.ofZ 100))
  else 0.

(** "Calculate living expenses with inflation" *)
Definition livingExpense (basicInfo : BasicInfo.t) (parameters : Parameters.t)
    (year : Z) : Qc :=
  let yearsSinceStart := (year - BasicInfo.startYear basicInfo)%Z in
  let inflationMultiplier :=
    Num.pow (1 + Parameters.inflationRate parameters / Num.ofZ 100) yearsSinceStart in
  Num.toFixed1 (BasicInfo.monthlyLivingExpense basicInfo * Num.ofZ 12 * inflationMultiplier).

(** "Calculate housing expenses" *)
Definition housingExpense (basicInfo : BasicInfo.t) (year : Z) : Qc :=
  Num.toFixed1 (Calculations.calculateHousingExpense lib (BasicInfo.housingInfo basicInfo) year).

(** The object literal stored at [newCashFlow[year]]. *)
Definition makeRow (mainIncome investmentReturn spouseIncome livingExpense
    housingExpense educationExpense otherExpense : Qc) : Row :=
  list_to_map [
    (Field.mainIncome, Num.toFixed1 mainIncome);
    (Field.sideIncome, 0);
    (Field.investmentIncome, Num.toFixed1 investmentReturn);
    (Field.spouseIncome, Num.toFixed1 spouseIncome);
    (Field.livingExpense, Num.toFixed1 livingExpense);
    (Field.housingExpense, Num.toFixed1 housingExpense);
    (Field.educationExpense, Num.toFixed1 educationExpense);
    (Field.otherExpense, Num.toFixed1 otherExpense) ].

(** The callback of [years.forEach]: from the table built so far and
    [previousYearAssets] to the table with the row of [year] and the
    assets carried to the next year. *)
Definition yearStep (state : SimulatorState.t) (acc : CashFlowData * Qc)
    (year : Z) : option (CashFlowData * Qc) :=
  let basicInfo := SimulatorState.basicInfo state in
  let incomeInfo := SimulatorState.incomeInfo state in
  let parameters := SimulatorState.parameters state in
  let newCashFlow := acc.1 in
  let previousYearAssets := acc.2 in
  let mainIncome := mainIncome basicInfo incomeInfo year in
  spouseIncome ← spouseIncome basicInfo incomeInfo year;
  let investmentReturn := investmentReturn parameters previousYearAssets in
  let livingExpense := livingExpense basicInfo parameters year in
  let housingExpense := housingExpense basicInfo year in
  let educationExpense :=
    calculateEducationExpense
      (BasicInfo.children basicInfo)
      (BasicInfo.plannedChildren basicInfo)
      year
      (BasicInfo.currentAge basicInfo)
      (BasicInfo.startYear basicInfo)
      (Parameters.educationCostIncreaseRate parameters) in
  let otherExpense := calculateLifeEventExpense (SimulatorState.lifeEvents state) year in
  let newCashFlow :=
    <[year := makeRow mainIncome investmentReturn spouseIncome livingExpense
                housingExpense educationExpense otherExpense]> newCashFlow in
  let income := mainIncome + spouseIncome + investmentReturn in
  let expenses := livingExpense + housingExpense + educationExpense + otherExpense in
  Some (newCashFlow, Num.toFixed1 (previousYearAssets + income - expenses)).

(** [years.forEach(callback)]: the callback runs on the years in array
    order, and an exception ends the loop. *)
Fixpoint forEachYear (state : SimulatorState.t) (ys : list Z)
    (acc : CashFlowData * Qc) : option (CashFlowData * Qc) :=
  match ys with
  | [] => Some acc
  | year :: rest => acc' ← yearStep state acc year; forEachYear state rest acc'
  end.

(** [initializeCashFlow]: the state after the action, [None] when the
    action throws (the final [set] is then not reached). *)
Definition initializeCashFlow (state : SimulatorState.t) : option SimulatorState.t :=
  let years := years (SimulatorState.basicInfo state) in
  let newCashFlow : CashFlowData := ∅ in
  let initialAssets := initialAssets (SimulatorState.assetsLiabilities state) in
  let previousYearAssets := initialAssets in
  acc ← forEachYear state years (newCashFlow, previousYearAssets);
  Some (SimulatorState.set_cashFlow acc.1 state).

End Store.

(** [updateCashFlowValue]: spreading an undefined row gives the empty
    object. *)
Definition updateCashFlowValue (year : Z) (field : Field.t) (value : Qc)
    (state : SimulatorState.t) : SimulatorState.t :=
  let cashFlow := SimulatorState.cashFlow state in
  SimulatorState.set_cashFlow
    (<[year := <[field := value]> (default ∅ (cashFlow !! year))]> cashFlow)
    state.

(** ** Views of the recompute used to state its properties *)

Section Views.

Variable lib : Calculations.t.

(** The local [spouseIncome] of a year; the runs of [spouseIncome] always
    complete (lemma [spouseIncome_completes] below). *)
Definition spouseIncomeValue (basicInfo : BasicInfo.t) (incomeInfo : IncomeInfo.t)
    (year : Z) : Qc :=
  default 0 (spouseIncome lib basicInfo incomeInfo year).

(** [educationExpense] and [otherExpense] of a year, as the callback
    computes them from the state. *)
Definition educationExpense (state : SimulatorState.t) (year : Z) : Qc :=
  calculateEducationExpense
    (BasicInfo.children (SimulatorState.basicInfo state))
    (BasicInfo.plannedChildren (SimulatorState.basicInfo state))
    year
    (BasicInfo.currentAge (SimulatorState.basicInfo state))
    (BasicInfo.startYear (SimulatorState.basicInfo state))
    (Parameters.educationCostIncreaseRate (SimulatorState.parameters state)).

Definition otherExpense (state : SimulatorState.t) (year : Z) : Qc :=
  calculateLifeEventExpense (SimulatorState.lifeEvents state) year.

(** The row the callback stores for [year] when it starts from
    [previousYearAssets]. *)
Definition rowOf (state : SimulatorState.t) (previousYearAssets : Qc) (year : Z) : Row :=
  makeRow
    (mainIncome lib (SimulatorState.basicInfo state) (SimulatorState.incomeInfo state) year)
    (investmentReturn (SimulatorState.parameters state) previousYearAssets)
    (spouseIncomeValue (SimulatorState.basicInfo state) (SimulatorState.incomeInfo state) year)
    (livingExpense (SimulatorState.basicInfo state) (SimulatorState.parameters state) year)
    (housingExpense lib (SimulatorState.basicInfo state) year)
    (educationExpense state year)
    (otherExpense state year).

(** The assets the callback carries over from [year]. *)
Definition nextAssets (state : SimulatorState.t) (previousYearAssets : Qc) (year : Z) : Qc :=
  let income :=
    mainIncome lib (SimulatorState.basicInfo state) (SimulatorState.incomeInfo state) year
    + spouseIncomeValue (SimulatorState.basicInfo state) (SimulatorState.incomeInfo state) year
    + investmentReturn (SimulatorState.parameters state) previousYearAssets in
  let expenses :=
    livingExpense (SimulatorState.basicInfo state) (SimulatorState.parameters state) year
    + housingExpense lib (SimulatorState.basicInfo state) year
    + educationExpense state year
    + otherExpense state year in
  Num.toFixed1 (previousYearAssets + income - expenses).

(** [previousYearAssets] after the callback ran on the years [ys]. *)
Definition assetsAfter (state : SimulatorState.t) (ys : list Z) (a : Qc) : Qc :=
  fold_left (nextAssets state) ys a.

(** The callback and the loop without the exception plumbing. *)
Definition stepView (state : SimulatorState.t) (acc : CashFlowData * Qc)
    (year : Z) : CashFlowData * Qc :=
  (<[year := rowOf state acc.2 year]> acc.1, nextAssets state acc.2 year).

Definition loopView (state : SimulatorState.t) (ys : list Z)
    (acc : CashFlowData * Qc) : CashFlowData * Qc :=
  fold_left (stepView state) ys acc.

(** The closing assets A(i): [previousYearAssets] once the first [i] years
    of the horizon are done ([None] if the loop threw before). *)
Definition closingAssets (state : SimulatorState.t) (i : nat) : option Qc :=
  acc ← forEachYear lib state
          (take i (years (SimulatorState.basicInfo state)))
          (∅, initialAssets (SimulatorState.assetsLiabilities state));
  Some acc.2.

(** The cell [cashFlow[year][field]] of the store after a full recompute. *)
Definition cell (state : SimulatorState.t) (year : Z) (field : Field.t) : option Qc :=
  state' ← initializeCashFlow lib state;
  row ← SimulatorState.cashFlow state' !! year;
  row !! field.

End Views.

(** The age of the household head in a calendar year. *)
Definition ageIn (basicInfo : BasicInfo.t) (year : Z) : Z :=
  (BasicInfo.currentAge basicInfo + (year - BasicInfo.startYear basicInfo))%Z.

(** ** The specification's wording, for comparison with the code *)

Module Spec.

(** The schooling bands and their inclusive age ranges. *)
Inductive Band := Nursery | Preschool | Elementary | JuniorHigh | HighSchool | University.

Definition bandOf (childAge : Z) : option Band :=
  if between 0 2 childAge then Some Nursery
  else if between 3 5 childAge then Some Preschool
  else if between 6 11 childAge then Some Elementary
  else if between 12 14 childAge then Some JuniorHigh
  else if between 15 17 childAge then Some HighSchool
  else if between 18 21 childAge then Some University
  else None.

(** The track a plan chooses for a band. *)
Definition track (band : Band) (plan : EducationPlan.t) : string :=
  match band with
  | Nursery => EducationPlan.nursery plan
  | Preschool => EducationPlan.preschool plan
  | Elementary => EducationPlan.elementary plan
  | JuniorHigh => EducationPlan.juniorHigh plan
  | HighSchool => EducationPlan.highSchool plan
  | University => EducationPlan.university plan
  end.

(** The base annual cost of a band for a track choice, before the
    "does not attend" test. *)
Definition baseCost (band : Band) (choice : string) : Qc :=
  match band with
  | Nursery => bandCost choice (Num.ofZ 50) (Num.dec1 233)
  | Preschool => bandCost choice (Num.ofZ 100) (Num.dec1 583)
  | Elementary => bandCost choice (Num.dec1 833) (Num.dec1 417)
  | JuniorHigh => bandCost choice (Num.dec1 1333) (Num.dec1 667)
  | HighSchool => bandCost choice (Num.ofZ 250) (Num.dec1 833)
  | University => getUniversityCost choice
  end.

Definition isPrivate (band : Band) (choice : string) : Prop :=
  match band with
  | University => choice = "私立大学（文系）" \/ choice = "私立大学（理系）"
  | _ => choice = "私立"
  end.

Definition isPublic (band : Band) (choice : string) : Prop :=
  match band with
  | University => choice = "公立大学（文系）" \/ choice = "公立大学（理系）"
  | _ => choice = "公立"
  end.

End Spec.

(** The income profile with other side incomes and severance pays, and
    everything else as it is. *)
Definition withSideIncomesAndSeverance (sideIncomes : list SideIncome.t)
    (severancePay spouseSeverancePay : Qc) (incomeInfo : IncomeInfo.t) : IncomeInfo.t :=
  IncomeInfo.mk
    (IncomeInfo.annualIncome incomeInfo)
    (IncomeInfo.raiseRate incomeInfo)
    severancePay
    (IncomeInfo.workStartAge incomeInfo)
    (IncomeInfo.workEndAge incomeInfo)
    (IncomeInfo.pensionStartAge incomeInfo)
    (IncomeInfo.pensionAmount incomeInfo)
    sideIncomes
    (option_map
       (fun s => SpouseIncome.mk
          (SpouseIncome.annualIncome s)
          spouseSeverancePay
          (SpouseIncome.workStartAge s)
          (SpouseIncome.workEndAge s)
          (SpouseIncome.pensionAmount s))
       (IncomeInfo.spouse incomeInfo)).

(** The store with another income profile (the bare replacement, without the
    recompute that the [setIncomeInfo] action runs after it). *)
Definition replaceIncomeInfo (incomeInfo : IncomeInfo.t) (s : SimulatorState.t) : SimulatorState.t :=
  SimulatorState.mk (SimulatorState.currentStep s) (SimulatorState.basicInfo s)
    incomeInfo (SimulatorState.expenseInfo s) (SimulatorState.lifeEvents s)
    (SimulatorState.assetsLiabilities s) (SimulatorState.parameters s)
    (SimulatorState.cashFlow s).

(** ** A model of [@/lib/calculations]

    The three imported calculators, written from sections 4.1 to 4.3 of the
    specification.  The specification fixes their shape and leaves open the
    per-occupation constants and the year from which a rent increase
    compounds; these are parameters of the model. *)

Module Model.
Section Model.

Variable netRatio : string -> Qc.
Variable pensionFactor : string -> Qc.
Variable rentStartYear : Z.

(** Modelled from the spec: [calculateNetIncomeWithRaise] of
  lib/calculations.  Base income times the compounded raise times the
  net ratio of the occupation, to one decimal; no raise compounds before
  the base year. *)
Definition calculateNetIncomeWithRaise (annualIncome : Qc) (occupation : string)
  (raiseRate : Qc) (year startYear : Z) : Qc :=
Num.toFixed1
  (annualIncome
   * Num.pow (1 + raiseRate / Num.ofZ 100) (Z.max 0 (year - startYear))
   * netRatio occupation).

(** Modelled from the spec: [calculatePension] of lib/calculations.  Years
  worked (never negative) times the income times the generosity factor
  of the occupation; the pension start age is not used. *)
Definition calculatePension (annualIncome : Qc) (workStartAge workEndAge
  pensionStartAge : Z) (occupation : string) : Qc :=
Num.ofZ (Z.max 0 (workEndAge - workStartAge)) * annualIncome * pensionFactor occupation.

(** The fixed yearly payment that amortizes [loanAmount] over the term. *)
Definition annualLoanPayment (o : Own.t) : Qc :=
let r := Own.interestRate o / Num.ofZ 100 in
if decide (r = 0) then Own.loanAmount o / Num.ofZ (Own.loanTermYears o)
else Own.loanAmount o * r / (1 - Num.pow (1 + r) (- Own.loanTermYears o)).

(** Modelled from the spec: [calculateHousingExpense] of lib/calculations.
  Rent mode inflates twelve monthly rents; own mode pays the loan during
  its term and the upkeep from the purchase year on, and nothing before
  the purchase.  Only the active mode is read. *)
Definition calculateHousingExpense (housingInfo : HousingInfo.t) (year : Z) : Qc :=
match HousingInfo.type housingInfo with
| rent_type =>
    match HousingInfo.rent housingInfo with
    | Some r =>
        Num.toFixed1
          (Rent.monthlyRent r * Num.ofZ 12
           * Num.pow (1 + Rent.annualIncreaseRate r / Num.ofZ 100) (year - rentStartYear))
    | None => 0
    end
| own_type =>
    match HousingInfo.own housingInfo with
    | Some o =>
        let maintenance := Own.purchasePrice o * Own.maintenanceCostRate o / Num.ofZ 100 in
        if (year <? Own.purchaseYear o)%Z then 0
        else if (year <? Own.purchaseYear o + Own.loanTermYears o)%Z
        then annualLoanPayment o + maintenance
        else maintenance
    | None => 0
    end
end.

Definition lib : Calculations.t :=
Calculations.mk calculateNetIncomeWithRaise calculateHousingExpense calculatePension.

End Model.
End Model.

(** ** Sample inputs *)

Module Sample.

(** Stand-ins for the constants the specification leaves open. *)
Definition netRatio (occupation : string) : Qc :=
  if String.eqb occupation "company_employee" then Q2Qc (8 # 10)
  else if String.eqb occupation "part_time_with_pension" then Q2Qc (85 # 100)
  else if String.eqb occupation "part_time_without_pension" then Q2Qc (9 # 10)
  else if String.eqb occupation "self_employed" then Q2Qc (7 # 10)
  else 0.

Definition pensionFactor (occupation : string) : Qc :=
  if String.eqb occupation "company_employee" then Q2Qc (1 # 100)
  else if String.eqb occupation "part_time_with_pension" then Q2Qc (1 # 100)
  else Q2Qc (1 # 200).

Definition lib : Calculations.t := Model.lib netRatio pensionFactor 2025.

Definition plan (school university : string) : EducationPlan.t :=
  EducationPlan.mk school school school school school university.

(** The initial [basicInfo] of the store, with a rent of 8 a month and a
    living expense of 20 a month. *)
Definition basicInfo : BasicInfo.t :=
  BasicInfo.mk 30 2025 80 male (Num.ofZ 20) company_employee single
    (HousingInfo.mk rent_type (Some (Rent.mk (Num.ofZ 8) 0)) None)
    None [] [].

(** The initial [incomeInfo] of the store, with an income of 500. *)
Definition incomeInfo : IncomeInfo.t :=
  IncomeInfo.mk (Num.ofZ 500) 0 0 22 60 65 0 [] None.

Definition assetsLiabilities : AssetsLiabilities.t :=
  AssetsLiabilities.mk
    (Assets.mk (Num.ofZ 100) (Num.ofZ 200) 0 0 0)
    (Liabilities.mk (Num.ofZ 50) 0).

(** The initial [parameters] of the store. *)
Definition parameters : Parameters.t :=
  Parameters.mk 1 (Num.ofZ 2) (Num.ofZ 3).

Definition lifeEvents : list LifeEvent.t :=
  [ LifeEvent.mk 2026 "car" LifeEvent.expense "other" (Num.ofZ 150);
    LifeEvent.mk 2026 "gift" LifeEvent.income "other" (Num.ofZ 30);
    LifeEvent.mk 2030 "travel" LifeEvent.expense "other" (Num.ofZ 40) ].

Definition state : SimulatorState.t :=
  SimulatorState.mk 1 basicInfo incomeInfo (0, 0) lifeEvents
    assetsLiabilities parameters ∅.

(** A household that plans to marry at 32 a spouse who is then 29, with
    a spouse income of 300. *)
Definition spouseInfo : SpouseInfo.t :=
  SpouseInfo.mk (Some 29) None (Some 32) (Some "self_employed") None.

Definition spouse : SpouseIncome.t :=
  SpouseIncome.mk (Num.ofZ 300) 0 22 60 0.


(** Married in the form, but no spouse profile was ever entered. *)
Definition marriedNoSpouse : SimulatorState.t :=
  SimulatorState.mk 1
    (BasicInfo.mk 30 2025 32 male (Num.ofZ 20) company_employee married
       (HousingInfo.mk rent_type (Some (Rent.mk (Num.ofZ 8) 0)) None)
       None [] [])
    incomeInfo (0, 0) lifeEvents assetsLiabilities parameters ∅.

End Sample.

(** ** The life-event actions of the store *)

(** The store with another list of life events (the bare replacement). *)
Definition replaceLifeEvents (lifeEvents : list LifeEvent.t) (s : SimulatorState.t) : SimulatorState.t :=
  SimulatorState.mk (SimulatorState.currentStep s) (SimulatorState.basicInfo s)
    (SimulatorState.incomeInfo s) (SimulatorState.expenseInfo s) lifeEvents
    (SimulatorState.assetsLiabilities s) (SimulatorState.parameters s)
    (SimulatorState.cashFlow s).

(** [list.filter((_, i) => i !== index)], for a list whose first position
    is [i]. *)
Fixpoint filterOtherIndex {A} (index i : Z) (l : list A) : list A :=
  match l with
  | [] => []
  | x :: rest =>
      if (i =? index)%Z then filterOtherIndex index (i + 1) rest
      else x :: filterOtherIndex index (i + 1) rest
  end.

Section Actions.

Variable lib : Calculations.t.

(** [setCashFlow] *)
Definition setCashFlow (data : CashFlowData) (state : SimulatorState.t) : SimulatorState.t :=
  SimulatorState.set_cashFlow data state.

(** [addLifeEvent]: append the event, then recompute. *)
Definition addLifeEvent (event : LifeEvent.t) (state : SimulatorState.t) : option SimulatorState.t :=
  initializeCashFlow lib
    (replaceLifeEvents (SimulatorState.lifeEvents state ++ [event]) state).

(** [removeLifeEvent]: drop the event at the index, then recompute. *)
Definition removeLifeEvent (index : Z) (state : SimulatorState.t) : option SimulatorState.t :=
  initializeCashFlow lib
    (replaceLifeEvents (filterOtherIndex index 0 (SimulatorState.lifeEvents state)) state).

End Actions.

(** A planned child seen as an existing child that is [-yearsFromNow] years
    old at the start. *)
Definition asExisting (child : PlannedChild.t) : Child.t :=
  Child.mk (- PlannedChild.yearsFromNow child) (PlannedChild.educationPlan child).

(** A plan that chooses "does not attend" at every stage. *)
Definition neverAttends (plan : EducationPlan.t) : Prop :=
  forall band : Spec.Band, Spec.track band plan = "行かない".

(** ** The computations of the views

    The cash-flow form and the result chart derive their columns from the
    store inside the component functions; these are the computations, without
    the rendering. *)

(** [calculateAge] of the cash-flow form *)
Definition calculateAge (startYear currentAge targetYear : Z) : Z :=
  (currentAge + (targetYear - startYear))%Z.

(** [list.reduce((acc, x, index) => ..., init)], the positions counted from
    [index], for a callback that may read an undefined operand ([None]). *)
Fixpoint reduceFrom {A B} (f : B -> A -> nat -> option B) (index : nat)
    (l : list A) (acc : B) : option B :=
  match l with
  | [] => Some acc
  | x :: rest => acc' ← f acc x index; reduceFrom f (S index) rest acc'
  end.

(** [SimulationResults] of components/SimulationResults.tsx *)
Module ResultsChart.

(** The accumulator [{ assets: {}, returns: {} }]. *)
Record InvestmentData := mk { assets : gmap Z Qc; returns : gmap Z Qc }.

(** "Calculate initial total assets": the assets alone. *)
Definition initialAssets (al : AssetsLiabilities.t) : Qc :=
  Num.sum (Assets.values (AssetsLiabilities.assets al)).

(** The callback of the reduce that builds [investmentData]. *)
Definition investmentStep (years : list Z) (parameters : Parameters.t)
    (initialAssets : Qc) (acc : InvestmentData) (year : Z) (index : nat)
    : option InvestmentData :=
  if (index =? 0)%nat then
    Some (mk (<[year := initialAssets]> (assets acc)) (<[year := 0]> (returns acc)))
  else
    prevYear ← years !! (index - 1)%nat;
    prevAssets ← assets acc !! prevYear;
    let investmentReturn :=
      Num.toFixed1 (prevAssets * (Parameters.investmentReturn parameters / Num.ofZ 100)) in
    Some (mk (<[year := Num.toFixed1 (prevAssets + investmentReturn)]> (assets acc))
             (<[year := investmentReturn]> (returns acc))).

(** [investmentData] *)
Definition investmentData (state : SimulatorState.t) : option InvestmentData :=
  let years := years (SimulatorState.basicInfo state) in
  let initialAssets := initialAssets (SimulatorState.assetsLiabilities state) in
  reduceFrom (investmentStep years (SimulatorState.parameters state) initialAssets)
    0 years (mk ∅ ∅).

(** The assets after [n] years of compounding with yearly rounding. *)
Fixpoint compounded (parameters : Parameters.t) (initialAssets : Qc) (n : nat) : Qc :=
  match n with
  | O => initialAssets
  | S n =>
      let previous := compounded parameters initialAssets n in
      Num.toFixed1
        (previous
         + Num.toFixed1 (previous * (Parameters.investmentReturn parameters / Num.ofZ 100)))
  end.

(** The return the chart credits in the [i]-th year of that compounding:
    none in the first year. *)
Definition creditedReturn (parameters : Parameters.t) (initialAssets : Qc) (i : nat) : Qc :=
  match i with
  | O => 0
  | S j =>
      Num.toFixed1 (compounded parameters initialAssets j
                    * (Parameters.investmentReturn parameters / Num.ofZ 100))
  end.

(** The accumulator holds the compounded series for the first [k] of the
    years [ys]. *)
Definition filled (parameters : Parameters.t) (initialAssets : Qc) (ys : list Z)
    (k : nat) (acc : InvestmentData) : Prop :=
  forall (j : nat) (y : Z),
    (j < k)%nat -> ys !! j = Some y ->
    assets acc !! y = Some (compounded parameters initialAssets j)
    /\ returns acc !! y = Some (creditedReturn parameters initialAssets j).

End ResultsChart.

(** [CashFlowForm] of the cash-flow form (the variant with
    [yearlyBalances]) *)
Module CashFlowForm.

(** [lifeEventImpact] of a year *)
Definition lifeEventImpact (lifeEvents : list LifeEvent.t) (year : Z) : Qc :=
  let yearLifeEvents := filter (fun event => LifeEvent.year event = year) lifeEvents in
  fold_left
    (fun sum event =>
       sum + match LifeEvent.type event with
             | LifeEvent.income => LifeEvent.amount event
             | LifeEvent.expense => - LifeEvent.amount event
             end)
    yearLifeEvents 0.

(** The number the callback of the reduce stores at [acc[year]]: 0 when the
    table has no row for the year; [None] stands for NaN, the sum over a row
    that lacks one of the amounts. *)
Definition yearlyBalance (cashFlow : CashFlowData) (lifeEvents : list LifeEvent.t)
    (year : Z) : option Qc :=
  match cashFlow !! year with
  | None => Some 0
  | Some cf =>
      mainIncome ← cf !! Field.mainIncome;
      sideIncome ← cf !! Field.sideIncome;
      spouseIncome ← cf !! Field.spouseIncome;
      livingExpense ← cf !! Field.livingExpense;
      housingExpense ← cf !! Field.housingExpense;
      educationExpense ← cf !! Field.educationExpense;
      otherExpense ← cf !! Field.otherExpense;
      let income := mainIncome + sideIncome + spouseIncome in
      let expenses := livingExpense + housingExpense + educationExpense + otherExpense in
      Some (income - expenses + lifeEventImpact lifeEvents year)
  end.

(** [yearlyBalances]: [years.reduce(callback, {})], an object from years to
    numbers. *)
Definition yearlyBalances (state : SimulatorState.t) : gmap Z (option Qc) :=
  fold_left
    (fun acc year =>
       <[year := yearlyBalance (SimulatorState.cashFlow state)
                   (SimulatorState.lifeEvents state) year]> acc)
    (years (SimulatorState.basicInfo state)) ∅.

End CashFlowForm.

(** The cell [cashFlow[year][field]] of the store an action leaves. *)
Definition cellAfter (result : option SimulatorState.t) (year : Z) (field : Field.t) : option Qc :=
  state' ← result;
  row ← SimulatorState.cashFlow state' !! year;
  row !! field.

(** The store with another gender, another additional expense of the
    spouse and other pension amounts, and everything else as it is. *)
Definition withUnreadInputs (gender : Gender) (additionalExpense : option Qc)
    (pensionAmount spousePensionAmount : Qc) (s : SimulatorState.t) : SimulatorState.t :=
  let b := SimulatorState.basicInfo s in
  let inc := SimulatorState.incomeInfo s in
  SimulatorState.mk (SimulatorState.currentStep s)
    (BasicInfo.mk (BasicInfo.currentAge b) (BasicInfo.startYear b) (BasicInfo.deathAge b)
       gender (BasicInfo.monthlyLivingExpense b) (BasicInfo.occupation b)
       (BasicInfo.maritalStatus b) (BasicInfo.housingInfo b)
       (option_map
          (fun si => SpouseInfo.mk (SpouseInfo.age si) (SpouseInfo.currentAge si)
                       (SpouseInfo.marriageAge si) (SpouseInfo.occupation si)
                       additionalExpense)
          (BasicInfo.spouseInfo b))
       (BasicInfo.children b) (BasicInfo.plannedChildren b))
    (IncomeInfo.mk (IncomeInfo.annualIncome inc) (IncomeInfo.raiseRate inc)
       (IncomeInfo.severancePay inc) (IncomeInfo.workStartAge inc)
       (IncomeInfo.workEndAge inc) (IncomeInfo.pensionStartAge inc)
       pensionAmount (IncomeInfo.sideIncomes inc)
       (option_map
          (fun sp => SpouseIncome.mk (SpouseIncome.annualIncome sp)
                       (SpouseIncome.severancePay sp) (SpouseIncome.workStartAge sp)
                       (SpouseIncome.workEndAge sp) spousePensionAmount)
          (IncomeInfo.spouse inc)))
    (SimulatorState.expenseInfo s) (SimulatorState.lifeEvents s)
    (SimulatorState.assetsLiabilities s) (SimulatorState.parameters s)
    (SimulatorState.cashFlow s).

(** ** More sample inputs *)

Module Cases.

(** A horizon that ends before it starts. *)
Definition deadOnArrival : SimulatorState.t :=
  SimulatorState.mk 1
    (BasicInfo.mk 40 2025 39 male (Num.ofZ 20) company_employee single
       (HousingInfo.mk rent_type (Some (Rent.mk (Num.ofZ 8) 0)) None)
       None [] [])
    Sample.incomeInfo (0, 0) Sample.lifeEvents Sample.assetsLiabilities
    Sample.parameters ∅.

(** The status went back to single; the spouse data are still there. *)
Definition singleWithSpouseData : SimulatorState.t :=
  SimulatorState.mk 1
    (BasicInfo.mk 30 2025 80 male (Num.ofZ 20) company_employee single
       (HousingInfo.mk rent_type (Some (Rent.mk (Num.ofZ 8) 0)) None)
       (Some Sample.spouseInfo) [] [])
    (IncomeInfo.mk (Num.ofZ 500) 0 0 22 60 65 0 [] (Some Sample.spouse))
    (0, 0) Sample.lifeEvents Sample.assetsLiabilities Sample.parameters ∅.


(** Married to a self-employed spouse who is 28 at the start. *)
Definition spouseInfo : SpouseInfo.t :=
  SpouseInfo.mk None (Some 28) None (Some "self_employed") None.


(** Richer, with another return rate, and otherwise [Sample.state]. *)
Definition wealthy : SimulatorState.t :=
  SimulatorState.mk 1 Sample.basicInfo Sample.incomeInfo (0, 0) Sample.lifeEvents
    (AssetsLiabilities.mk
       (Assets.mk (Num.ofZ 5000) (Num.ofZ 200) (Num.ofZ 900) 0 0)
       (Liabilities.mk 0 0))
    (Parameters.mk 1 (Num.ofZ 2) (Num.ofZ 7)) ∅.


End Cases.

(** ** The arithmetic of the numbers, as an interface

    The calculators and the views only add, subtract, negate, multiply,
    divide, raise to a power, compare and call [toFixed(1)].  What they compute is written once
    more over an interface with exactly these operations, so that a property
    proved from the shape of the code alone holds for every arithmetic, and
    in particular for the double-precision numbers of the program
    ([Double.number] below), where a sum may not be regrouped and a rounded
    product is the rounding of the double product. *)

Module Number.

Record t := mk {
  num : Type;
  (** the literal [0] *)
  zero : num;
  add : num -> num -> num;
  sub : num -> num -> num;
  (** unary minus *)
  opp : num -> num;
  mul : num -> num -> num;
  div : num -> num -> num;
  (** [Math.pow(b, k)] for an integer [k] *)
  pow : num -> Z -> num;
  (** [Number(x.toFixed(1))] *)
  toFixed1 : num -> num;
  (** [x > 0] *)
  positive : num -> bool;
  (** [x === y] *)
  eqb : num -> num -> bool;
  (** an integer literal *)
  ofZ : Z -> num;
  (** the number a stored decimal amount denotes *)
  ofQc : Qc -> num }.

(** [values.reduce((sum, value) => sum + value, 0)] *)
Definition sum (N : t) (l : list (num N)) : num N := fold_left (add N) l (zero N).

End Number.

(** The exact rationals are one arithmetic: the one in which a sentence of
    the specification is read when nothing is said about rounding errors. *)
Definition exactNumber : Number.t :=
  Number.mk Qc 0 Qcplus Qcminus Qcopp Qcmult Qcdiv Num.pow Num.toFixed1
    (fun x => bool_decide (0 < x)) (fun x y => bool_decide (x = y)) Num.ofZ (fun q => q).

(** ** The store actions over the interface *)

Module Js.

(** The calculators of [@/lib/calculations], over the numbers of an
    arithmetic. *)
Record Calculations (N : Number.t) := mkCalculations {
  calculateNetIncomeWithRaise :
    Number.num N -> string -> Number.num N -> Z -> Z -> Number.num N;
  calculateHousingExpense : HousingInfo.t -> Z -> Number.num N;
  calculatePension : Number.num N -> Z -> Z -> Z -> string -> Number.num N }.

Arguments calculateNetIncomeWithRaise {N}.
Arguments calculateHousingExpense {N}.
Arguments calculatePension {N}.

Section Engine.

Variable N : Number.t.

Local Abbreviation num := (Number.num N).
Local Abbreviation zero := (Number.zero N).
Local Abbreviation add := (Number.add N).
Local Abbreviation sub := (Number.sub N).
Local Abbreviation mul := (Number.mul N).
Local Abbreviation div := (Number.div N).
Local Abbreviation toFixed1 := (Number.toFixed1 N).
Local Abbreviation ofZ := (Number.ofZ N).
Local Abbreviation ofQc := (Number.ofQc N).

(** [getUniversityCost] *)
Definition getUniversityCost (universityType : string) : num :=
  if String.eqb universityType "公立大学（文系）" then ofZ 325
  else if String.eqb universityType "公立大学（理系）" then ofZ 375
  else if String.eqb universityType "私立大学（文系）" then ofZ 550
  else if String.eqb universityType "私立大学（理系）" then ofZ 650
  else zero.

(** [plan.band === '私立' ? priv : pub] *)
Definition bandCost (track : string) (priv pub : num) : num :=
  if String.eqb track "私立" then priv else pub.

(** [plan.band !== '行かない' ? cost : 0] *)
Definition attends (track : string) (cost : num) : num :=
  if String.eqb track "行かない" then zero else cost.

(** The body shared by the two reducers of [calculateEducationExpense]. *)
Definition childExpense (childAge : Z) (plan : EducationPlan.t) : num :=
  let nursery := bandCost (EducationPlan.nursery plan) (ofZ 50) (ofQc (Num.dec1 233)) in
  let preschool := bandCost (EducationPlan.preschool plan) (ofZ 100) (ofQc (Num.dec1 583)) in
  let elementary :=
    bandCost (EducationPlan.elementary plan) (ofQc (Num.dec1 833)) (ofQc (Num.dec1 417)) in
  let juniorHigh :=
    bandCost (EducationPlan.juniorHigh plan) (ofQc (Num.dec1 1333)) (ofQc (Num.dec1 667)) in
  let highSchool := bandCost (EducationPlan.highSchool plan) (ofZ 250) (ofQc (Num.dec1 833)) in
  let expense := zero in
  let expense := if between 0 2 childAge
    then attends (EducationPlan.nursery plan) nursery else expense in
  let expense := if between 3 5 childAge
    then attends (EducationPlan.preschool plan) preschool else expense in
  let expense := if between 6 11 childAge
    then attends (EducationPlan.elementary plan) elementary else expense in
  let expense := if between 12 14 childAge
    then attends (EducationPlan.juniorHigh plan) juniorHigh else expense in
  let expense := if between 15 17 childAge
    then attends (EducationPlan.highSchool plan) highSchool else expense in
  let expense := if between 18 21 childAge
    then attends (EducationPlan.university plan)
           (getUniversityCost (EducationPlan.university plan)) else expense in
  expense.

(** The reducer over [children]. *)
Definition existingChildStep (year startYear : Z) (educationCostIncreaseRate : num)
    (total : num) (child : Child.t) : num :=
  let childAge := (Child.currentAge child + (year - startYear))%Z in
  let expense := childExpense childAge (Child.educationPlan child) in
  let yearsSinceStart := (year - startYear)%Z in
  let increaseMultiplier :=
    Number.pow N (add (ofZ 1) (div educationCostIncreaseRate (ofZ 100))) yearsSinceStart in
  add total (mul expense increaseMultiplier).

(** The reducer over [plannedChildren]. *)
Definition plannedChildStep (year startYear : Z) (educationCostIncreaseRate : num)
    (total : num) (child : PlannedChild.t) : num :=
  let yearsSinceStart := (year - startYear)%Z in
  if (PlannedChild.yearsFromNow child <=? yearsSinceStart)%Z then
    let childAge := (yearsSinceStart - PlannedChild.yearsFromNow child)%Z in
    let expense := childExpense childAge (PlannedChild.educationPlan child) in
    let increaseMultiplier :=
      Number.pow N (add (ofZ 1) (div educationCostIncreaseRate (ofZ 100))) yearsSinceStart in
    add total (mul expense increaseMultiplier)
  else total.

(** [calculateEducationExpense] *)
Definition calculateEducationExpense (children : list Child.t)
    (plannedChildren : list PlannedChild.t) (year currentAge startYear : Z)
    (educationCostIncreaseRate : num) : num :=
  let existingChildrenExpense :=
    fold_left (existingChildStep year startYear educationCostIncreaseRate) children zero in
  let plannedChildrenExpense :=
    fold_left (plannedChildStep year startYear educationCostIncreaseRate)
      plannedChildren zero in
  toFixed1 (add existingChildrenExpense plannedChildrenExpense).

(** The reducer of [calculateLifeEventExpense]. *)
Definition lifeEventStep (year : Z) (total : num) (event : LifeEvent.t) : num :=
  if (LifeEvent.year event =? year)%Z then
    match LifeEvent.type event with
    | LifeEvent.expense => add total (ofQc (LifeEvent.amount event))
    | LifeEvent.income => sub total (ofQc (LifeEvent.amount event))
    end
  else total.

(** [calculateLifeEventExpense] *)
Definition calculateLifeEventExpense (lifeEvents : list LifeEvent.t) (year : Z) : num :=
  let expense := fold_left (lifeEventStep year) lifeEvents zero in
  toFixed1 expense.

Variable lib : Calculations N.

(** "Calculate initial total assets" *)
Definition initialAssets (al : AssetsLiabilities.t) : num :=
  sub (Number.sum N (map ofQc (Assets.values (AssetsLiabilities.assets al))))
      (Number.sum N (map ofQc (Liabilities.values (AssetsLiabilities.liabilities al)))).

(** "Calculate main income" *)
Definition mainIncome (basicInfo : BasicInfo.t) (incomeInfo : IncomeInfo.t)
    (year : Z) : num :=
  let yearsSinceStart := (year - BasicInfo.startYear basicInfo)%Z in
  let age := (BasicInfo.currentAge basicInfo + yearsSinceStart)%Z in
  let mainIncome := zero in
  let mainIncome :=
    if between (IncomeInfo.workStartAge incomeInfo) (IncomeInfo.workEndAge incomeInfo) age
    then calculateNetIncomeWithRaise lib
           (ofQc (IncomeInfo.annualIncome incomeInfo))
           (occupation_name (BasicInfo.occupation basicInfo))
           (ofQc (IncomeInfo.raiseRate incomeInfo))
           year
           (BasicInfo.startYear basicInfo)
    else mainIncome in
  let mainIncome :=
    if (IncomeInfo.pensionStartAge incomeInfo <=? age)%Z
    then add mainIncome
           (calculatePension lib
              (ofQc (IncomeInfo.annualIncome incomeInfo))
              (IncomeInfo.workStartAge incomeInfo)
              (IncomeInfo.workEndAge incomeInfo)
              (IncomeInfo.pensionStartAge incomeInfo)
              (occupation_name (BasicInfo.occupation basicInfo)))
    else mainIncome in
  mainIncome.

(** The two [if]s of a spouse branch. *)
Definition spouseEarnings (incomeInfo : IncomeInfo.t) (spouse : SpouseIncome.t)
    (occupation : option string) (spouseAge year baseYear : Z) : num :=
  let spouseIncome := zero in
  let spouseIncome :=
    if between (SpouseIncome.workStartAge spouse) (SpouseIncome.workEndAge spouse) spouseAge
    then calculateNetIncomeWithRaise lib
           (ofQc (SpouseIncome.annualIncome spouse))
           (occupationOr occupation "company_employee")
           (ofZ 0)
           year
           baseYear
    else spouseIncome in
  let spouseIncome :=
    if (IncomeInfo.pensionStartAge incomeInfo <=? spouseAge)%Z
    then add spouseIncome
           (calculatePension lib
              (ofQc (SpouseIncome.annualIncome spouse))
              (SpouseIncome.workStartAge spouse)
              (SpouseIncome.workEndAge spouse)
              (IncomeInfo.pensionStartAge incomeInfo)
              (occupationOr occupation "company_employee"))
    else spouseIncome in
  spouseIncome.

(** "Calculate spouse income"; [None] is a read of a property of an
    undefined object. *)
Definition spouseIncome (basicInfo : BasicInfo.t) (incomeInfo : IncomeInfo.t)
    (year : Z) : option num :=
  let yearsSinceStart := (year - BasicInfo.startYear basicInfo)%Z in
  if bool_decide (BasicInfo.maritalStatus basicInfo = married)
     && defined (BasicInfo.spouseInfo basicInfo ≫= SpouseInfo.currentAge)
     && defined (IncomeInfo.spouse incomeInfo)
  then
    spouseInfo ← BasicInfo.spouseInfo basicInfo;
    currentAge ← SpouseInfo.currentAge spouseInfo;
    spouse ← IncomeInfo.spouse incomeInfo;
    let spouseAge := (currentAge + yearsSinceStart)%Z in
    Some (spouseEarnings incomeInfo spouse (SpouseInfo.occupation spouseInfo)
            spouseAge year (BasicInfo.startYear basicInfo))
  else if bool_decide (BasicInfo.maritalStatus basicInfo = planning)
          && defined (BasicInfo.spouseInfo basicInfo ≫= SpouseInfo.marriageAge)
  then
    spouseInfo ← BasicInfo.spouseInfo basicInfo;
    marriageAge ← SpouseInfo.marriageAge spouseInfo;
    let marriageYear :=
      (BasicInfo.startYear basicInfo + (marriageAge - BasicInfo.currentAge basicInfo))%Z in
    if (marriageYear <=? year)%Z
       && defined (IncomeInfo.spouse incomeInfo)
       && defined (SpouseInfo.age spouseInfo)
    then
      spouse ← IncomeInfo.spouse incomeInfo;
      age ← SpouseInfo.age spouseInfo;
      let spouseAge := (age + (year - marriageYear))%Z in
      Some (spouseEarnings incomeInfo spouse (SpouseInfo.occupation spouseInfo)
              spouseAge year marriageYear)
    else Some zero
  else Some zero.

(** "Calculate investment return" *)
Definition investmentReturn (parameters : Parameters.t) (previousYearAssets : num) : num :=
  if Number.positive N previousYearAssets
  then toFixed1
         (mul previousYearAssets
              (div (ofQc (Parameters.investmentReturn parameters)) (ofZ 100)))
  else zero.

(** "Calculate living expenses with inflation" *)
Definition livingExpense (basicInfo : BasicInfo.t) (parameters : Parameters.t)
    (year : Z) : num :=
  let yearsSinceStart := (year - BasicInfo.startYear basicInfo)%Z in
  let inflationMultiplier :=
    Number.pow N
      (add (ofZ 1) (div (ofQc (Parameters.inflationRate parameters)) (ofZ 100)))
      yearsSinceStart in
  toFixed1
    (mul (mul (ofQc (BasicInfo.monthlyLivingExpense basicInfo)) (ofZ 12))
         inflationMultiplier).

(** "Calculate housing expenses" *)
Definition housingExpense (basicInfo : BasicInfo.t) (year : Z) : num :=
  toFixed1 (calculateHousingExpense lib (BasicInfo.housingInfo basicInfo) year).

(** The object literal stored at [newCashFlow[year]]. *)
Definition makeRow (mainIncome investmentReturn spouseIncome livingExpense
    housingExpense educationExpense otherExpense : num) : gmap Field.t num :=
  list_to_map [
    (Field.mainIncome, toFixed1 mainIncome);
    (Field.sideIncome, zero);
    (Field.investmentIncome, toFixed1 investmentReturn);
    (Field.spouseIncome, toFixed1 spouseIncome);
    (Field.livingExpense, toFixed1 livingExpense);
    (Field.housingExpense, toFixed1 housingExpense);
    (Field.educationExpense, toFixed1 educationExpense);
    (Field.otherExpense, toFixed1 otherExpense) ].

(** [educationExpense] and [otherExpense] of a year. *)
Definition educationExpense (state : SimulatorState.t) (year : Z) : num :=
  calculateEducationExpense
    (BasicInfo.children (SimulatorState.basicInfo state))
    (BasicInfo.plannedChildren (SimulatorState.basicInfo state))
    year
    (BasicInfo.currentAge (SimulatorState.basicInfo state))
    (BasicInfo.startYear (SimulatorState.basicInfo state))
    (ofQc (Parameters.educationCostIncreaseRate (SimulatorState.parameters state))).

Definition otherExpense (state : SimulatorState.t) (year : Z) : num :=
  calculateLifeEventExpense (SimulatorState.lifeEvents state) year.

(** The callback of [years.forEach]. *)
Definition yearStep (state : SimulatorState.t) (acc : gmap Z (gmap Field.t num) * num)
    (year : Z) : option (gmap Z (gmap Field.t num) * num) :=
  let basicInfo := SimulatorState.basicInfo state in
  let incomeInfo := SimulatorState.incomeInfo state in
  let parameters := SimulatorState.parameters state in
  let newCashFlow := acc.1 in
  let previousYearAssets := acc.2 in
  let mainIncome := mainIncome basicInfo incomeInfo year in
  spouseIncome ← spouseIncome basicInfo incomeInfo year;
  let investmentReturn := investmentReturn parameters previousYearAssets in
  let livingExpense := livingExpense basicInfo parameters year in
  let housingExpense := housingExpense basicInfo year in
  let educationExpense := educationExpense state year in
  let otherExpense := otherExpense state year in
  let newCashFlow :=
    <[year := makeRow mainIncome investmentReturn spouseIncome livingExpense
                housingExpense educationExpense otherExpense]> newCashFlow in
  let income := add (add mainIncome spouseIncome) investmentReturn in
  let expenses :=
    add (add (add livingExpense housingExpense) educationExpense) otherExpense in
  Some (newCashFlow, toFixed1 (sub (add previousYearAssets income) expenses)).

(** [years.forEach(callback)] *)
Fixpoint forEachYear (state : SimulatorState.t) (ys : list Z)
    (acc : gmap Z (gmap Field.t num) * num) : option (gmap Z (gmap Field.t num) * num) :=
  match ys with
  | [] => Some acc
  | year :: rest => acc' ← yearStep state acc year; forEachYear state rest acc'
  end.

(** [initializeCashFlow]: the table the action stores, [None] when it
    throws. *)
Definition initializeCashFlow (state : SimulatorState.t) : option (gmap Z (gmap Field.t num)) :=
  let years := years (SimulatorState.basicInfo state) in
  let newCashFlow : gmap Z (gmap Field.t num) := ∅ in
  let initialAssets := initialAssets (SimulatorState.assetsLiabilities state) in
  let previousYearAssets := initialAssets in
  acc ← forEachYear state years (newCashFlow, previousYearAssets);
  Some acc.1.

(** The local [spouseIncome] of a year (its runs always complete). *)
Definition spouseIncomeValue (basicInfo : BasicInfo.t) (incomeInfo : IncomeInfo.t)
    (year : Z) : num :=
  default zero (spouseIncome basicInfo incomeInfo year).

(** [income] and [expenses] of the callback, for a year that starts from
    [previousYearAssets]. *)
Definition income (state : SimulatorState.t) (previousYearAssets : num) (year : Z) : num :=
  add (add (mainIncome (SimulatorState.basicInfo state) (SimulatorState.incomeInfo state) year)
           (spouseIncomeValue (SimulatorState.basicInfo state)
              (SimulatorState.incomeInfo state) year))
      (investmentReturn (SimulatorState.parameters state) previousYearAssets).

Definition expenses (state : SimulatorState.t) (year : Z) : num :=
  add (add (add (livingExpense (SimulatorState.basicInfo state)
                   (SimulatorState.parameters state) year)
                (housingExpense (SimulatorState.basicInfo state) year))
           (educationExpense state year))
      (otherExpense state year).

(** The row the callback stores, and the assets it carries over. *)
Definition rowOf (state : SimulatorState.t) (previousYearAssets : num) (year : Z)
    : gmap Field.t num :=
  makeRow
    (mainIncome (SimulatorState.basicInfo state) (SimulatorState.incomeInfo state) year)
    (investmentReturn (SimulatorState.parameters state) previousYearAssets)
    (spouseIncomeValue (SimulatorState.basicInfo state) (SimulatorState.incomeInfo state) year)
    (livingExpense (SimulatorState.basicInfo state) (SimulatorState.parameters state) year)
    (housingExpense (SimulatorState.basicInfo state) year)
    (educationExpense state year)
    (otherExpense state year).

Definition nextAssets (state : SimulatorState.t) (previousYearAssets : num) (year : Z) : num :=
  toFixed1 (sub (add previousYearAssets (income state previousYearAssets year))
                (expenses state year)).

Definition stepView (state : SimulatorState.t) (acc : gmap Z (gmap Field.t num) * num)
    (year : Z) : gmap Z (gmap Field.t num) * num :=
  (<[year := rowOf state acc.2 year]> acc.1, nextAssets state acc.2 year).

Definition loopView (state : SimulatorState.t) (ys : list Z)
    (acc : gmap Z (gmap Field.t num) * num) : gmap Z (gmap Field.t num) * num :=
  fold_left (stepView state) ys acc.

Definition assetsAfter (state : SimulatorState.t) (ys : list Z) (a : num) : num :=
  fold_left (nextAssets state) ys a.

(** The closing assets A(i): [previousYearAssets] once the first [i] years
    of the horizon are done. *)
Definition closingAssets (state : SimulatorState.t) (i : nat) : option num :=
  acc ← forEachYear state
          (take i (years (SimulatorState.basicInfo state)))
          (∅, initialAssets (SimulatorState.assetsLiabilities state));
  Some acc.2.

(** The cell [cashFlow[year][field]] after a full recompute. *)
Definition cell (state : SimulatorState.t) (year : Z) (field : Field.t) : option num :=
  table ← initializeCashFlow state;
  row ← table !! year;
  row !! field.

End Engine.

(** The running sum [calculateLifeEventExpense] keeps over the events of a
    year: an expense is added, an income subtracted, in list order. *)
Definition runningExpense (N : Number.t) (total : Number.num N) (event : LifeEvent.t)
    : Number.num N :=
  match LifeEvent.type event with
  | LifeEvent.expense => Number.add N total (Number.ofQc N (LifeEvent.amount event))
  | LifeEvent.income => Number.sub N total (Number.ofQc N (LifeEvent.amount event))
  end.

(** [SimulationResults] of components/SimulationResults.tsx *)
Module ResultsChart.
Section ResultsChart.

Variable N : Number.t.

(** The accumulator [{ assets: {}, returns: {} }]. *)
Record InvestmentData := mk {
  assets : gmap Z (Number.num N);
  returns : gmap Z (Number.num N) }.

(** "Calculate initial total assets": the assets alone. *)
Definition initialAssets (al : AssetsLiabilities.t) : Number.num N :=
  Number.sum N (map (Number.ofQc N) (Assets.values (AssetsLiabilities.assets al))).

(** The callback of the reduce that builds [investmentData]; [None] is a
    read of an entry that is not there. *)
Definition investmentStep (years : list Z) (parameters : Parameters.t)
    (initialAssets : Number.num N) (acc : InvestmentData) (year : Z) (index : nat)
    : option InvestmentData :=
  if (index =? 0)%nat then
    Some (mk (<[year := initialAssets]> (assets acc))
             (<[year := Number.zero N]> (returns acc)))
  else
    prevYear ← years !! (index - 1)%nat;
    prevAssets ← assets acc !! prevYear;
    let investmentReturn :=
      Number.toFixed1 N
        (Number.mul N prevAssets
           (Number.div N (Number.ofQc N (Parameters.investmentReturn parameters))
              (Number.ofZ N 100))) in
    Some (mk (<[year := Number.toFixed1 N (Number.add N prevAssets investmentReturn)]>
                (assets acc))
             (<[year := investmentReturn]> (returns acc))).

(** [investmentData] *)
Definition investmentData (state : SimulatorState.t) : option InvestmentData :=
  let years := years (SimulatorState.basicInfo state) in
  let initialAssets := initialAssets (SimulatorState.assetsLiabilities state) in
  reduceFrom (investmentStep years (SimulatorState.parameters state) initialAssets)
    0 years (mk ∅ ∅).

(** The return on [assets], as the callback computes it. *)
Definition yearlyReturn (parameters : Parameters.t) (assets : Number.num N)
    : Number.num N :=
  Number.toFixed1 N
    (Number.mul N assets
       (Number.div N (Number.ofQc N (Parameters.investmentReturn parameters))
          (Number.ofZ N 100))).

(** The assets after [n] years of compounding with yearly rounding. *)
Fixpoint compounded (parameters : Parameters.t) (initialAssets : Number.num N)
    (n : nat) : Number.num N :=
  match n with
  | O => initialAssets
  | S n =>
      let previous := compounded parameters initialAssets n in
      Number.toFixed1 N (Number.add N previous (yearlyReturn parameters previous))
  end.

(** The return the chart credits in the [i]-th year of that compounding:
    none in the first year. *)
Definition creditedReturn (parameters : Parameters.t) (initialAssets : Number.num N)
    (i : nat) : Number.num N :=
  match i with
  | O => Number.zero N
  | S j => yearlyReturn parameters (compounded parameters initialAssets j)
  end.

(** The accumulator holds the compounded series for the first [k] of the
    years [ys]. *)
Definition filled (parameters : Parameters.t) (initialAssets : Number.num N)
    (ys : list Z) (k : nat) (acc : InvestmentData) : Prop :=
  forall (j : nat) (y : Z),
    (j < k)%nat -> ys !! j = Some y ->
    assets acc !! y = Some (compounded parameters initialAssets j)
    /\ returns acc !! y = Some (creditedReturn parameters initialAssets j).

End ResultsChart.

Arguments assets {N}.
Arguments returns {N}.

End ResultsChart.

(** [CashFlowForm] of the cash-flow form (the variant with
    [yearlyBalances]) *)
Module CashFlowForm.
Section CashFlowForm.

Variable N : Number.t.

(** [lifeEventImpact] of a year *)
Definition lifeEventImpact (lifeEvents : list LifeEvent.t) (year : Z) : Number.num N :=
  let yearLifeEvents := filter (fun event => LifeEvent.year event = year) lifeEvents in
  fold_left
    (fun sum event =>
       Number.add N sum
         match LifeEvent.type event with
         | LifeEvent.income => Number.ofQc N (LifeEvent.amount event)
         | LifeEvent.expense => Number.opp N (Number.ofQc N (LifeEvent.amount event))
         end)
    yearLifeEvents (Number.zero N).

(** The number the callback of the reduce stores at [acc[year]]: 0 when the
    table has no row for the year; [None] stands for the NaN of a sum over
    a row that lacks one of the amounts. *)
Definition yearlyBalance (cashFlow : gmap Z (gmap Field.t (Number.num N)))
    (lifeEvents : list LifeEvent.t) (year : Z) : option (Number.num N) :=
  match cashFlow !! year with
  | None => Some (Number.zero N)
  | Some cf =>
      mainIncome ← cf !! Field.mainIncome;
      sideIncome ← cf !! Field.sideIncome;
      spouseIncome ← cf !! Field.spouseIncome;
      livingExpense ← cf !! Field.livingExpense;
      housingExpense ← cf !! Field.housingExpense;
      educationExpense ← cf !! Field.educationExpense;
      otherExpense ← cf !! Field.otherExpense;
      let income := Number.add N (Number.add N mainIncome sideIncome) spouseIncome in
      let expenses :=
        Number.add N
          (Number.add N (Number.add N livingExpense housingExpense) educationExpense)
          otherExpense in
      Some (Number.add N (Number.sub N income expenses) (lifeEventImpact lifeEvents year))
  end.

End CashFlowForm.
End CashFlowForm.

(** The sentences of the specification about the same quantities, in the
    words of the specification, over an arithmetic. *)
Module Spec.
Section Spec.

Variable N : Number.t.
Variable lib : Calculations N.

(** "signed sum of amounts for events whose year equals target year (income
    events add, expense events subtract), rounded to one decimal" *)
Definition lifeEventNetEffect (lifeEvents : list LifeEvent.t) (year : Z) : Number.num N :=
  Number.toFixed1 N
    (fold_left
       (fun total event =>
          match LifeEvent.type event with
          | LifeEvent.income => Number.add N total (Number.ofQc N (LifeEvent.amount event))
          | LifeEvent.expense => Number.sub N total (Number.ofQc N (LifeEvent.amount event))
          end)
       (filter (fun event => LifeEvent.year event = year) lifeEvents)
       (Number.zero N)).

(** "(main income + spouse income + investment return) minus (living +
    housing + education expenses) plus the life-event net effect" *)
Definition netBalance (state : SimulatorState.t) (previousYearAssets : Number.num N)
    (year : Z) : Number.num N :=
  let basicInfo := SimulatorState.basicInfo state in
  let incomeInfo := SimulatorState.incomeInfo state in
  let parameters := SimulatorState.parameters state in
  Number.add N
    (Number.sub N
       (Number.add N
          (Number.add N (mainIncome N lib basicInfo incomeInfo year)
             (spouseIncomeValue N lib basicInfo incomeInfo year))
          (investmentReturn N parameters previousYearAssets))
       (Number.add N
          (Number.add N (livingExpense N basicInfo parameters year)
             (housingExpense N lib basicInfo year))
          (educationExpense N state year)))
    (lifeEventNetEffect (SimulatorState.lifeEvents state) year).

(** "A(i+1) = round(A(i) + netBalance(i+1), 1)" *)
Definition nextClosingAssets (state : SimulatorState.t)
    (previousYearAssets : Number.num N) (year : Z) : Number.num N :=
  Number.toFixed1 N (Number.add N previousYearAssets (netBalance state previousYearAssets year)).

(** "R(i+1) = A(i) × investmentReturn/100 if A(i) > 0 else 0, rounded to
    one decimal", the product taken from left to right. *)
Definition investmentReturn (parameters : Parameters.t)
    (previousYearAssets : Number.num N) : Number.num N :=
  if Number.positive N previousYearAssets
  then Number.toFixed1 N
         (Number.div N
            (Number.mul N previousYearAssets
               (Number.ofQc N (Parameters.investmentReturn parameters)))
            (Number.ofZ N 100))
  else Number.zero N.

End Spec.
End Spec.

(** The calculators of [@/lib/calculations] as the specification describes
    them, over an arithmetic. *)
Module Model.
Section Model.

Variable N : Number.t.
Variable netRatio : string -> Qc.
Variable pensionFactor : string -> Qc.
Variable rentStartYear : Z.

Local Abbreviation num := (Number.num N).
Local Abbreviation add := (Number.add N).
Local Abbreviation sub := (Number.sub N).
Local Abbreviation mul := (Number.mul N).
Local Abbreviation div := (Number.div N).
Local Abbreviation ofZ := (Number.ofZ N).
Local Abbreviation ofQc := (Number.ofQc N).

(** Modelled from the spec: [calculateNetIncomeWithRaise] of
    lib/calculations.  Base income times the compounded raise times the
    net ratio of the occupation, to one decimal; no raise compounds before
    the base year. *)
Definition calculateNetIncomeWithRaise (annualIncome : num) (occupation : string)
    (raiseRate : num) (year startYear : Z) : num :=
  Number.toFixed1 N
    (mul (mul annualIncome
            (Number.pow N (add (ofZ 1) (div raiseRate (ofZ 100)))
               (Z.max 0 (year - startYear))))
         (ofQc (netRatio occupation))).

(** Modelled from the spec: [calculatePension] of lib/calculations.  Years
    worked (never negative) times the income times the generosity factor
    of the occupation; the pension start age is not used. *)
Definition calculatePension (annualIncome : num) (workStartAge workEndAge
    pensionStartAge : Z) (occupation : string) : num :=
  mul (mul (ofZ (Z.max 0 (workEndAge - workStartAge))) annualIncome)
      (ofQc (pensionFactor occupation)).

(** The fixed yearly payment that amortizes [loanAmount] over the term. *)
Definition annualLoanPayment (o : Own.t) : num :=
  let r := div (ofQc (Own.interestRate o)) (ofZ 100) in
  if Number.eqb N r (Number.zero N)
  then div (ofQc (Own.loanAmount o)) (ofZ (Own.loanTermYears o))
  else div (mul (ofQc (Own.loanAmount o)) r)
           (sub (ofZ 1) (Number.pow N (add (ofZ 1) r) (- Own.loanTermYears o))).

(** Modelled from the spec: [calculateHousingExpense] of lib/calculations.
    Rent mode inflates twelve monthly rents; own mode pays the loan during
    its term and the upkeep from the purchase year on, and nothing before
    the purchase.  Only the active mode is read. *)
Definition calculateHousingExpense (housingInfo : HousingInfo.t) (year : Z) : num :=
  match HousingInfo.type housingInfo with
  | rent_type =>
      match HousingInfo.rent housingInfo with
      | Some r =>
          Number.toFixed1 N
            (mul (mul (ofQc (Rent.monthlyRent r)) (ofZ 12))
                 (Number.pow N
                    (add (ofZ 1) (div (ofQc (Rent.annualIncreaseRate r)) (ofZ 100)))
                    (year - rentStartYear)))
      | None => Number.zero N
      end
  | own_type =>
      match HousingInfo.own housingInfo with
      | Some o =>
          let maintenance :=
            div (mul (ofQc (Own.purchasePrice o)) (ofQc (Own.maintenanceCostRate o)))
                (ofZ 100) in
          if (year <? Own.purchaseYear o)%Z then Number.zero N
          else if (year <? Own.purchaseYear o + Own.loanTermYears o)%Z
          then add (annualLoanPayment o) maintenance
          else maintenance
      | None => Number.zero N
      end
  end.

Definition lib : Calculations N :=
  mkCalculations N calculateNetIncomeWithRaise calculateHousingExpense calculatePension.

End Model.
End Model.

End Js.

(** The library of the sample inputs, in exact arithmetic. *)
Definition exactLib : Js.Calculations exactNumber :=
  Js.Model.lib exactNumber Sample.netRatio Sample.pensionFactor 2025.

(** ** The double-precision numbers of the program

    A JavaScript [number] is an IEEE 754 binary64 value; [+], [-], [*], [/]
    and the comparisons are those of the primitive floats.  A decimal
    literal, and a stored decimal amount, denotes the double nearest to
    it. *)

Module Double.

(** The double of an integer literal. *)
Definition ofZ (n : Z) : PrimFloat.float :=
  FloatOps.SF2Prim (SpecFloat.binary_normalize FloatOps.prec FloatOps.emax n 0 false).

(** The double nearest to [p / q], with the sign in front: what a decimal
    numeral denotes when it is read. *)
Definition ratio (negative : bool) (p q : positive) : PrimFloat.float :=
  FloatOps.SF2Prim
    (SpecFloat.SFdiv FloatOps.prec FloatOps.emax
       (SpecFloat.S754_finite negative p 0) (SpecFloat.S754_finite false q 0)).

(** The double a stored decimal denotes. *)
Definition ofQc (q : Qc) : PrimFloat.float :=
  match Qnum q with
  | Z0 => PrimFloat.zero
  | Zpos p => ratio false p (Qden q)
  | Zneg p => ratio true p (Qden q)
  end.

(** For the double of magnitude [m * 2 ^ e]: the integer [n] for which
    [n / 10] is closest to it, the larger one on a tie (step 10 of
    [Number.prototype.toFixed]). *)
Definition nearestTenth (m : positive) (e : Z) : Z :=
  if (0 <=? e)%Z then (10 * Zpos m * 2 ^ e)%Z
  else ((20 * Zpos m + 2 ^ (- e)) / 2 ^ (- e + 1))%Z.

(** [Number(x.toFixed(1))].  [toFixed] leaves to [ToString] a value that is
    not finite or whose magnitude reaches 10^21; otherwise it formats the
    digits of [nearestTenth] with one of them after the point and puts the
    sign of a negative [x] in front, and [Number] reads the numeral back. *)
Definition toFixed1 (x : PrimFloat.float) : PrimFloat.float :=
  match FloatOps.Prim2SF x with
  | SpecFloat.S754_finite negative m e =>
      if PrimFloat.leb (ofZ (10 ^ 21)) (PrimFloat.abs x) then x
      else
        match nearestTenth m e with
        | Zpos n => ratio negative n 10
        | _ => if negative then PrimFloat.neg_zero else PrimFloat.zero
        end
  | SpecFloat.S754_zero _ => PrimFloat.zero
  | _ => x
  end.

(** [Math.pow(b, k)] for an integer [k].  The language fixes the result for
    [k = 0], which is 1 for every [b]; the other results are left to the
    implementation, up to an approximation.  Here they are the product of
    [k] factors, and its inverse for a negative [k]: 0 to a negative power
    is [Infinity]. *)
Definition pow (b : PrimFloat.float) (k : Z) : PrimFloat.float :=
  match k with
  | Z0 => PrimFloat.one
  | Zpos p => Pos.iter (PrimFloat.mul b) PrimFloat.one p
  | Zneg p => PrimFloat.div PrimFloat.one (Pos.iter (PrimFloat.mul b) PrimFloat.one p)
  end.

Definition number : Number.t :=
  Number.mk PrimFloat.float PrimFloat.zero PrimFloat.add PrimFloat.sub PrimFloat.opp
    PrimFloat.mul PrimFloat.div pow toFixed1 (PrimFloat.ltb PrimFloat.zero)
    PrimFloat.eqb ofZ ofQc.

(** A decimal numeral with one digit after the point: [dec1 233] is the
    double of 23.3. *)
Definition dec1 (n : Z) : PrimFloat.float := ofQc (Num.dec1 n).

(** The library of the sample inputs, in doubles. *)
Definition lib : Js.Calculations number :=
  Js.Model.lib number Sample.netRatio Sample.pensionFactor 2025.

End Double.

(** ** Sample inputs for the double-precision runs *)

Module Households.

(** [Sample.state] with [cash] as its only asset and no liability. *)
Definition withCash (cash : Qc) : SimulatorState.t :=
  SimulatorState.mk 1 Sample.basicInfo Sample.incomeInfo (0, 0) Sample.lifeEvents
    (AssetsLiabilities.mk (Assets.mk cash 0 0 0 0) (Liabilities.mk 0 0))
    Sample.parameters ∅.

(** A household head of 61, past the work window and not yet drawing a
    pension, who pays no rent, spends 1 a month, holds 1.75 in cash and
    pays a repair of 2.2 in the first year. *)
Definition retired : SimulatorState.t :=
  SimulatorState.mk 1
    (BasicInfo.mk 61 2025 63 male (Num.ofZ 1) company_employee single
       (HousingInfo.mk rent_type (Some (Rent.mk 0 0)) None)
       None [] [])
    Sample.incomeInfo (0, 0)
    [LifeEvent.mk 2025 "repair" LifeEvent.expense "other" (Num.dec1 22)]
    (AssetsLiabilities.mk (Assets.mk (Q2Qc (175 # 100)) 0 0 0 0) (Liabilities.mk 0 0))
    Sample.parameters ∅.

End Households.

(** ** Facts about the exact numbers *)

Module NumFacts.

Lemma Qfloor_unique (q : Q) (z : Z) :
  (inject_Z z <= q)%Q -> (q < inject_Z (z + 1))%Q -> Qfloor q = z.
Proof.
  intros Hlo Hhi.
  pose proof (Qfloor_le q) as H1. pose proof (Qlt_floor q) as H2.
  assert (Ha : (inject_Z (Qfloor q) < inject_Z (z + 1))%Q)
    by (eapply Qle_lt_trans; eauto).
  assert (Hb : (inject_Z z < inject_Z (Qfloor q + 1))%Q)
    by (eapply Qle_lt_trans; eauto).
  rewrite <- Zlt_Qlt in Ha, Hb. lia.
Qed.

Lemma this_dec1 (n : Z) : (this (Num.dec1 n) == n # 10)%Q.
Proof. unfold Num.dec1. simpl. apply Qred_correct. Qed.

Lemma nearestTenth_dec1 (n : Z) : Num.nearestTenth (Num.dec1 n) = n.
Proof.
  unfold Num.nearestTenth. rewrite this_dec1.
  apply Qfloor_unique; unfold Qle, Qlt; simpl; lia.
Qed.

Lemma dec1_le (n m : Z) : (n <= m)%Z -> Num.dec1 n ≤ Num.dec1 m.
Proof.
  intros H. unfold Qcle. rewrite !this_dec1. unfold Qle; simpl; lia.
Qed.

Lemma dec1_opp (n : Z) : Num.dec1 (- n) = - Num.dec1 n.
Proof.
  apply Qc_is_canon. simpl. rewrite !Qred_correct. reflexivity.
Qed.

Lemma dec1_0 : Num.dec1 0 = 0.
Proof. apply Qc_is_canon. reflexivity. Qed.

Lemma dec1_nonneg (n : Z) : (0 <= n)%Z -> 0 ≤ Num.dec1 n.
Proof. intros H. rewrite <- dec1_0. by apply dec1_le. Qed.

Lemma nearestTenth_mono (p q : Q) :
  (p <= q)%Q -> (Num.nearestTenth p <= Num.nearestTenth q)%Z.
Proof.
  intros H. apply Qfloor_resp_le.
  apply Qplus_le_compat; [|apply Qle_refl].
  apply Qmult_le_compat_r; [done|]. unfold Qle; simpl; lia.
Qed.

Lemma nearestTenth_nonneg (q : Q) : (0 <= q)%Q -> (0 <= Num.nearestTenth q)%Z.
Proof.
  intros H. change 0%Z with (Num.nearestTenth 0). by apply nearestTenth_mono.
Qed.

Lemma toFixed1_nonneg_eq (x : Qc) :
  0 ≤ x -> Num.toFixed1 x = Num.dec1 (Num.nearestTenth x).
Proof.
  intros H. unfold Num.toFixed1. case_decide as Hx; [|done].
  by apply Qclt_not_le in Hx.
Qed.

Lemma toFixed1_neg_eq (x : Qc) :
  x < 0 -> Num.toFixed1 x = - Num.dec1 (Num.nearestTenth (- x)%Qc).
Proof. intros H. unfold Num.toFixed1. by case_decide. Qed.

Lemma Qcopp_pos (x : Qc) : x < 0 -> 0 < - x.
Proof. intros H. apply Qclt_minus_iff in H. by rewrite Qcplus_0_l in H. Qed.

Lemma toFixed1_0 : Num.toFixed1 0 = 0.
Proof. apply Qc_is_canon. reflexivity. Qed.

(** [toFixed] treats a number and its opposite alike. *)
Lemma toFixed1_opp (x : Qc) : Num.toFixed1 (- x) = - Num.toFixed1 x.
Proof.
  destruct (Qclt_le_dec x 0) as [Hneg|Hpos].
  - rewrite (toFixed1_neg_eq x Hneg), Qcopp_involutive.
    apply toFixed1_nonneg_eq.
    by apply Qclt_le_weak, Qcopp_pos.
  - destruct (decide (x = 0)) as [->|Hne].
    + change (- 0) with 0. by rewrite toFixed1_0.
    + assert (Hx : 0 < x).
      { apply Qcle_lt_or_eq in Hpos as [?|?]; [done|congruence]. }
      rewrite (toFixed1_nonneg_eq x Hpos).
      rewrite toFixed1_neg_eq, Qcopp_involutive; [done|].
      apply Qclt_minus_iff. by rewrite Qcopp_involutive, Qcplus_0_l.
Qed.

Lemma toFixed1_nonneg (x : Qc) : 0 ≤ x -> 0 ≤ Num.toFixed1 x.
Proof.
  intros H. rewrite toFixed1_nonneg_eq by done.
  apply dec1_nonneg, nearestTenth_nonneg. exact H.
Qed.

Lemma toFixed1_nonpos (x : Qc) : x ≤ 0 -> Num.toFixed1 x ≤ 0.
Proof.
  intros H. apply Qcopp_le_compat in H. change (- 0) with 0 in H.
  apply toFixed1_nonneg in H. rewrite toFixed1_opp in H.
  apply Qcopp_le_compat in H. by rewrite Qcopp_involutive in H.
Qed.

(** Rounding a rounded amount changes nothing. *)
Lemma toFixed1_idem (x : Qc) : Num.toFixed1 (Num.toFixed1 x) = Num.toFixed1 x.
Proof.
  assert (Hpos : forall y : Qc, 0 ≤ y ->
            Num.toFixed1 (Num.toFixed1 y) = Num.toFixed1 y).
  { intros y Hy. rewrite (toFixed1_nonneg_eq (Num.toFixed1 y)) by by apply toFixed1_nonneg.
    rewrite (toFixed1_nonneg_eq y Hy) at 1. by rewrite nearestTenth_dec1, <- toFixed1_nonneg_eq. }
  destruct (Qclt_le_dec x 0) as [Hneg|Hx]; [|by apply Hpos].
  assert (Hy : 0 ≤ - x) by by apply Qclt_le_weak, Qcopp_pos.
  rewrite <- (Qcopp_involutive x).
  rewrite (toFixed1_opp (- x)), (toFixed1_opp (Num.toFixed1 (- x))).
  f_equal. by apply Hpos.
Qed.

(** Rounding keeps the order of amounts. *)
Lemma toFixed1_mono (x y : Qc) : x ≤ y -> Num.toFixed1 x ≤ Num.toFixed1 y.
Proof.
  intros Hxy.
  destruct (Qclt_le_dec x 0) as [Hx|Hx], (Qclt_le_dec y 0) as [Hy|Hy].
  - rewrite (toFixed1_neg_eq x Hx), (toFixed1_neg_eq y Hy).
    apply Qcopp_le_compat, dec1_le, nearestTenth_mono.
    by apply Qcopp_le_compat in Hxy.
  - trans 0; [apply toFixed1_nonpos; by apply Qclt_le_weak|by apply toFixed1_nonneg].
  - exfalso. eapply Qclt_not_le; [exact Hy|]. by trans x.
  - rewrite (toFixed1_nonneg_eq x Hx), (toFixed1_nonneg_eq y Hy).
    by apply dec1_le, nearestTenth_mono.
Qed.

Lemma pow_nonneg (b : Qc) (k : Z) : 0 ≤ b -> 0 ≤ Num.pow b k.
Proof.
  intros Hb. unfold Num.pow. case_decide.
  - by apply Qcpower_pos.
  - pose proof (Qcpower_pos b (Z.to_nat (- k)) Hb) as Hp.
    destruct (decide (b ^ Z.to_nat (- k) = 0)) as [->|Hne]; [done|].
    apply Qclt_le_weak, Qcinv_pos.
    apply Qcle_lt_or_eq in Hp as [?|?]; [done|congruence].
Qed.

End NumFacts.

(** ** The loop of [initializeCashFlow] *)

Section StoreFacts.

Variable lib : Calculations.t.

(** No read of the spouse profile is reached while the profile is
    undefined. *)
Lemma spouseIncome_completes basicInfo incomeInfo year :
  spouseIncome lib basicInfo incomeInfo year
  = Some (spouseIncomeValue lib basicInfo incomeInfo year).
Proof.
  unfold spouseIncomeValue.
  assert (H : is_Some (spouseIncome lib basicInfo incomeInfo year)).
  { unfold spouseIncome.
    destruct (BasicInfo.maritalStatus basicInfo),
      (BasicInfo.spouseInfo basicInfo) as [[a c m o e]|],
      (IncomeInfo.spouse incomeInfo) as [sp|];
      simpl; try destruct c; try destruct m; try destruct a;
      simpl; repeat case_match; eauto;
      rewrite ?andb_false_r in *; discriminate. }
  destruct H as [v ->]. reflexivity.
Qed.

Lemma yearStep_eq state acc year :
  yearStep lib state acc year = Some (stepView lib state acc year).
Proof.
  unfold yearStep, stepView, rowOf, nextAssets.
  rewrite spouseIncome_completes.
  generalize (spouseIncomeValue lib (SimulatorState.basicInfo state)
                (SimulatorState.incomeInfo state) year) as sp.
  reflexivity.
Qed.

Lemma forEachYear_eq state ys : forall acc,
  forEachYear lib state ys acc = Some (loopView lib state ys acc).
Proof.
  induction ys as [|y ys IH]; intros acc; simpl; [done|].
  rewrite yearStep_eq. simpl. apply IH.
Qed.

Lemma loopView_snd state ys : forall acc,
  (loopView lib state ys acc).2 = assetsAfter lib state ys acc.2.
Proof.
  induction ys as [|y ys IH]; intros acc; [done|].
  unfold loopView, assetsAfter in *. simpl. by rewrite IH.
Qed.

Lemma loopView_dom state ys : forall acc,
  dom (loopView lib state ys acc).1 = dom acc.1 ∪ list_to_set ys.
Proof.
  induction ys as [|y ys IH]; intros acc.
  - simpl. by rewrite union_empty_r_L.
  - unfold loopView in *. simpl. rewrite IH. simpl.
    rewrite dom_insert_L.
    by rewrite (comm_L (∪) {[y]}), (assoc_L (∪)).
Qed.

Lemma loopView_lookup_notin state ys y : forall acc,
  y ∉ ys -> (loopView lib state ys acc).1 !! y = acc.1 !! y.
Proof.
  induction ys as [|y' ys IH]; intros acc Hy; [done|].
  apply not_elem_of_cons in Hy as [Hne Hy].
  unfold loopView in *. simpl. rewrite IH by done. simpl.
  by rewrite lookup_insert_ne.
Qed.

(** The row of the [i]-th year is the one its own callback stored: no
    later year overwrites it. *)
Lemma loopView_lookup state ys : forall acc i y,
  NoDup ys -> ys !! i = Some y ->
  (loopView lib state ys acc).1 !! y
  = Some (rowOf lib state (assetsAfter lib state (take i ys) acc.2) y).
Proof.
  induction ys as [|y' ys IH]; intros acc i y Hnd Hi; [done|].
  apply NoDup_cons in Hnd as [Hnotin Hnd].
  destruct i as [|i]; simpl in Hi.
  - injection Hi as ->.
    change (loopView lib state (y :: ys) acc)
      with (loopView lib state ys (stepView lib state acc y)).
    rewrite loopView_lookup_notin by done.
    simpl. by rewrite lookup_insert_eq.
  - change (loopView lib state (y' :: ys) acc)
      with (loopView lib state ys (stepView lib state acc y')).
    rewrite (IH _ i y) by done. reflexivity.
Qed.

Lemma years_seqZ basicInfo :
  years basicInfo
  = seqZ (BasicInfo.startYear basicInfo)
         (BasicInfo.deathAge basicInfo - BasicInfo.currentAge basicInfo + 1).
Proof.
  unfold years, seqZ.
  generalize (seq 0 (Z.to_nat (BasicInfo.deathAge basicInfo
                               - BasicInfo.currentAge basicInfo + 1))).
  intros l. induction l as [|n l IH]; simpl; [done|].
  f_equal; [lia|exact IH].
Qed.

Lemma years_NoDup basicInfo : NoDup (years basicInfo).
Proof. rewrite years_seqZ. apply NoDup_seqZ. Qed.

Lemma initializeCashFlow_eq state :
  initializeCashFlow lib state
  = Some (SimulatorState.set_cashFlow
            (loopView lib state (years (SimulatorState.basicInfo state))
               (∅, initialAssets (SimulatorState.assetsLiabilities state))).1
            state).
Proof. unfold initializeCashFlow. rewrite forEachYear_eq. reflexivity. Qed.

(** What a full recompute leaves in the cells of the [i]-th year. *)
Lemma cell_eq state i year field :
  years (SimulatorState.basicInfo state) !! i = Some year ->
  cell lib state year field
  = rowOf lib state
      (assetsAfter lib state (take i (years (SimulatorState.basicInfo state)))
         (initialAssets (SimulatorState.assetsLiabilities state)))
      year !! field.
Proof.
  intros Hi. unfold cell. rewrite initializeCashFlow_eq. simpl.
  rewrite (loopView_lookup _ _ _ i year (years_NoDup _) Hi). reflexivity.
Qed.

Lemma makeRow_lookup m inv sp liv hou edu oth field :
  makeRow m inv sp liv hou edu oth !! field
  = Some match field with
         | Field.mainIncome => Num.toFixed1 m
         | Field.sideIncome => 0
         | Field.investmentIncome => Num.toFixed1 inv
         | Field.spouseIncome => Num.toFixed1 sp
         | Field.livingExpense => Num.toFixed1 liv
         | Field.housingExpense => Num.toFixed1 hou
         | Field.educationExpense => Num.toFixed1 edu
         | Field.otherExpense => Num.toFixed1 oth
         end.
Proof. destruct field; reflexivity. Qed.

End StoreFacts.

(** ** Sums *)

(** Closes an equation between two closed rationals by evaluation. *)
Ltac qc_eval := apply Qc_is_canon; vm_compute; reflexivity.

(** Refutes an equation between two distinct closed rationals. *)
Ltac qc_differ :=
  let H := fresh in
  intros H; apply (f_equal this) in H; vm_compute in H; discriminate H.

Section Sums.

Lemma sum_from (l : list Qc) : forall a, fold_left Qcplus l a = a + Num.sum l.
Proof.
  unfold Num.sum.
  induction l as [|x l IH]; intros a; simpl.
  - ring.
  - rewrite (IH (a + x)), (IH (0 + x)). ring.
Qed.

Lemma sum_cons (x : Qc) (l : list Qc) : Num.sum (x :: l) = x + Num.sum l.
Proof. unfold Num.sum at 1. simpl. rewrite sum_from. ring. Qed.

Lemma sum_nil : Num.sum [] = 0.
Proof. reflexivity. Qed.

End Sums.

(** ** The loop of [initializeCashFlow], in every arithmetic *)

Section JsFacts.

Variable N : Number.t.
Variable lib : Js.Calculations N.

(** No read of the spouse profile is reached while the profile is
    undefined. *)
Lemma js_spouseIncome_completes basicInfo incomeInfo year :
  Js.spouseIncome N lib basicInfo incomeInfo year
  = Some (Js.spouseIncomeValue N lib basicInfo incomeInfo year).
Proof.
  unfold Js.spouseIncomeValue.
  assert (H : is_Some (Js.spouseIncome N lib basicInfo incomeInfo year)).
  { unfold Js.spouseIncome.
    destruct (BasicInfo.maritalStatus basicInfo),
      (BasicInfo.spouseInfo basicInfo) as [[a c m o e]|],
      (IncomeInfo.spouse incomeInfo) as [sp|];
      simpl; try destruct c; try destruct m; try destruct a;
      simpl; repeat case_match; eauto;
      rewrite ?andb_false_r in *; discriminate. }
  destruct H as [v ->]. reflexivity.
Qed.

Lemma js_yearStep_eq state acc year :
  Js.yearStep N lib state acc year = Some (Js.stepView N lib state acc year).
Proof.
  unfold Js.yearStep, Js.stepView, Js.rowOf, Js.nextAssets, Js.income, Js.expenses.
  rewrite js_spouseIncome_completes.
  generalize (Js.spouseIncomeValue N lib (SimulatorState.basicInfo state)
                (SimulatorState.incomeInfo state) year) as sp.
  reflexivity.
Qed.

Lemma js_forEachYear_eq state ys : forall acc,
  Js.forEachYear N lib state ys acc = Some (Js.loopView N lib state ys acc).
Proof.
  induction ys as [|y ys IH]; intros acc; simpl; [done|].
  rewrite js_yearStep_eq. simpl. apply IH.
Qed.

Lemma js_loopView_snd state ys : forall acc,
  (Js.loopView N lib state ys acc).2 = Js.assetsAfter N lib state ys acc.2.
Proof.
  induction ys as [|y ys IH]; intros acc; [done|].
  unfold Js.loopView, Js.assetsAfter in *. simpl. by rewrite IH.
Qed.

Lemma js_loopView_lookup_notin state ys y : forall acc,
  y ∉ ys -> (Js.loopView N lib state ys acc).1 !! y = acc.1 !! y.
Proof.
  induction ys as [|y' ys IH]; intros acc Hy; [done|].
  apply not_elem_of_cons in Hy as [Hne Hy].
  unfold Js.loopView in *. simpl. rewrite IH by done. simpl.
  by rewrite lookup_insert_ne.
Qed.

(** The row of the [i]-th year is the one its own callback stored. *)
Lemma js_loopView_lookup state ys : forall acc i y,
  NoDup ys -> ys !! i = Some y ->
  (Js.loopView N lib state ys acc).1 !! y
  = Some (Js.rowOf N lib state (Js.assetsAfter N lib state (take i ys) acc.2) y).
Proof.
  induction ys as [|y' ys IH]; intros acc i y Hnd Hi; [done|].
  apply NoDup_cons in Hnd as [Hnotin Hnd].
  destruct i as [|i]; simpl in Hi.
  - injection Hi as ->.
    change (Js.loopView N lib state (y :: ys) acc)
      with (Js.loopView N lib state ys (Js.stepView N lib state acc y)).
    rewrite js_loopView_lookup_notin by done.
    simpl. by rewrite lookup_insert_eq.
  - change (Js.loopView N lib state (y' :: ys) acc)
      with (Js.loopView N lib state ys (Js.stepView N lib state acc y')).
    rewrite (IH _ i y) by done. reflexivity.
Qed.

Lemma js_initializeCashFlow_eq state :
  Js.initializeCashFlow N lib state
  = Some (Js.loopView N lib state (years (SimulatorState.basicInfo state))
            (∅, Js.initialAssets N (SimulatorState.assetsLiabilities state))).1.
Proof. unfold Js.initializeCashFlow. rewrite js_forEachYear_eq. reflexivity. Qed.

Lemma js_closingAssets_eq state i :
  Js.closingAssets N lib state i
  = Some (Js.assetsAfter N lib state
            (take i (years (SimulatorState.basicInfo state)))
            (Js.initialAssets N (SimulatorState.assetsLiabilities state))).
Proof.
  unfold Js.closingAssets. rewrite js_forEachYear_eq. simpl.
  by rewrite js_loopView_snd.
Qed.

Lemma js_assetsAfter_S state ys i y a :
  ys !! i = Some y ->
  Js.assetsAfter N lib state (take (S i) ys) a
  = Js.nextAssets N lib state (Js.assetsAfter N lib state (take i ys) a) y.
Proof.
  intros Hi. rewrite (take_S_r _ _ _ Hi).
  unfold Js.assetsAfter. by rewrite fold_left_app.
Qed.

(** What a full recompute leaves in the cells of the [i]-th year. *)
Lemma js_cell_eq state i year field :
  years (SimulatorState.basicInfo state) !! i = Some year ->
  Js.cell N lib state year field
  = Js.rowOf N lib state
      (Js.assetsAfter N lib state (take i (years (SimulatorState.basicInfo state)))
         (Js.initialAssets N (SimulatorState.assetsLiabilities state)))
      year !! field.
Proof.
  intros Hi. unfold Js.cell. rewrite js_initializeCashFlow_eq. simpl.
  rewrite (js_loopView_lookup _ _ _ i year (years_NoDup _) Hi). reflexivity.
Qed.

Lemma js_makeRow_lookup m inv sp liv hou edu oth field :
  Js.makeRow N m inv sp liv hou edu oth !! field
  = Some match field with
         | Field.mainIncome => Number.toFixed1 N m
         | Field.sideIncome => Number.zero N
         | Field.investmentIncome => Number.toFixed1 N inv
         | Field.spouseIncome => Number.toFixed1 N sp
         | Field.livingExpense => Number.toFixed1 N liv
         | Field.housingExpense => Number.toFixed1 N hou
         | Field.educationExpense => Number.toFixed1 N edu
         | Field.otherExpense => Number.toFixed1 N oth
         end.
Proof. destruct field; reflexivity. Qed.

(** The reducer of [calculateLifeEventExpense] passes over the events of
    other years. *)
Lemma js_lifeEventStep_fold year lifeEvents : forall total,
  fold_left (Js.lifeEventStep N year) lifeEvents total
  = fold_left (Js.runningExpense N)
      (filter (fun event => LifeEvent.year event = year) lifeEvents) total.
Proof.
  induction lifeEvents as [|event rest IH]; intros total; [done|].
  simpl. rewrite IH. unfold Js.lifeEventStep at 1.
  destruct (Z.eqb_spec (LifeEvent.year event) year) as [Heq|Hne].
  - rewrite filter_cons_True by done. reflexivity.
  - rewrite filter_cons_False by done. reflexivity.
Qed.

End JsFacts.

(** ** The views, in every arithmetic *)

Section JsChart.

Variable N : Number.t.
Variable state : SimulatorState.t.

Local Abbreviation ys := (years (SimulatorState.basicInfo state)) (only parsing).
Local Abbreviation parameters := (SimulatorState.parameters state) (only parsing).
Local Abbreviation start :=
  (Js.ResultsChart.initialAssets N (SimulatorState.assetsLiabilities state)) (only parsing).
Local Abbreviation holds := (Js.ResultsChart.filled N parameters start ys) (only parsing).

Lemma js_investmentStep_next (acc : Js.ResultsChart.InvestmentData N) (year : Z) (k : nat)
    (prevYear : Z) (prevAssets : Number.num N) :
  ys !! k = Some prevYear ->
  Js.ResultsChart.assets acc !! prevYear = Some prevAssets ->
  Js.ResultsChart.investmentStep N ys parameters start acc year (S k)
  = Some (Js.ResultsChart.mk N
            (<[year := Number.toFixed1 N
                         (Number.add N prevAssets
                            (Js.ResultsChart.yearlyReturn N parameters prevAssets))]>
               (Js.ResultsChart.assets acc))
            (<[year := Js.ResultsChart.yearlyReturn N parameters prevAssets]>
               (Js.ResultsChart.returns acc))).
Proof.
  intros Hprev Hassets. unfold Js.ResultsChart.investmentStep.
  replace (S k =? 0)%nat with false by done.
  replace (S k - 1)%nat with k by lia.
  rewrite Hprev. cbn [mbind option_bind]. rewrite Hassets. reflexivity.
Qed.

Lemma js_investment_reduce (rest : list Z) :
  forall (k : nat) (acc : Js.ResultsChart.InvestmentData N),
    drop k ys = rest ->
    holds k acc ->
    exists data : Js.ResultsChart.InvestmentData N,
      reduceFrom (Js.ResultsChart.investmentStep N ys parameters start) k rest acc
      = Some data
      /\ holds (length ys) data.
Proof.
  induction rest as [|year rest IH]; intros k acc Hdrop Hacc.
  - exists acc. split; [done|].
    intros j y Hj Hy. apply Hacc; [|done].
    clear Hj. apply lookup_lt_Some in Hy.
    assert (length (drop k ys) = 0%nat) by by rewrite Hdrop.
    rewrite length_drop in *. lia.
  - assert (Hk : ys !! k = Some year).
    { rewrite <- (Nat.add_0_r k), <- lookup_drop, Hdrop. done. }
    assert (Hrest : drop (S k) ys = rest).
    { rewrite (drop_S _ _ _ Hk) in Hdrop. by injection Hdrop. }
    assert (Hfresh : forall j y, (j < k)%nat -> ys !! j = Some y -> year <> y).
    { intros j y Hj Hy ->.
      pose proof (NoDup_lookup _ _ _ _ (years_NoDup _) Hy Hk). lia. }
    cbn [reduceFrom].
    destruct k as [|k].
    + change (Js.ResultsChart.investmentStep N ys parameters start acc year 0)
        with (Some (Js.ResultsChart.mk N
                      (<[year := start]> (Js.ResultsChart.assets acc))
                      (<[year := Number.zero N]> (Js.ResultsChart.returns acc)))).
      cbn [mbind option_bind]. apply IH; [done|].
      intros j y Hj Hy. assert (j = 0)%nat as -> by lia.
      rewrite Hk in Hy. injection Hy as <-.
      cbn [Js.ResultsChart.assets Js.ResultsChart.returns].
      by rewrite !lookup_insert_eq.
    + destruct (ys !! k) as [prevYear|] eqn:Hprev.
      2:{ apply lookup_ge_None in Hprev. apply lookup_lt_Some in Hk. lia. }
      destruct (Hacc k prevYear ltac:(lia) Hprev) as [Hassets _].
      rewrite (js_investmentStep_next acc year k prevYear _ Hprev Hassets).
      cbn [mbind option_bind]. apply IH; [done|].
      intros j y Hj Hy. cbn [Js.ResultsChart.assets Js.ResultsChart.returns].
      destruct (decide (j = S k)) as [->|Hne].
      * rewrite Hk in Hy. injection Hy as <-.
        by rewrite !lookup_insert_eq.
      * rewrite !lookup_insert_ne by (eapply Hfresh; [|done]; lia).
        apply Hacc; [lia|done].
Qed.

Lemma js_investmentData_holds :
  exists data : Js.ResultsChart.InvestmentData N,
    Js.ResultsChart.investmentData N state = Some data
    /\ forall (i : nat) (year : Z),
         ys !! i = Some year ->
         Js.ResultsChart.assets data !! year
         = Some (Js.ResultsChart.compounded N parameters start i)
         /\ Js.ResultsChart.returns data !! year
            = Some (Js.ResultsChart.creditedReturn N parameters start i).
Proof.
  destruct (js_investment_reduce ys 0 (Js.ResultsChart.mk N ∅ ∅)) as (data & Hrun & Hdata).
  - done.
  - intros j y Hj. lia.
  - exists data. split; [exact Hrun|].
    intros i year Hi. apply Hdata; [|done]. by apply lookup_lt_Some in Hi.
Qed.

End JsChart.

(** Over children who are all born, the reducer for planned children does
    what the reducer for existing children does on the same children with
    the age they had at the start, a negative one. *)
Lemma js_plannedChildren_fold (N : Number.t) (year startYear : Z) (rate : Number.num N)
    (planned : list PlannedChild.t) : forall total : Number.num N,
  Forall (fun child => (PlannedChild.yearsFromNow child <= year - startYear)%Z) planned ->
  fold_left (Js.plannedChildStep N year startYear rate) planned total
  = fold_left (Js.existingChildStep N year startYear rate) (map asExisting planned) total.
Proof.
  induction planned as [|child rest IH]; intros total Hborn; [done|].
  apply Forall_cons in Hborn as [Hchild Hrest].
  simpl. rewrite <- (IH _ Hrest). f_equal.
  unfold Js.plannedChildStep, Js.existingChildStep, asExisting. simpl.
  destruct (Z.leb_spec (PlannedChild.yearsFromNow child) (year - startYear)); [|lia].
  by replace (- PlannedChild.yearsFromNow child + (year - startYear))%Z
    with (year - startYear - PlannedChild.yearsFromNow child)%Z by lia.
Qed.

(** ** Evaluation in double precision *)

(** Closes an equation between two closed doubles by evaluation. *)
Ltac double_eval := vm_compute; reflexivity.

(** Refutes an equation between two distinct closed doubles. *)
Ltac double_differ :=
  let H := fresh in
  intros H; apply (f_equal FloatOps.Prim2SF) in H; vm_compute in H; discriminate H.

(** What [toFixed(1)] makes of some doubles: the double next to 1.15 lies
    below it, the double sum 122.39 + 36.26 lies above 158.65, the double
    product 5 × (3 / 100) lies below 0.15, and a negative value that rounds
    to no tenth keeps its sign. *)
Lemma double_toFixed1_samples :
  Double.toFixed1 (Double.ofQc (Q2Qc (115 # 100))) = Double.dec1 11
  /\ Double.toFixed1
       (PrimFloat.add (Double.ofQc (Q2Qc (12239 # 100))) (Double.ofQc (Q2Qc (3626 # 100))))
     = Double.dec1 1587
  /\ Double.toFixed1
       (PrimFloat.mul (Double.ofZ 5) (PrimFloat.div (Double.ofZ 3) (Double.ofZ 100)))
     = Double.dec1 1
  /\ Double.toFixed1 (Double.ofQc (Q2Qc (-1 # 100))) = PrimFloat.neg_zero
  /\ Double.toFixed1 PrimFloat.neg_zero = PrimFloat.zero
  /\ Double.toFixed1 PrimFloat.infinity = PrimFloat.infinity.
Proof. repeat split; double_eval. Qed.

(** ** The closing assets (C1) *)

(** C1, as the code has it. The closing assets start at the five asset
    buckets, summed from 0 in the order of the object, minus the two
    liability buckets, summed the same way. The closing assets of every
    simulated year are [toFixed(1)] of the double
    [(previous + income) - expenses], where the income is
    [(main income + spouse income) + investment return] and the expenses
    are [((living + housing) + education) + other expense], the other
    expense being the result of [calculateLifeEventExpense]; every sum is a
    double-precision sum taken in this order. *)
Theorem closing_assets_carry (lib : Js.Calculations Double.number)
    (state : SimulatorState.t) :
  let basicInfo := SimulatorState.basicInfo state in
  let incomeInfo := SimulatorState.incomeInfo state in
  let parameters := SimulatorState.parameters state in
  let assets := AssetsLiabilities.assets (SimulatorState.assetsLiabilities state) in
  let liabilities := AssetsLiabilities.liabilities (SimulatorState.assetsLiabilities state) in
  Js.closingAssets Double.number lib state 0
  = Some (PrimFloat.sub
            (fold_left PrimFloat.add (map Double.ofQc (Assets.values assets))
               PrimFloat.zero)
            (fold_left PrimFloat.add (map Double.ofQc (Liabilities.values liabilities))
               PrimFloat.zero))
  /\ forall (i : nat) (year : Z),
       years basicInfo !! i = Some year ->
       exists a : PrimFloat.float,
         Js.closingAssets Double.number lib state i = Some a
         /\ Js.closingAssets Double.number lib state (S i)
            = Some (Double.toFixed1
                      (PrimFloat.sub
                         (PrimFloat.add a
                            (PrimFloat.add
                               (PrimFloat.add
                                  (Js.mainIncome Double.number lib basicInfo incomeInfo year)
                                  (Js.spouseIncomeValue Double.number lib basicInfo
                                     incomeInfo year))
                               (Js.investmentReturn Double.number parameters a)))
                         (PrimFloat.add
                            (PrimFloat.add
                               (PrimFloat.add
                                  (Js.livingExpense Double.number basicInfo parameters year)
                                  (Js.housingExpense Double.number lib basicInfo year))
                               (Js.educationExpense Double.number state year))
                            (Js.calculateLifeEventExpense Double.number
                               (SimulatorState.lifeEvents state) year)))).
Proof.
  intros basicInfo incomeInfo parameters assets liabilities. split.
  - rewrite js_closingAssets_eq. reflexivity.
  - intros i year Hi. eexists. split; [apply js_closingAssets_eq|].
    rewrite js_closingAssets_eq, (js_assetsAfter_S _ _ state _ i year _ Hi).
    reflexivity.
Qed.

Lemma closing_assets_carry_witness :
  let state := Households.withCash (Num.ofZ 5) in
  years (SimulatorState.basicInfo state) !! 0%nat = Some 2025%Z
  /\ Js.closingAssets Double.number Double.lib state 0 = Some (Double.ofZ 5)
  /\ Js.closingAssets Double.number Double.lib state 1 = Some (Double.dec1 691).
Proof.
  intros state.
  destruct (closing_assets_carry Double.lib state) as [H0 HS].
  assert (Hv : Js.closingAssets Double.number Double.lib state 0 = Some (Double.ofZ 5)).
  { rewrite H0. double_eval. }
  split; [reflexivity|]. split; [exact Hv|].
  destruct (HS 0%nat 2025%Z eq_refl) as (a & Ha & HSa).
  assert (a = Double.ofZ 5) as -> by congruence.
  rewrite HSa. double_eval.
Defined.

(** C1, as stated, fails. A retired household head with 1.75 in cash, an
    investment return of 0.1, living expenses of 12 and a repair of 2.2
    closes the first year at -12.3: the code subtracts the double 14.2 from
    the double 1.85, which gives a double just above -12.35. The previous
    assets plus the net balance are -12.35 and round to -12.4, in exact
    arithmetic and also when the net balance is computed first in double
    precision. *)
Lemma closing_assets_tie_counterexample :
  let state := Households.retired in
  let a0 := Q2Qc (175 # 100) in
  years (SimulatorState.basicInfo state) !! 0%nat = Some 2025%Z
  /\ Js.closingAssets Double.number Double.lib state 0 = Some (Double.ofQc a0)
  /\ Js.closingAssets Double.number Double.lib state 1 = Some (Double.dec1 (-123))
  /\ Js.Spec.nextClosingAssets Double.number Double.lib state (Double.ofQc a0) 2025
     = Double.dec1 (-124)
  /\ Js.Spec.nextClosingAssets exactNumber exactLib state a0 2025 = Num.dec1 (-124)
  /\ Double.dec1 (-123) <> Double.dec1 (-124).
Proof.
  intros state a0.
  split; [reflexivity|]. split; [double_eval|]. split; [double_eval|].
  split; [double_eval|]. split; [qc_eval|]. double_differ.
Qed.

(** ** The life-event calculator (C2) *)

(** C2, as the code has it. For every list of life events and every target
    year, [calculateLifeEventExpense] returns [toFixed(1)] of a running sum
    in double precision that starts at 0 and visits, in list order, exactly
    the events of that year: an expense adds its amount, an income
    subtracts it. Events of other years contribute nothing and all events
    of the year contribute. *)
Theorem life_event_expense_running_sum (lifeEvents : list LifeEvent.t) (year : Z) :
  Js.calculateLifeEventExpense Double.number lifeEvents year
  = Double.toFixed1
      (fold_left
         (fun total event =>
            match LifeEvent.type event with
            | LifeEvent.expense => PrimFloat.add total (Double.ofQc (LifeEvent.amount event))
            | LifeEvent.income => PrimFloat.sub total (Double.ofQc (LifeEvent.amount event))
            end)
         (filter (fun event => LifeEvent.year event = year) lifeEvents)
         PrimFloat.zero).
Proof.
  unfold Js.calculateLifeEventExpense.
  rewrite js_lifeEventStep_fold. reflexivity.
Qed.

(** C2, as stated, fails. One expense of 10 in 2025 gives 10, and the signed
    sum that counts an expense negatively is -10. With the sign turned, the
    result is still not the rounded exact sum: one expense of 1.15 gives
    1.1, the rounding of the double next to 1.15, where the exact amount
    rounds to 1.2. *)
Lemma life_event_expense_counterexample :
  let car := [LifeEvent.mk 2025 "car" LifeEvent.expense "other" (Num.ofZ 10)] in
  let fee := [LifeEvent.mk 2025 "fee" LifeEvent.expense "other" (Q2Qc (115 # 100))] in
  Js.calculateLifeEventExpense Double.number car 2025 = Double.ofZ 10
  /\ Js.Spec.lifeEventNetEffect Double.number car 2025 = Double.ofZ (-10)
  /\ Js.Spec.lifeEventNetEffect exactNumber car 2025 = Num.ofZ (-10)
  /\ Double.ofZ 10 <> Double.ofZ (-10)
  /\ Js.calculateLifeEventExpense Double.number fee 2025 = Double.dec1 11
  /\ Js.Spec.lifeEventNetEffect exactNumber fee 2025 = Num.dec1 (-12)
  /\ Double.dec1 11 <> Double.dec1 12.
Proof.
  intros car fee.
  split; [double_eval|]. split; [double_eval|]. split; [qc_eval|].
  split; [double_differ|]. split; [double_eval|]. split; [qc_eval|]. double_differ.
Qed.

(** ** The investment return (C3) *)

(** C3, as the code has it. In the row of every simulated year the
    investment income is, when the closing assets of the year before are
    strictly positive, [toFixed(1)] of the double product of those assets
    and the double [investmentReturn / 100], passed through [toFixed(1)]
    once more when the row is stored; it is 0 when those assets are zero,
    negative or not a number. *)
Theorem investment_income_cell (lib : Js.Calculations Double.number)
    (state : SimulatorState.t) (i : nat) (year : Z) :
  years (SimulatorState.basicInfo state) !! i = Some year ->
  exists a : PrimFloat.float,
    Js.closingAssets Double.number lib state i = Some a
    /\ Js.cell Double.number lib state year Field.investmentIncome
       = Some (if PrimFloat.ltb PrimFloat.zero a
               then Double.toFixed1
                      (Double.toFixed1
                         (PrimFloat.mul a
                            (PrimFloat.div
                               (Double.ofQc
                                  (Parameters.investmentReturn
                                     (SimulatorState.parameters state)))
                               (Double.ofZ 100))))
               else PrimFloat.zero).
Proof.
  intros Hi. eexists. split; [apply js_closingAssets_eq|].
  rewrite (js_cell_eq _ _ state i year _ Hi). unfold Js.rowOf.
  rewrite js_makeRow_lookup. apply (f_equal Some).
  unfold Js.investmentReturn. simpl.
  destruct (PrimFloat.ltb _ _); reflexivity.
Qed.

Lemma investment_income_cell_witness :
  let state := Households.withCash (Num.ofZ 5) in
  years (SimulatorState.basicInfo state) !! 1%nat = Some 2026%Z
  /\ Js.closingAssets Double.number Double.lib state 1 = Some (Double.dec1 691)
  /\ Js.cell Double.number Double.lib state 2026 Field.investmentIncome
     = Some (Double.dec1 21).
Proof.
  intros state.
  split; [reflexivity|].
  destruct (investment_income_cell Double.lib state 1 2026 eq_refl) as (a & Ha & Hcell).
  assert (Hv : Js.closingAssets Double.number Double.lib state 1
               = Some (Double.dec1 691)) by double_eval.
  split; [exact Hv|].
  rewrite Hcell. assert (a = Double.dec1 691) as -> by congruence.
  double_eval.
Defined.

(** C3, as stated, fails. With 45 of assets and a return rate of 3 the row
    of the first year holds 1.3: the double [3 / 100] lies below 0.03 and
    the double product below 1.35. The product 45 × 3 / 100 is 1.35 and
    rounds to 1.4, in exact arithmetic and also in double precision when
    the product is taken from left to right. *)
Lemma investment_income_tie_counterexample :
  let state := Households.withCash (Num.ofZ 45) in
  years (SimulatorState.basicInfo state) !! 0%nat = Some 2025%Z
  /\ Js.closingAssets Double.number Double.lib state 0 = Some (Double.ofZ 45)
  /\ Js.cell Double.number Double.lib state 2025 Field.investmentIncome
     = Some (Double.dec1 13)
  /\ Js.Spec.investmentReturn exactNumber (SimulatorState.parameters state) (Num.ofZ 45)
     = Num.dec1 14
  /\ Js.Spec.investmentReturn Double.number (SimulatorState.parameters state)
       (Double.ofZ 45)
     = Double.dec1 14
  /\ Double.dec1 13 <> Double.dec1 14.
Proof.
  intros state.
  split; [reflexivity|]. split; [double_eval|]. split; [double_eval|].
  split; [qc_eval|]. split; [double_eval|]. double_differ.
Qed.

(** ** Main income outside the work window (C4) *)

(** C4, as the code has it. In the row of every simulated year in which the
    age of the household head lies outside [workStartAge, workEndAge], the
    main income is the pension alone: the result of [calculatePension], to
    one decimal, from the pension start age on, and exactly 0 before it. *)
Theorem main_income_outside_work_window (lib : Calculations.t)
    (state : SimulatorState.t) (i : nat) (year : Z) :
  let basicInfo := SimulatorState.basicInfo state in
  let incomeInfo := SimulatorState.incomeInfo state in
  years basicInfo !! i = Some year ->
  between (IncomeInfo.workStartAge incomeInfo) (IncomeInfo.workEndAge incomeInfo)
    (ageIn basicInfo year) = false ->
  cell lib state year Field.mainIncome
  = Some (if (IncomeInfo.pensionStartAge incomeInfo <=? ageIn basicInfo year)%Z
          then Num.toFixed1
                 (Calculations.calculatePension lib
                    (IncomeInfo.annualIncome incomeInfo)
                    (IncomeInfo.workStartAge incomeInfo)
                    (IncomeInfo.workEndAge incomeInfo)
                    (IncomeInfo.pensionStartAge incomeInfo)
                    (occupation_name (BasicInfo.occupation basicInfo)))
          else 0).
Proof.
  intros basicInfo incomeInfo Hi Hout.
  rewrite (cell_eq lib state i year _ Hi). unfold rowOf.
  rewrite makeRow_lookup. apply (f_equal Some).
  unfold mainIncome. fold basicInfo incomeInfo. fold (ageIn basicInfo year).
  rewrite Hout. destruct (_ <=? _)%Z.
  - by rewrite Qcplus_0_l.
  - apply NumFacts.toFixed1_0.
Qed.

Lemma main_income_outside_work_window_witness :
  years Sample.basicInfo !! 31%nat = Some 2056%Z
  /\ between 22 60 (ageIn Sample.basicInfo 2056) = false
  /\ cell Sample.lib Sample.state 2056 Field.mainIncome = Some 0.
Proof.
  split; [reflexivity|]. split; [reflexivity|].
  exact (main_income_outside_work_window Sample.lib Sample.state 31 2056
           eq_refl eq_refl).
Defined.

(** C4, as stated, fails: at 70 the household head is past the work window
    and draws a pension, and the main income of 2065 is the pension, 190. *)
Lemma main_income_outside_window_counterexample :
  years Sample.basicInfo !! 40%nat = Some 2065%Z
  /\ ageIn Sample.basicInfo 2065 = 70%Z
  /\ between (IncomeInfo.workStartAge Sample.incomeInfo)
       (IncomeInfo.workEndAge Sample.incomeInfo) (ageIn Sample.basicInfo 2065) = false
  /\ cell Sample.lib Sample.state 2065 Field.mainIncome = Some (Num.ofZ 190)
  /\ cell Sample.lib Sample.state 2065 Field.mainIncome <> Some 0.
Proof.
  assert (Hcell : cell Sample.lib Sample.state 2065 Field.mainIncome
                  = Some (Num.ofZ 190)).
  { rewrite (cell_eq Sample.lib Sample.state 40 2065 _ eq_refl). unfold rowOf.
    rewrite makeRow_lookup. apply (f_equal Some). qc_eval. }
  do 3 (split; [reflexivity|]). split; [exact Hcell|].
  rewrite Hcell. intros H. apply (f_equal (fmap this)) in H.
  vm_compute in H. discriminate H.
Qed.

(** ** The spouse's income (C5, C8) *)

Section SpouseFacts.

Variable lib : Calculations.t.

Lemma spouseIncome_missing basicInfo incomeInfo year :
  BasicInfo.spouseInfo basicInfo = None \/ IncomeInfo.spouse incomeInfo = None ->
  spouseIncome lib basicInfo incomeInfo year = Some 0.
Proof.
  intros [H|H]; unfold spouseIncome; rewrite H; simpl.
  - by rewrite !andb_false_r.
  - rewrite !andb_false_r.
    destruct (BasicInfo.spouseInfo basicInfo) as [si|]; simpl;
      [destruct (SpouseInfo.marriageAge si); simpl|];
      rewrite ?andb_false_r, ?andb_true_r; simpl;
      by destruct (BasicInfo.maritalStatus basicInfo).
Qed.

Lemma cell_spouseIncome state i year :
  years (SimulatorState.basicInfo state) !! i = Some year ->
  cell lib state year Field.spouseIncome
  = Num.toFixed1 <$> spouseIncome lib (SimulatorState.basicInfo state)
                       (SimulatorState.incomeInfo state) year.
Proof.
  intros Hi. rewrite (cell_eq lib state i year _ Hi). unfold rowOf.
  by rewrite makeRow_lookup, spouseIncome_completes.
Qed.

End SpouseFacts.



(** C8. When the spouse profile, or the spouse's income record, is absent,
    whatever the marital status, the recompute completes, and it stores for
    every year of the horizon a row with all eight amounts, in which the
    spouse income is 0. *)
Theorem missing_spouse_profile (lib : Calculations.t) (state : SimulatorState.t) :
  BasicInfo.spouseInfo (SimulatorState.basicInfo state) = None
  \/ IncomeInfo.spouse (SimulatorState.incomeInfo state) = None ->
  exists state' : SimulatorState.t,
    initializeCashFlow lib state = Some state'
    /\ forall year : Z,
         year ∈ years (SimulatorState.basicInfo state) ->
         exists row : Row,
           SimulatorState.cashFlow state' !! year = Some row
           /\ row !! Field.spouseIncome = Some 0
           /\ forall field : Field.t, is_Some (row !! field).
Proof.
  intros Hmissing. eexists. split; [apply initializeCashFlow_eq|].
  intros year Hyear. apply list_elem_of_lookup in Hyear as [i Hi].
  eexists. split.
  - simpl. apply (loopView_lookup lib state _ _ i year (years_NoDup _) Hi).
  - unfold rowOf. split.
    + rewrite makeRow_lookup. unfold spouseIncomeValue.
      rewrite (spouseIncome_missing lib _ _ _ Hmissing). simpl.
      by rewrite NumFacts.toFixed1_0.
    + intros field. rewrite makeRow_lookup. eauto.
Qed.

Lemma missing_spouse_profile_witness :
  BasicInfo.maritalStatus (SimulatorState.basicInfo Sample.marriedNoSpouse) = married
  /\ exists state' : SimulatorState.t,
       initializeCashFlow Sample.lib Sample.marriedNoSpouse = Some state'
       /\ exists row : Row,
            SimulatorState.cashFlow state' !! 2027%Z = Some row
            /\ row !! Field.spouseIncome = Some 0.
Proof.
  split; [reflexivity|].
  destruct (missing_spouse_profile Sample.lib Sample.marriedNoSpouse
              (or_introl eq_refl)) as (state' & Hrun & Hrows).
  exists state'. split; [exact Hrun|].
  destruct (Hrows 2027%Z) as (row & Hrow & Hspouse & _).
  - apply list_elem_of_lookup. by exists 2%nat.
  - by exists row.
Defined.

(** ** Side income and severance pay (C9) *)

Section Unused.

Variable lib : Calculations.t.

(** Every row of the table built by the loop comes from the row literal. *)
Lemma loopView_rows state (P : Row -> Prop) :
  (forall a y, P (rowOf lib state a y)) ->
  forall ys acc,
    (forall y r, acc.1 !! y = Some r -> P r) ->
    forall y r, (loopView lib state ys acc).1 !! y = Some r -> P r.
Proof.
  intros Hrow. induction ys as [|y' ys IH]; intros acc Hacc y r; [apply Hacc|].
  change (loopView lib state (y' :: ys) acc)
    with (loopView lib state ys (stepView lib state acc y')).
  apply IH. intros y0 r0. simpl.
  destruct (decide (y' = y0)) as [->|Hne].
  - rewrite lookup_insert_eq. intros [= <-]. apply Hrow.
  - rewrite lookup_insert_ne by done. apply Hacc.
Qed.

(** The callback reads neither the side incomes nor a severance pay. *)
Lemma stepView_unused state sideIncomes severancePay spouseSeverancePay acc year :
  stepView lib
    (replaceIncomeInfo
       (withSideIncomesAndSeverance sideIncomes severancePay spouseSeverancePay
          (SimulatorState.incomeInfo state)) state) acc year
  = stepView lib state acc year.
Proof.
  assert (Hspouse :
    spouseIncomeValue lib (SimulatorState.basicInfo state)
      (withSideIncomesAndSeverance sideIncomes severancePay spouseSeverancePay
         (SimulatorState.incomeInfo state)) year
    = spouseIncomeValue lib (SimulatorState.basicInfo state)
        (SimulatorState.incomeInfo state) year).
  { unfold spouseIncomeValue, spouseIncome. simpl.
    by destruct (IncomeInfo.spouse (SimulatorState.incomeInfo state)). }
  unfold stepView, rowOf, nextAssets. simpl. by rewrite Hspouse.
Qed.

Lemma loopView_unused state sideIncomes severancePay spouseSeverancePay ys :
  forall acc,
    loopView lib
      (replaceIncomeInfo
         (withSideIncomesAndSeverance sideIncomes severancePay spouseSeverancePay
            (SimulatorState.incomeInfo state)) state) ys acc
    = loopView lib state ys acc.
Proof.
  induction ys as [|y ys IH]; intros acc; [done|].
  unfold loopView in *. simpl. by rewrite stepView_unused, IH.
Qed.

End Unused.

(** C9. Every row stored by a full recompute has sideIncome exactly 0, and
    the side-income list and the severance pays of the income profile change
    neither the table nor the closing assets of any year. *)
Theorem side_income_and_severance_unused (lib : Calculations.t)
    (state : SimulatorState.t) (sideIncomes : list SideIncome.t)
    (severancePay spouseSeverancePay : Qc) :
  (forall (state' : SimulatorState.t) (year : Z) (row : Row),
     initializeCashFlow lib state = Some state' ->
     SimulatorState.cashFlow state' !! year = Some row ->
     row !! Field.sideIncome = Some 0)
  /\ (let other :=
        replaceIncomeInfo
          (withSideIncomesAndSeverance sideIncomes severancePay spouseSeverancePay
             (SimulatorState.incomeInfo state)) state in
      SimulatorState.cashFlow <$> initializeCashFlow lib other
      = SimulatorState.cashFlow <$> initializeCashFlow lib state
      /\ forall i : nat, closingAssets lib other i = closingAssets lib state i).
Proof.
  split.
  - intros state' year row Hrun. rewrite initializeCashFlow_eq in Hrun.
    injection Hrun as <-. simpl.
    apply (loopView_rows lib state (fun r => r !! Field.sideIncome = Some 0)).
    + intros a y. unfold rowOf. by rewrite makeRow_lookup.
    + intros y r. simpl. by rewrite lookup_empty.
  - intros other. split.
    + rewrite !initializeCashFlow_eq. simpl. subst other.
      by rewrite loopView_unused.
    + intros i. unfold closingAssets. rewrite !forEachYear_eq. subst other.
      simpl. by rewrite loopView_unused.
Qed.

Lemma side_income_and_severance_unused_witness :
  (exists state' : SimulatorState.t,
     initializeCashFlow Sample.lib Sample.state = Some state'
     /\ forall row : Row,
          SimulatorState.cashFlow state' !! 2030%Z = Some row ->
          row !! Field.sideIncome = Some 0)
  /\ closingAssets Sample.lib
       (replaceIncomeInfo
          (withSideIncomesAndSeverance
             [SideIncome.mk SideIncome.one_time
                (Some (SideIncome.mkOneTime 40 (Num.ofZ 1000) "bonus")) None]
             (Num.ofZ 2000) 0 Sample.incomeInfo) Sample.state) 3
     = closingAssets Sample.lib Sample.state 3.
Proof.
  destruct (side_income_and_severance_unused Sample.lib Sample.state
              [SideIncome.mk SideIncome.one_time
                 (Some (SideIncome.mkOneTime 40 (Num.ofZ 1000) "bonus")) None]
              (Num.ofZ 2000) 0) as [Hzero [_ Hassets]].
  split; [|apply Hassets].
  eexists. split; [apply initializeCashFlow_eq|].
  intros row Hrow. eapply Hzero; [apply initializeCashFlow_eq|exact Hrow].
Defined.

(** ** Editing one cell (C10) *)

(** C10. Updating the cell (year, field) to a value leaves the rows of all
    other years and the other fields of the row of that year as they were,
    stores the value in the cell, and changes nothing else in the store: no
    other cell is computed anew. *)
Theorem updateCashFlowValue_frame (year : Z) (field : Field.t) (value : Qc)
    (state : SimulatorState.t) :
  let state' := updateCashFlowValue year field value state in
  (forall y : Z, y <> year ->
     SimulatorState.cashFlow state' !! y = SimulatorState.cashFlow state !! y)
  /\ (forall f : Field.t, f <> field ->
        SimulatorState.cashFlow state' !! year ≫= (.!! f)
        = SimulatorState.cashFlow state !! year ≫= (.!! f))
  /\ SimulatorState.cashFlow state' !! year ≫= (.!! field) = Some value
  /\ SimulatorState.currentStep state' = SimulatorState.currentStep state
  /\ SimulatorState.basicInfo state' = SimulatorState.basicInfo state
  /\ SimulatorState.incomeInfo state' = SimulatorState.incomeInfo state
  /\ SimulatorState.expenseInfo state' = SimulatorState.expenseInfo state
  /\ SimulatorState.lifeEvents state' = SimulatorState.lifeEvents state
  /\ SimulatorState.assetsLiabilities state' = SimulatorState.assetsLiabilities state
  /\ SimulatorState.parameters state' = SimulatorState.parameters state.
Proof.
  intros state'. subst state'. unfold updateCashFlowValue. simpl.
  split; [|split; [|split]].
  - intros y Hy. by rewrite lookup_insert_ne.
  - intros f Hf. rewrite lookup_insert_eq. simpl.
    rewrite lookup_insert_ne by done.
    destruct (SimulatorState.cashFlow state !! year); simpl; [done|].
    apply lookup_empty.
  - rewrite lookup_insert_eq. simpl. apply lookup_insert_eq.
  - repeat split.
Qed.

Lemma updateCashFlowValue_frame_witness :
  let state := updateCashFlowValue 2025 Field.mainIncome (Num.ofZ 400) Sample.state in
  let state' := updateCashFlowValue 2026 Field.otherExpense (Num.ofZ 7) state in
  SimulatorState.cashFlow state' !! 2025%Z = SimulatorState.cashFlow state !! 2025%Z
  /\ SimulatorState.cashFlow state' !! 2026%Z ≫= (.!! Field.mainIncome) = None
  /\ SimulatorState.cashFlow state' !! 2026%Z ≫= (.!! Field.otherExpense)
     = Some (Num.ofZ 7).
Proof.
  intros state state'.
  destruct (updateCashFlowValue_frame 2026 Field.otherExpense (Num.ofZ 7) state)
    as (Hyears & Hfields & Hcell & _).
  split; [apply Hyears; lia|]. split; [|exact Hcell].
  unfold state'. rewrite (Hfields Field.mainIncome) by discriminate.
  vm_compute. reflexivity.
Defined.

(** ** The years of the table (C7) *)

(** C7. When deathAge >= currentAge, a full recompute completes, and the
    years of its table are exactly the calendar years from startYear to
    startYear + (deathAge - currentAge): deathAge - currentAge + 1 rows,
    written one per year in ascending order, no year twice. *)
Theorem cash_flow_years (lib : Calculations.t) (state : SimulatorState.t) :
  let basicInfo := SimulatorState.basicInfo state in
  let horizon := (BasicInfo.deathAge basicInfo - BasicInfo.currentAge basicInfo)%Z in
  (BasicInfo.currentAge basicInfo <= BasicInfo.deathAge basicInfo)%Z ->
  exists state' : SimulatorState.t,
    initializeCashFlow lib state = Some state'
    /\ (forall year : Z,
          is_Some (SimulatorState.cashFlow state' !! year)
          <-> (BasicInfo.startYear basicInfo <= year
               <= BasicInfo.startYear basicInfo + horizon)%Z)
    /\ size (SimulatorState.cashFlow state') = Z.to_nat (horizon + 1)
    /\ length (years basicInfo) = Z.to_nat (horizon + 1)
    /\ (forall i : nat, (Z.of_nat i <= horizon)%Z ->
          years basicInfo !! i = Some (BasicInfo.startYear basicInfo + Z.of_nat i)%Z)
    /\ NoDup (years basicInfo).
Proof.
  intros basicInfo horizon Hage.
  pose (table := (loopView lib state (years basicInfo)
                    (∅, initialAssets (SimulatorState.assetsLiabilities state))).1).
  exists (SimulatorState.set_cashFlow table state).
  split; [apply initializeCashFlow_eq|].
  change (SimulatorState.cashFlow (SimulatorState.set_cashFlow table state))
    with table.
  assert (Hdom : dom table = list_to_set (years basicInfo)).
  { unfold table. rewrite loopView_dom.
    change (dom (∅ : CashFlowData) ∪ list_to_set (years basicInfo)
            = list_to_set (years basicInfo)).
    by rewrite dom_empty_L, union_empty_l_L. }
  split; [|split; [|split; [|split]]].
  - intros year. rewrite <- elem_of_dom, Hdom, elem_of_list_to_set.
    rewrite years_seqZ, elem_of_seqZ. fold basicInfo horizon. lia.
  - rewrite <- size_dom, Hdom, size_list_to_set by apply years_NoDup.
    rewrite years_seqZ. apply length_seqZ.
  - rewrite years_seqZ. apply length_seqZ.
  - intros i Hi. rewrite years_seqZ. apply lookup_seqZ_lt.
    fold basicInfo horizon. lia.
  - apply years_NoDup.
Qed.

Lemma cash_flow_years_witness :
  (BasicInfo.currentAge Sample.basicInfo <= BasicInfo.deathAge Sample.basicInfo)%Z
  /\ exists state' : SimulatorState.t,
       initializeCashFlow Sample.lib Sample.state = Some state'
       /\ size (SimulatorState.cashFlow state') = 51%nat
       /\ is_Some (SimulatorState.cashFlow state' !! 2075%Z)
       /\ ~ is_Some (SimulatorState.cashFlow state' !! 2076%Z).
Proof.
  assert (Hage : (BasicInfo.currentAge Sample.basicInfo
                  <= BasicInfo.deathAge Sample.basicInfo)%Z) by (simpl; lia).
  split; [exact Hage|].
  destruct (cash_flow_years Sample.lib Sample.state Hage)
    as (state' & Hrun & Hkeys & Hsize & _).
  exists state'. split; [exact Hrun|]. split; [exact Hsize|].
  split; [apply Hkeys; simpl; lia|].
  intros H. apply Hkeys in H. simpl in H. lia.
Defined.

(** ** Private and public tracks (C6) *)

Section Education.

Lemma sum_app (l1 l2 : list Qc) : Num.sum (l1 ++ l2) = Num.sum l1 + Num.sum l2.
Proof.
  induction l1 as [|x l1 IH]; simpl.
  - rewrite sum_nil. ring.
  - rewrite !sum_cons, IH. ring.
Qed.

(** A reducer that adds a term to the running total computes a sum. *)
Lemma fold_additive {A} (step : Qc -> A -> Qc) :
  (forall total x, step total x = total + step 0 x) ->
  forall l acc, fold_left step l acc = acc + Num.sum (map (step 0) l).
Proof.
  intros Hadd. induction l as [|x l IH]; intros acc; simpl.
  - rewrite sum_nil. ring.
  - rewrite IH, sum_cons, (Hadd acc x). ring.
Qed.

Lemma existingChildStep_additive year startYear rate total child :
  existingChildStep year startYear rate total child
  = total + existingChildStep year startYear rate 0 child.
Proof. unfold existingChildStep. ring. Qed.

Lemma plannedChildStep_additive year startYear rate total child :
  plannedChildStep year startYear rate total child
  = total + plannedChildStep year startYear rate 0 child.
Proof. unfold plannedChildStep. destruct (_ <=? _)%Z; ring. Qed.

Lemma between_true lo hi a : between lo hi a = true <-> (lo <= a <= hi)%Z.
Proof. unfold between. rewrite andb_true_iff, !Z.leb_le. done. Qed.

Lemma between_false lo hi a : between lo hi a = false <-> ~ (lo <= a <= hi)%Z.
Proof. rewrite <- between_true. by destruct (between lo hi a). Qed.

(** The six [if]s pick the one band of the age: the bands do not
    overlap. *)
Lemma childExpense_band childAge plan band :
  Spec.bandOf childAge = Some band ->
  childExpense childAge plan
  = attends (Spec.track band plan) (Spec.baseCost band (Spec.track band plan)).
Proof.
  unfold Spec.bandOf, childExpense.
  destruct (between 0 2 childAge) eqn:B1, (between 3 5 childAge) eqn:B2,
    (between 6 11 childAge) eqn:B3, (between 12 14 childAge) eqn:B4,
    (between 15 17 childAge) eqn:B5, (between 18 21 childAge) eqn:B6;
    try (exfalso;
         repeat match goal with
                | H : between _ _ _ = true |- _ => apply between_true in H
                | H : between _ _ _ = false |- _ => apply between_false in H
                end; lia);
    intros [= <-]; reflexivity.
Qed.

Lemma private_cost_dominates band choicePublic choicePrivate :
  Spec.isPrivate band choicePrivate ->
  Spec.isPublic band choicePublic ->
  attends choicePublic (Spec.baseCost band choicePublic)
  ≤ attends choicePrivate (Spec.baseCost band choicePrivate).
Proof.
  destruct band; simpl; intros Hpriv Hpub;
    repeat match goal with H : _ \/ _ |- _ => destruct H end;
    subst; by vm_compute.
Qed.

Lemma growth_nonneg (rate : Qc) (k : Z) :
  Num.ofZ (-100) ≤ rate -> 0 ≤ Num.pow (1 + rate / Num.ofZ 100) k.
Proof.
  intros Hrate. apply NumFacts.pow_nonneg.
  replace (1 + rate / Num.ofZ 100) with ((rate + - Num.ofZ (-100)) * / Num.ofZ 100).
  - apply Qcmult_nonneg_nonneg.
    + by apply Qcle_minus_iff in Hrate.
    + by vm_compute.
  - replace (- Num.ofZ (-100)) with (Num.ofZ 100) by qc_eval.
    unfold Qcdiv. rewrite Qcmult_plus_distr_l, Qcmult_inv_r; [ring|].
    qc_differ.
Qed.

End Education.

(** C6. For every child whose age in a year lies in a schooling band, the
    education expense computed with a private choice for that band (a
    private university tier for the university band) is at least the expense
    computed with the public choice, everything else being the same; the
    growth rate is assumed not to be below -100 percent. *)
Theorem private_track_dominates (rate : Qc) (year currentAge startYear : Z)
    (band : Spec.Band) (planPublic planPrivate : EducationPlan.t) :
  Num.ofZ (-100) ≤ rate ->
  Spec.isPrivate band (Spec.track band planPrivate) ->
  Spec.isPublic band (Spec.track band planPublic) ->
  (forall (age : Z) (before after : list Child.t) (planned : list PlannedChild.t),
     Spec.bandOf (age + (year - startYear)) = Some band ->
     calculateEducationExpense (before ++ Child.mk age planPublic :: after) planned
       year currentAge startYear rate
     ≤ calculateEducationExpense (before ++ Child.mk age planPrivate :: after) planned
         year currentAge startYear rate)
  /\ (forall (yearsFromNow : Z) (children : list Child.t)
        (before after : list PlannedChild.t),
        (yearsFromNow <= year - startYear)%Z ->
        Spec.bandOf (year - startYear - yearsFromNow) = Some band ->
        calculateEducationExpense children
          (before ++ PlannedChild.mk yearsFromNow planPublic :: after)
          year currentAge startYear rate
        ≤ calculateEducationExpense children
            (before ++ PlannedChild.mk yearsFromNow planPrivate :: after)
            year currentAge startYear rate).
Proof.
  intros Hrate Hpriv Hpub.
  pose proof (growth_nonneg rate (year - startYear) Hrate) as Hgrowth.
  pose proof (private_cost_dominates band _ _ Hpriv Hpub) as Hcost.
  split.
  - intros age before after planned Hband.
    unfold calculateEducationExpense. apply NumFacts.toFixed1_mono.
    apply Qcplus_le_compat; [|apply Qcle_refl].
    rewrite !(fold_additive _ (existingChildStep_additive year startYear rate)).
    rewrite !map_app, !sum_app. simpl. rewrite !sum_cons.
    repeat (apply Qcplus_le_compat; try apply Qcle_refl).
    unfold existingChildStep. simpl.
    rewrite !(childExpense_band _ _ band Hband).
    by apply Qcmult_le_compat_r.
  - intros yearsFromNow children before after Hborn Hband.
    unfold calculateEducationExpense. apply NumFacts.toFixed1_mono.
    apply Qcplus_le_compat; [apply Qcle_refl|].
    rewrite !(fold_additive _ (plannedChildStep_additive year startYear rate)).
    rewrite !map_app, !sum_app. simpl. rewrite !sum_cons.
    repeat (apply Qcplus_le_compat; try apply Qcle_refl).
    unfold plannedChildStep. simpl.
    destruct (Z.leb_spec yearsFromNow (year - startYear)); [|lia].
    rewrite !(childExpense_band _ _ band Hband).
    apply Qcplus_le_compat; [apply Qcle_refl|].
    by apply Qcmult_le_compat_r.
Qed.

Lemma private_track_dominates_witness :
  Spec.bandOf (3 + (2030 - 2025)) = Some Spec.Elementary
  /\ calculateEducationExpense
       [Child.mk 3 (Sample.plan "公立" "公立大学（文系）")] [] 2030 30 2025 (Num.ofZ 2)
     ≤ calculateEducationExpense
         [Child.mk 3 (Sample.plan "私立" "私立大学（文系）")] [] 2030 30 2025 (Num.ofZ 2).
Proof.
  split; [reflexivity|].
  assert (Hrate : Num.ofZ (-100) ≤ Num.ofZ 2) by by vm_compute.
  destruct (private_track_dominates (Num.ofZ 2) 2030 30 2025 Spec.Elementary
              (Sample.plan "公立" "公立大学（文系）")
              (Sample.plan "私立" "私立大学（文系）")
              Hrate eq_refl eq_refl) as [Hexisting _].
  exact (Hexisting 3%Z [] [] [] eq_refl).
Defined.

(** ** A recompute starts from nothing *)

Section Recompute.

Variable lib : Calculations.t.

Lemma forEachYear_table_irrelevant data state ys : forall acc,
  forEachYear lib (SimulatorState.set_cashFlow data state) ys acc
  = forEachYear lib state ys acc.
Proof.
  induction ys as [|y ys IH]; intros acc; [done|].
  simpl. change (yearStep lib (SimulatorState.set_cashFlow data state) acc y)
    with (yearStep lib state acc y).
  destruct (yearStep lib state acc y); simpl; [apply IH|done].
Qed.

Lemma initializeCashFlow_table_irrelevant data state :
  initializeCashFlow lib (SimulatorState.set_cashFlow data state)
  = initializeCashFlow lib state.
Proof.
  unfold initializeCashFlow.
  change (years (SimulatorState.basicInfo (SimulatorState.set_cashFlow data state)))
    with (years (SimulatorState.basicInfo state)).
  change (initialAssets (SimulatorState.assetsLiabilities
                           (SimulatorState.set_cashFlow data state)))
    with (initialAssets (SimulatorState.assetsLiabilities state)).
  rewrite forEachYear_table_irrelevant.
  by destruct (forEachYear lib state _ _).
Qed.

End Recompute.

(** X1. A full recompute does not read the table it replaces: whatever
    [setCashFlow] stored and whatever cell [updateCashFlowValue] edited, the
    recompute gives the state it gives without them. A manual edit does not
    survive the next recompute. *)
Theorem recompute_discards_table (lib : Calculations.t) (state : SimulatorState.t)
    (data : CashFlowData) (year : Z) (field : Field.t) (value : Qc) :
  initializeCashFlow lib (setCashFlow data state) = initializeCashFlow lib state
  /\ initializeCashFlow lib (updateCashFlowValue year field value state)
     = initializeCashFlow lib state.
Proof.
  split; apply initializeCashFlow_table_irrelevant.
Qed.

(** X2. Recomputing twice is recomputing once. *)
Theorem recompute_idempotent (lib : Calculations.t) (state : SimulatorState.t) :
  initializeCashFlow lib state ≫= initializeCashFlow lib
  = initializeCashFlow lib state.
Proof.
  rewrite initializeCashFlow_eq at 1. simpl.
  apply initializeCashFlow_table_irrelevant.
Qed.

(** X3. When deathAge is below currentAge the horizon is empty and the
    recompute leaves an empty table. *)
Theorem empty_horizon (lib : Calculations.t) (state : SimulatorState.t) :
  (BasicInfo.deathAge (SimulatorState.basicInfo state)
   < BasicInfo.currentAge (SimulatorState.basicInfo state))%Z ->
  exists state' : SimulatorState.t,
    initializeCashFlow lib state = Some state'
    /\ SimulatorState.cashFlow state' = ∅.
Proof.
  intros Hage. eexists. split; [apply initializeCashFlow_eq|].
  rewrite years_seqZ, seqZ_nil by lia. reflexivity.
Qed.

Lemma empty_horizon_witness :
  exists state' : SimulatorState.t,
    initializeCashFlow Sample.lib Cases.deadOnArrival = Some state'
    /\ SimulatorState.cashFlow state' = ∅.
Proof.
  apply empty_horizon. simpl. lia.
Defined.

(** ** What the cells of a recomputed table look like *)

Section Cells.

Variable lib : Calculations.t.

Lemma toFixed1_tenths (x : Qc) : exists n : Z, Num.toFixed1 x = Num.dec1 n.
Proof.
  unfold Num.toFixed1. case_decide.
  - eexists. symmetry. apply NumFacts.dec1_opp.
  - by eexists.
Qed.

Lemma recomputed_row state state' year row :
  initializeCashFlow lib state = Some state' ->
  SimulatorState.cashFlow state' !! year = Some row ->
  exists a, row = rowOf lib state a year.
Proof.
  intros Hrun. rewrite initializeCashFlow_eq in Hrun. injection Hrun as <-.
  simpl. revert year row.
  generalize (years (SimulatorState.basicInfo state)) as ys.
  assert (Hgen : forall ys acc,
            (forall y r, acc.1 !! y = Some r -> exists a, r = rowOf lib state a y) ->
            forall y r, (loopView lib state ys acc).1 !! y = Some r ->
                        exists a, r = rowOf lib state a y).
  { induction ys as [|y' ys IH]; intros acc Hacc y r; [apply Hacc|].
    change (loopView lib state (y' :: ys) acc)
      with (loopView lib state ys (stepView lib state acc y')).
    apply IH. intros y0 r0. simpl.
    destruct (decide (y' = y0)) as [->|Hne].
    - rewrite lookup_insert_eq. intros [= <-]. by eexists.
    - rewrite lookup_insert_ne by done. apply Hacc. }
  intros ys year row. apply Hgen. intros y r. simpl. by rewrite lookup_empty.
Qed.

End Cells.

(** X4. Every amount in a recomputed table has at most one decimal: it is
    a whole number of tenths. *)
Theorem cells_have_one_decimal (lib : Calculations.t) (state state' : SimulatorState.t)
    (year : Z) (row : Row) (field : Field.t) (value : Qc) :
  initializeCashFlow lib state = Some state' ->
  SimulatorState.cashFlow state' !! year = Some row ->
  row !! field = Some value ->
  exists n : Z, value = Num.dec1 n.
Proof.
  intros Hrun Hrow Hcell.
  destruct (recomputed_row lib state state' year row Hrun Hrow) as [a ->].
  unfold rowOf in Hcell. rewrite makeRow_lookup in Hcell.
  injection Hcell as <-.
  destruct field; try apply toFixed1_tenths.
  exists 0%Z. symmetry. apply NumFacts.dec1_0.
Qed.

(** X5. When the investment return rate is not negative, no row of a
    recomputed table has a negative investment income. *)
Theorem investment_income_nonneg (lib : Calculations.t) (state state' : SimulatorState.t)
    (year : Z) (row : Row) (value : Qc) :
  0 ≤ Parameters.investmentReturn (SimulatorState.parameters state) ->
  initializeCashFlow lib state = Some state' ->
  SimulatorState.cashFlow state' !! year = Some row ->
  row !! Field.investmentIncome = Some value ->
  0 ≤ value.
Proof.
  intros Hrate Hrun Hrow Hcell.
  destruct (recomputed_row lib state state' year row Hrun Hrow) as [a ->].
  unfold rowOf in Hcell. rewrite makeRow_lookup in Hcell.
  injection Hcell as <-.
  apply NumFacts.toFixed1_nonneg. unfold investmentReturn.
  case_decide as Ha; [|done].
  apply NumFacts.toFixed1_nonneg, Qcmult_nonneg_nonneg.
  - by apply Qclt_le_weak.
  - unfold Qcdiv. apply Qcmult_nonneg_nonneg; [done|by vm_compute].
Qed.

Section RecomputedRows.

Variable lib : Calculations.t.

(** The row a recompute stores for the [i]-th year of the horizon. *)
Lemma recomputed_row_at state i year :
  years (SimulatorState.basicInfo state) !! i = Some year ->
  exists state' : SimulatorState.t,
    initializeCashFlow lib state = Some state'
    /\ SimulatorState.cashFlow state' !! year
       = Some (rowOf lib state
                 (assetsAfter lib state
                    (take i (years (SimulatorState.basicInfo state)))
                    (initialAssets (SimulatorState.assetsLiabilities state)))
                 year).
Proof.
  intros Hi.
  pose (table := (loopView lib state (years (SimulatorState.basicInfo state))
                    (∅, initialAssets (SimulatorState.assetsLiabilities state))).1).
  exists (SimulatorState.set_cashFlow table state).
  split; [apply initializeCashFlow_eq|].
  change (SimulatorState.cashFlow (SimulatorState.set_cashFlow table state))
    with table.
  unfold table.
  rewrite (loopView_lookup lib state _ _ i year (years_NoDup _) Hi).
  reflexivity.
Qed.

End RecomputedRows.

Lemma cells_have_one_decimal_witness :
  exists n : Z, Q2Qc (96 # 10) = Num.dec1 n.
Proof.
  destruct (recomputed_row_at Sample.lib Sample.state 1 2026 eq_refl)
    as (state' & Hrun & Hrow).
  apply (cells_have_one_decimal Sample.lib Sample.state state' 2026 _
           Field.investmentIncome _ Hrun Hrow).
  unfold rowOf. rewrite makeRow_lookup. apply (f_equal Some). qc_eval.
Defined.

Lemma investment_income_nonneg_witness : 0 ≤ Q2Qc (96 # 10).
Proof.
  destruct (recomputed_row_at Sample.lib Sample.state 1 2026 eq_refl)
    as (state' & Hrun & Hrow).
  apply (investment_income_nonneg Sample.lib Sample.state state' 2026 _ _
           ltac:(by vm_compute) Hrun Hrow).
  unfold rowOf. rewrite makeRow_lookup. apply (f_equal Some). qc_eval.
Defined.

(** ** The spouse's income by marital status *)

(** X6. While the marital status is 'single', the spouse income of every
    year of the horizon is 0, whatever spouse profile and spouse income
    record the store still holds. *)
Theorem single_has_no_spouse_income (lib : Calculations.t) (state : SimulatorState.t)
    (i : nat) (year : Z) :
  BasicInfo.maritalStatus (SimulatorState.basicInfo state) = single ->
  years (SimulatorState.basicInfo state) !! i = Some year ->
  cell lib state year Field.spouseIncome = Some 0.
Proof.
  intros Hsingle Hi. rewrite (cell_spouseIncome lib state i year Hi).
  unfold spouseIncome. rewrite Hsingle. simpl.
  by rewrite NumFacts.toFixed1_0.
Qed.

Lemma single_has_no_spouse_income_witness :
  cell Sample.lib Cases.singleWithSpouseData 2030 Field.spouseIncome = Some 0.
Proof.
  exact (single_has_no_spouse_income Sample.lib Cases.singleWithSpouseData 5 2030
           eq_refl eq_refl).
Defined.



(** ** Adding and removing life events *)

Section LifeEventActions.

Variable lib : Calculations.t.

Lemma filterOtherIndex_before {A} (index : Z) (l : list A) : forall i : Z,
  (index < i)%Z -> filterOtherIndex index i l = l.
Proof.
  induction l as [|x l IH]; intros i Hi; simpl; [done|].
  destruct (Z.eqb_spec i index); [lia|]. rewrite IH by lia. done.
Qed.

(** The filter on positions removes the element at the index, if any. *)
Lemma filterOtherIndex_delete {A} (index : Z) (l : list A) : forall i : Z,
  (i <= index)%Z ->
  filterOtherIndex index i l = delete (Z.to_nat (index - i)) l.
Proof.
  induction l as [|x l IH]; intros i Hi; simpl; [done|].
  destruct (Z.eqb_spec i index) as [->|Hne].
  - rewrite Z.sub_diag. simpl. apply filterOtherIndex_before. lia.
  - rewrite IH by lia.
    replace (Z.to_nat (index - i)) with (S (Z.to_nat (index - (i + 1)))) by lia.
    done.
Qed.

Lemma replaceLifeEvents_same state :
  replaceLifeEvents (SimulatorState.lifeEvents state) state = state.
Proof. by destruct state. Qed.

Lemma calculateLifeEventExpense_app_other lifeEvents event year :
  LifeEvent.year event <> year ->
  calculateLifeEventExpense (lifeEvents ++ [event]) year
  = calculateLifeEventExpense lifeEvents year.
Proof.
  intros Hne. unfold calculateLifeEventExpense. rewrite fold_left_app. simpl.
  unfold lifeEventStep at 1. by destruct (Z.eqb_spec (LifeEvent.year event) year).
Qed.

Lemma stepView_add state event acc year :
  LifeEvent.year event <> year ->
  stepView lib (replaceLifeEvents (SimulatorState.lifeEvents state ++ [event]) state) acc year
  = stepView lib state acc year.
Proof.
  intros Hne. unfold stepView, rowOf, nextAssets, otherExpense, educationExpense.
  simpl. by rewrite calculateLifeEventExpense_app_other.
Qed.

Lemma loopView_add state event ys : forall acc,
  Forall (fun y => LifeEvent.year event <> y) ys ->
  loopView lib (replaceLifeEvents (SimulatorState.lifeEvents state ++ [event]) state) ys acc
  = loopView lib state ys acc.
Proof.
  induction ys as [|y ys IH]; intros acc Hys; [done|].
  apply Forall_cons in Hys as [Hy Hys].
  unfold loopView in *. simpl. rewrite stepView_add by done. by apply IH.
Qed.

Lemma assetsAfter_add state event ys : forall a,
  Forall (fun y => LifeEvent.year event <> y) ys ->
  assetsAfter lib (replaceLifeEvents (SimulatorState.lifeEvents state ++ [event]) state) ys a
  = assetsAfter lib state ys a.
Proof.
  intros a Hys.
  rewrite <- (loopView_snd lib _ ys (∅, a)), <- (loopView_snd lib state ys (∅, a)).
  by rewrite loopView_add.
Qed.

Lemma cellAfter_recompute state i year field :
  years (SimulatorState.basicInfo state) !! i = Some year ->
  cellAfter (initializeCashFlow lib state) year field
  = rowOf lib state
      (assetsAfter lib state (take i (years (SimulatorState.basicInfo state)))
         (initialAssets (SimulatorState.assetsLiabilities state)))
      year !! field.
Proof. apply cell_eq. Qed.

End LifeEventActions.

(** X8. Removing the event that was just added, at the position it was
    appended to, gives the store a recompute of the original state gives:
    the same events, the same table. *)
Theorem add_then_remove_life_event (lib : Calculations.t) (state : SimulatorState.t)
    (event : LifeEvent.t) :
  addLifeEvent lib event state
  ≫= removeLifeEvent lib (Z.of_nat (length (SimulatorState.lifeEvents state)))
  = initializeCashFlow lib state.
Proof.
  unfold addLifeEvent. rewrite initializeCashFlow_eq. simpl.
  unfold removeLifeEvent. simpl.
  rewrite filterOtherIndex_delete by lia. rewrite Z.sub_0_r, Nat2Z.id.
  rewrite delete_middle, app_nil_r.
  match goal with
  | |- initializeCashFlow lib (replaceLifeEvents ?l (SimulatorState.set_cashFlow ?t ?s)) = _ =>
      change (replaceLifeEvents l (SimulatorState.set_cashFlow t s))
        with (SimulatorState.set_cashFlow t (replaceLifeEvents l state))
  end.
  rewrite initializeCashFlow_table_irrelevant.
  by rewrite replaceLifeEvents_same.
Qed.

(** X9. [removeLifeEvent] drops exactly the event at the index and keeps
    the others in order; with an index that is negative or past the end it
    drops nothing, and the action is a plain recompute. *)
Theorem remove_life_event_at (lib : Calculations.t) (state : SimulatorState.t)
    (index : Z) :
  let lifeEvents := SimulatorState.lifeEvents state in
  SimulatorState.lifeEvents <$> removeLifeEvent lib index state
  = Some (if decide (0 <= index < Z.of_nat (length lifeEvents))%Z
          then take (Z.to_nat index) lifeEvents ++ drop (S (Z.to_nat index)) lifeEvents
          else lifeEvents)
  /\ (~ (0 <= index < Z.of_nat (length lifeEvents))%Z ->
      removeLifeEvent lib index state = initializeCashFlow lib state).
Proof.
  intros lifeEvents.
  assert (Hout : ~ (0 <= index < Z.of_nat (length lifeEvents))%Z ->
                 filterOtherIndex index 0 lifeEvents = lifeEvents).
  { intros Hrange. destruct (Z.lt_ge_cases index 0) as [Hneg|Hpos].
    - by apply filterOtherIndex_before.
    - rewrite filterOtherIndex_delete by done. rewrite Z.sub_0_r.
      rewrite delete_take_drop, take_ge, drop_ge by lia. apply app_nil_r. }
  split.
  - unfold removeLifeEvent. rewrite initializeCashFlow_eq. simpl.
    apply (f_equal Some). fold lifeEvents. case_decide as Hrange.
    + rewrite filterOtherIndex_delete by lia. rewrite Z.sub_0_r.
      apply delete_take_drop.
    + by apply Hout.
  - intros Hrange. unfold removeLifeEvent. fold lifeEvents.
    rewrite (Hout Hrange). unfold lifeEvents. by rewrite replaceLifeEvents_same.
Qed.

Lemma remove_life_event_at_witness :
  SimulatorState.lifeEvents <$> removeLifeEvent Sample.lib 1 Sample.state
  = Some [ LifeEvent.mk 2026 "car" LifeEvent.expense "other" (Num.ofZ 150);
           LifeEvent.mk 2030 "travel" LifeEvent.expense "other" (Num.ofZ 40) ]
  /\ removeLifeEvent Sample.lib 3 Sample.state = initializeCashFlow Sample.lib Sample.state.
Proof.
  split.
  - rewrite (proj1 (remove_life_event_at Sample.lib Sample.state 1)). reflexivity.
  - apply (proj2 (remove_life_event_at Sample.lib Sample.state 3)). simpl. lia.
Defined.

(** X10. Adding a life event changes no row of an earlier year, and in the
    years other than the event's own it can change only the investment
    income (through the assets carried over). *)
Theorem add_life_event_frame (lib : Calculations.t) (state : SimulatorState.t)
    (event : LifeEvent.t) (i : nat) (year : Z) :
  years (SimulatorState.basicInfo state) !! i = Some year ->
  ((year < LifeEvent.year event)%Z ->
   forall field : Field.t,
     cellAfter (addLifeEvent lib event state) year field
     = cellAfter (initializeCashFlow lib state) year field)
  /\ (year <> LifeEvent.year event ->
      forall field : Field.t,
        field <> Field.investmentIncome ->
        cellAfter (addLifeEvent lib event state) year field
        = cellAfter (initializeCashFlow lib state) year field).
Proof.
  intros Hi.
  pose (state2 := replaceLifeEvents (SimulatorState.lifeEvents state ++ [event]) state).
  assert (Hi2 : years (SimulatorState.basicInfo state2) !! i = Some year) by exact Hi.
  assert (Hrow : forall a field,
            year <> LifeEvent.year event ->
            rowOf lib state2 a year !! field = rowOf lib state a year !! field).
  { intros a field Hne. unfold rowOf, otherExpense, educationExpense. simpl.
    by rewrite calculateLifeEventExpense_app_other. }
  split.
  - intros Hbefore field. unfold addLifeEvent. fold state2.
    rewrite (cellAfter_recompute lib state2 i year field Hi2).
    rewrite (cellAfter_recompute lib state i year field Hi).
    rewrite Hrow by lia.
    change (years (SimulatorState.basicInfo state2))
      with (years (SimulatorState.basicInfo state)).
    change (initialAssets (SimulatorState.assetsLiabilities state2))
      with (initialAssets (SimulatorState.assetsLiabilities state)).
    unfold state2. rewrite assetsAfter_add; [done|].
    apply Forall_forall. intros y Hy.
    apply list_elem_of_lookup in Hy as [j Hj].
    assert (Hj' := Hj). apply lookup_take_Some in Hj' as [Hj' Hlt].
    rewrite years_seqZ in Hi, Hj'.
    apply lookup_seqZ in Hi as [-> _]. apply lookup_seqZ in Hj' as [-> _]. lia.
  - intros Hne field Hfield. unfold addLifeEvent. fold state2.
    rewrite (cellAfter_recompute lib state2 i year field Hi2).
    rewrite (cellAfter_recompute lib state i year field Hi).
    rewrite Hrow by done. unfold rowOf. rewrite !makeRow_lookup.
    by destruct field.
Qed.

Lemma add_life_event_frame_witness :
  let event := LifeEvent.mk 2030 "car" LifeEvent.expense "other" (Num.ofZ 150) in
  cellAfter (addLifeEvent Sample.lib event Sample.state) 2027 Field.investmentIncome
  = cellAfter (initializeCashFlow Sample.lib Sample.state) 2027 Field.investmentIncome
  /\ cellAfter (addLifeEvent Sample.lib event Sample.state) 2040 Field.otherExpense
     = cellAfter (initializeCashFlow Sample.lib Sample.state) 2040 Field.otherExpense.
Proof.
  intros event. split.
  - apply (proj1 (add_life_event_frame Sample.lib Sample.state event 2 2027 eq_refl)).
    simpl. lia.
  - apply (proj2 (add_life_event_frame Sample.lib Sample.state event 15 2040 eq_refl));
      [simpl; lia|discriminate].
Defined.

(** ** More on the education expense *)

Section EducationMore.

Lemma bandOf_None (childAge : Z) :
  Spec.bandOf childAge = None <-> ~ (0 <= childAge <= 21)%Z.
Proof.
  unfold Spec.bandOf.
  destruct (between 0 2 childAge) eqn:B1, (between 3 5 childAge) eqn:B2,
    (between 6 11 childAge) eqn:B3, (between 12 14 childAge) eqn:B4,
    (between 15 17 childAge) eqn:B5, (between 18 21 childAge) eqn:B6;
    repeat match goal with
           | H : between _ _ _ = true |- _ => apply between_true in H
           | H : between _ _ _ = false |- _ => apply between_false in H
           end;
    split; intros H; try discriminate H; try done; lia.
Qed.

(** Outside the six bands none of the [if]s assigns [expense]. *)
Lemma childExpense_outside (childAge : Z) (plan : EducationPlan.t) :
  ~ (0 <= childAge <= 21)%Z -> childExpense childAge plan = 0.
Proof.
  intros Hout. unfold childExpense.
  destruct (between 0 2 childAge) eqn:B1, (between 3 5 childAge) eqn:B2,
    (between 6 11 childAge) eqn:B3, (between 12 14 childAge) eqn:B4,
    (between 15 17 childAge) eqn:B5, (between 18 21 childAge) eqn:B6;
    try reflexivity;
    exfalso;
    repeat match goal with
           | H : between _ _ _ = true |- _ => apply between_true in H
           | H : between _ _ _ = false |- _ => apply between_false in H
           end; lia.
Qed.

Lemma childExpense_nonneg (childAge : Z) (plan : EducationPlan.t) :
  0 ≤ childExpense childAge plan.
Proof.
  destruct (Spec.bandOf childAge) as [band|] eqn:Hband.
  - rewrite (childExpense_band _ _ band Hband).
    unfold attends, Spec.baseCost, bandCost, getUniversityCost.
    destruct band; repeat case_match; by vm_compute.
  - apply bandOf_None in Hband. by rewrite childExpense_outside.
Qed.

Lemma childExpense_neverAttends (childAge : Z) (plan : EducationPlan.t) :
  neverAttends plan -> childExpense childAge plan = 0.
Proof.
  intros Hnever. destruct (Spec.bandOf childAge) as [band|] eqn:Hband.
  - rewrite (childExpense_band _ _ band Hband), (Hnever band). reflexivity.
  - apply bandOf_None in Hband. by apply childExpense_outside.
Qed.

Lemma sum_zero (l : list Qc) : Forall (fun x => x = 0) l -> Num.sum l = 0.
Proof.
  induction 1 as [|x l -> _ IH]; [apply sum_nil|].
  rewrite sum_cons, IH. ring.
Qed.

Lemma sum_nonneg (l : list Qc) : Forall (fun x => 0 ≤ x) l -> 0 ≤ Num.sum l.
Proof.
  induction 1 as [|x l Hx _ IH]; [by rewrite sum_nil|].
  rewrite sum_cons. by apply Qcplus_nonneg_nonneg.
Qed.

(** The result of [calculateEducationExpense] as one rounded sum. *)
Lemma calculateEducationExpense_sum children planned year currentAge startYear rate :
  calculateEducationExpense children planned year currentAge startYear rate
  = Num.toFixed1
      (Num.sum (map (existingChildStep year startYear rate 0) children)
       + Num.sum (map (plannedChildStep year startYear rate 0) planned)).
Proof.
  unfold calculateEducationExpense.
  rewrite (fold_additive _ (existingChildStep_additive year startYear rate)).
  rewrite (fold_additive _ (plannedChildStep_additive year startYear rate)).
  f_equal. ring.
Qed.

End EducationMore.

(** X11. Once every planned child is born, the planned children add up, in
    double precision and in list order, to what the same children add up
    to as existing children who were [-yearsFromNow] years old at the
    start: with no other child in either list the education expense is the
    same number but for the order of the last sum, [0 + planned] on one
    side and [planned + 0] on the other. *)
Theorem born_planned_children_as_existing (planned : list PlannedChild.t)
    (year currentAge startYear : Z) (rate : PrimFloat.float) :
  Forall (fun child => (PlannedChild.yearsFromNow child <= year - startYear)%Z) planned ->
  exists total : PrimFloat.float,
    Js.calculateEducationExpense Double.number [] planned year currentAge startYear rate
    = Double.toFixed1 (PrimFloat.add PrimFloat.zero total)
    /\ Js.calculateEducationExpense Double.number (map asExisting planned) [] year
         currentAge startYear rate
       = Double.toFixed1 (PrimFloat.add total PrimFloat.zero).
Proof.
  intros Hborn.
  exists (fold_left (Js.plannedChildStep Double.number year startYear rate) planned
            PrimFloat.zero).
  split; [reflexivity|].
  unfold Js.calculateEducationExpense.
  rewrite <- (js_plannedChildren_fold Double.number _ _ _ _ _ Hborn). reflexivity.
Qed.

Lemma born_planned_children_as_existing_witness :
  let twins :=
    [PlannedChild.mk 1 (Sample.plan "私立" "私立大学（理系）");
     PlannedChild.mk 1 (Sample.plan "公立" "公立大学（文系）")] in
  exists total : PrimFloat.float,
    Js.calculateEducationExpense Double.number [] twins 2030 30 2025 (Double.ofZ 2)
    = Double.toFixed1 (PrimFloat.add PrimFloat.zero total)
    /\ Js.calculateEducationExpense Double.number (map asExisting twins) [] 2030 30 2025
         (Double.ofZ 2)
       = Double.toFixed1 (PrimFloat.add total PrimFloat.zero).
Proof.
  intros twins.
  apply (born_planned_children_as_existing twins 2030 30 2025 (Double.ofZ 2)).
  repeat constructor; simpl; lia.
Defined.

(** X12. When every child, existing or planned, has "does not attend" at
    every stage, the education expense is 0 in every year. *)
Theorem never_attending_costs_nothing (children : list Child.t)
    (planned : list PlannedChild.t) (year currentAge startYear : Z) (rate : Qc) :
  Forall (fun child => neverAttends (Child.educationPlan child)) children ->
  Forall (fun child => neverAttends (PlannedChild.educationPlan child)) planned ->
  calculateEducationExpense children planned year currentAge startYear rate = 0.
Proof.
  intros Hchildren Hplanned. rewrite calculateEducationExpense_sum.
  rewrite !sum_zero.
  - change (0 + 0) with 0. apply NumFacts.toFixed1_0.
  - apply Forall_map. eapply Forall_impl; [exact Hplanned|].
    intros child Hnever. simpl. unfold plannedChildStep.
    destruct (_ <=? _)%Z; [|done].
    rewrite childExpense_neverAttends by done. ring.
  - apply Forall_map. eapply Forall_impl; [exact Hchildren|].
    intros child Hnever. simpl. unfold existingChildStep.
    rewrite childExpense_neverAttends by done. ring.
Qed.

Lemma never_attending_costs_nothing_witness :
  calculateEducationExpense
    [Child.mk 4 (Sample.plan "行かない" "行かない")]
    [PlannedChild.mk 2 (Sample.plan "行かない" "行かない")]
    2031 30 2025 (Num.ofZ 2) = 0.
Proof.
  apply never_attending_costs_nothing.
  - repeat constructor. by intros [].
  - repeat constructor. by intros [].
Defined.

(** X13. In a year in which no child is between 0 and 21 years old (a
    planned child may be unborn) the education expense is 0. *)
Theorem no_child_of_school_age (children : list Child.t)
    (planned : list PlannedChild.t) (year currentAge startYear : Z) (rate : Qc) :
  Forall (fun child =>
            ~ (0 <= Child.currentAge child + (year - startYear) <= 21)%Z) children ->
  Forall (fun child =>
            ~ (0 <= year - startYear - PlannedChild.yearsFromNow child <= 21)%Z) planned ->
  calculateEducationExpense children planned year currentAge startYear rate = 0.
Proof.
  intros Hchildren Hplanned. rewrite calculateEducationExpense_sum.
  rewrite !sum_zero.
  - change (0 + 0) with 0. apply NumFacts.toFixed1_0.
  - apply Forall_map. eapply Forall_impl; [exact Hplanned|].
    intros child Hout. simpl. unfold plannedChildStep.
    destruct (_ <=? _)%Z; [|done].
    rewrite childExpense_outside by done. ring.
  - apply Forall_map. eapply Forall_impl; [exact Hchildren|].
    intros child Hout. simpl. unfold existingChildStep.
    rewrite childExpense_outside by done. ring.
Qed.

Lemma no_child_of_school_age_witness :
  calculateEducationExpense
    [Child.mk 4 (Sample.plan "私立" "私立大学（理系）")]
    [PlannedChild.mk 30 (Sample.plan "私立" "私立大学（理系）")]
    2043 30 2025 (Num.ofZ 2) = 0.
Proof.
  apply no_child_of_school_age.
  - repeat constructor. simpl. lia.
  - repeat constructor. simpl. lia.
Defined.

(** X14. A track that is neither "私立" nor "行かない" is charged as the
    public track, whatever the string; a university choice that is none of
    the four tiers is charged nothing. *)
Theorem unknown_track_fallback (childAge : Z) (band : Spec.Band)
    (plan publicPlan : EducationPlan.t) :
  Spec.bandOf childAge = Some band ->
  (band <> Spec.University ->
   Spec.track band plan <> "私立" ->
   Spec.track band plan <> "行かない" ->
   Spec.track band publicPlan = "公立" ->
   childExpense childAge plan = childExpense childAge publicPlan)
  /\ (band = Spec.University ->
      Spec.track band plan <> "公立大学（文系）" ->
      Spec.track band plan <> "公立大学（理系）" ->
      Spec.track band plan <> "私立大学（文系）" ->
      Spec.track band plan <> "私立大学（理系）" ->
      childExpense childAge plan = 0).
Proof.
  intros Hband. rewrite !(childExpense_band _ _ band Hband). split.
  - intros Hschool Hpriv Hnone ->.
    apply String.eqb_neq in Hpriv, Hnone.
    unfold attends. rewrite Hnone.
    destruct band; try done; unfold Spec.baseCost, bandCost; by rewrite Hpriv.
  - intros -> H1 H2 H3 H4.
    apply String.eqb_neq in H1, H2, H3, H4.
    unfold attends, Spec.baseCost, getUniversityCost.
    rewrite H1, H2, H3, H4. by case_match.
Qed.

Lemma unknown_track_fallback_witness :
  childExpense 8 (Sample.plan "国立" "海外大学")
  = childExpense 8 (Sample.plan "公立" "公立大学（文系）")
  /\ childExpense 19 (Sample.plan "国立" "海外大学") = 0.
Proof.
  split.
  - apply (proj1 (unknown_track_fallback 8 Spec.Elementary
                    (Sample.plan "国立" "海外大学")
                    (Sample.plan "公立" "公立大学（文系）") eq_refl));
      (discriminate || reflexivity).
  - apply (proj2 (unknown_track_fallback 19 Spec.University
                    (Sample.plan "国立" "海外大学")
                    (Sample.plan "公立" "公立大学（文系）") eq_refl));
      (discriminate || reflexivity).
Defined.

(** X15. With a growth rate not below -100 percent the education expense
    is never negative. *)
Theorem education_expense_nonneg (children : list Child.t)
    (planned : list PlannedChild.t) (year currentAge startYear : Z) (rate : Qc) :
  Num.ofZ (-100) ≤ rate ->
  0 ≤ calculateEducationExpense children planned year currentAge startYear rate.
Proof.
  intros Hrate.
  pose proof (growth_nonneg rate (year - startYear) Hrate) as Hgrowth.
  rewrite calculateEducationExpense_sum. apply NumFacts.toFixed1_nonneg.
  apply Qcplus_nonneg_nonneg; apply sum_nonneg, Forall_map, Forall_forall;
    intros child _; simpl.
  - unfold existingChildStep. rewrite Qcplus_0_l.
    apply Qcmult_nonneg_nonneg; [apply childExpense_nonneg|done].
  - unfold plannedChildStep. destruct (_ <=? _)%Z; [|done].
    rewrite Qcplus_0_l.
    apply Qcmult_nonneg_nonneg; [apply childExpense_nonneg|done].
Qed.

Lemma education_expense_nonneg_witness :
  0 ≤ calculateEducationExpense
        [Child.mk 4 (Sample.plan "私立" "私立大学（理系）")] []
        2031 30 2025 (Num.ofZ 2).
Proof.
  apply education_expense_nonneg. by vm_compute.
Defined.

(** ** The columns of the views *)

(** X16. The age column of the cash-flow form runs through the ages from
    currentAge to deathAge, one per year of the horizon, in order. *)
Theorem age_column (basicInfo : BasicInfo.t) :
  calculateAge (BasicInfo.startYear basicInfo) (BasicInfo.currentAge basicInfo)
    <$> years basicInfo
  = seqZ (BasicInfo.currentAge basicInfo)
         (BasicInfo.deathAge basicInfo - BasicInfo.currentAge basicInfo + 1).
Proof.
  rewrite years_seqZ.
  set (n := (BasicInfo.deathAge basicInfo - BasicInfo.currentAge basicInfo + 1)%Z).
  replace (seqZ (BasicInfo.currentAge basicInfo) n)
    with (seqZ (BasicInfo.currentAge basicInfo - BasicInfo.startYear basicInfo
                + BasicInfo.startYear basicInfo) n) by (f_equal; lia).
  rewrite <- fmap_add_seqZ.
  apply list_fmap_ext. intros _ year _. unfold calculateAge. lia.
Qed.

Section Chart.

Variable state : SimulatorState.t.

Local Abbreviation ys := (years (SimulatorState.basicInfo state)) (only parsing).
Local Abbreviation parameters := (SimulatorState.parameters state) (only parsing).
Local Abbreviation start :=
  (ResultsChart.initialAssets (SimulatorState.assetsLiabilities state)) (only parsing).
Local Abbreviation holds := (ResultsChart.filled parameters start ys) (only parsing).
Local Abbreviation creditedReturn := (ResultsChart.creditedReturn parameters start) (only parsing).

Lemma investmentStep_next (acc : ResultsChart.InvestmentData) (year : Z) (k : nat)
    (prevYear : Z) (prevAssets : Qc) :
  ys !! k = Some prevYear ->
  ResultsChart.assets acc !! prevYear = Some prevAssets ->
  ResultsChart.investmentStep ys parameters start acc year (S k)
  = Some (ResultsChart.mk
            (<[year := Num.toFixed1
                         (prevAssets
                          + Num.toFixed1
                              (prevAssets
                               * (Parameters.investmentReturn parameters / Num.ofZ 100)))]>
               (ResultsChart.assets acc))
            (<[year := Num.toFixed1
                         (prevAssets
                          * (Parameters.investmentReturn parameters / Num.ofZ 100))]>
               (ResultsChart.returns acc))).
Proof.
  intros Hprev Hassets. unfold ResultsChart.investmentStep.
  replace (S k =? 0)%nat with false by done.
  replace (S k - 1)%nat with k by lia.
  rewrite Hprev. cbn [mbind option_bind]. rewrite Hassets. reflexivity.
Qed.

Lemma investment_reduce (rest : list Z) : forall (k : nat) (acc : ResultsChart.InvestmentData),
  drop k ys = rest ->
  holds k acc ->
  exists data : ResultsChart.InvestmentData,
    reduceFrom (ResultsChart.investmentStep ys parameters start) k rest acc = Some data
    /\ holds (length ys) data.
Proof.
  induction rest as [|year rest IH]; intros k acc Hdrop Hacc.
  - exists acc. split; [done|].
    intros j y Hj Hy. apply Hacc; [|done].
    clear Hj. apply lookup_lt_Some in Hy.
    assert (length (drop k ys) = 0%nat) by by rewrite Hdrop.
    rewrite length_drop in *. lia.
  - assert (Hk : ys !! k = Some year).
    { rewrite <- (Nat.add_0_r k), <- lookup_drop, Hdrop. done. }
    assert (Hrest : drop (S k) ys = rest).
    { rewrite (drop_S _ _ _ Hk) in Hdrop. by injection Hdrop. }
    assert (Hfresh : forall j y, (j < k)%nat -> ys !! j = Some y -> year <> y).
    { intros j y Hj Hy ->.
      pose proof (NoDup_lookup _ _ _ _ (years_NoDup _) Hy Hk). lia. }
    cbn [reduceFrom].
    destruct k as [|k].
    + change (ResultsChart.investmentStep ys parameters start acc year 0)
        with (Some (ResultsChart.mk (<[year := start]> (ResultsChart.assets acc))
                      (<[year := 0]> (ResultsChart.returns acc)))).
      cbn [mbind option_bind]. apply IH; [done|].
      intros j y Hj Hy. assert (j = 0)%nat as -> by lia.
      rewrite Hk in Hy. injection Hy as <-.
      cbn [ResultsChart.assets ResultsChart.returns].
      by rewrite !lookup_insert_eq.
    + destruct (ys !! k) as [prevYear|] eqn:Hprev.
      2:{ apply lookup_ge_None in Hprev. apply lookup_lt_Some in Hk. lia. }
      destruct (Hacc k prevYear ltac:(lia) Hprev) as [Hassets _].
      rewrite (investmentStep_next acc year k prevYear _ Hprev Hassets).
      cbn [mbind option_bind]. apply IH; [done|].
      intros j y Hj Hy. cbn [ResultsChart.assets ResultsChart.returns].
      destruct (decide (j = S k)) as [->|Hne].
      * rewrite Hk in Hy. injection Hy as <-.
        by rewrite !lookup_insert_eq.
      * rewrite !lookup_insert_ne by (eapply Hfresh; [|done]; lia).
        apply Hacc; [lia|done].
Qed.

Lemma investmentData_holds :
  exists data : ResultsChart.InvestmentData,
    ResultsChart.investmentData state = Some data
    /\ forall (i : nat) (year : Z),
         ys !! i = Some year ->
         ResultsChart.assets data !! year
         = Some (ResultsChart.compounded parameters start i)
         /\ ResultsChart.returns data !! year = Some (creditedReturn i).
Proof.
  destruct (investment_reduce ys 0 (ResultsChart.mk ∅ ∅)) as (data & Hrun & Hdata).
  - done.
  - intros j y Hj. lia.
  - exists data. split; [exact Hrun|].
    intros i year Hi. apply Hdata; [|done]. by apply lookup_lt_Some in Hi.
Qed.

Lemma compounded_nonneg (n : nat) :
  0 ≤ Parameters.investmentReturn parameters -> 0 ≤ start ->
  0 ≤ ResultsChart.compounded parameters start n.
Proof.
  intros Hrate Hstart. induction n as [|n IH]; simpl; [done|].
  apply NumFacts.toFixed1_nonneg, Qcplus_nonneg_nonneg; [done|].
  apply NumFacts.toFixed1_nonneg, Qcmult_nonneg_nonneg; [done|].
  unfold Qcdiv. apply Qcmult_nonneg_nonneg; [done|by vm_compute].
Qed.

Lemma compounded_rounded (n : nat) :
  Num.toFixed1 (ResultsChart.compounded parameters start (S n))
  = ResultsChart.compounded parameters start (S n).
Proof. simpl. apply NumFacts.toFixed1_idem. Qed.

Lemma compounded_grows (n : nat) :
  0 ≤ Parameters.investmentReturn parameters -> 0 ≤ start ->
  ResultsChart.compounded parameters start (S n)
  ≤ ResultsChart.compounded parameters start (S (S n)).
Proof.
  intros Hrate Hstart.
  rewrite <- (compounded_rounded n) at 1.
  change (ResultsChart.compounded parameters start (S (S n)))
    with (Num.toFixed1
            (ResultsChart.compounded parameters start (S n)
             + Num.toFixed1 (ResultsChart.compounded parameters start (S n)
                             * (Parameters.investmentReturn parameters / Num.ofZ 100)))).
  apply NumFacts.toFixed1_mono.
  rewrite <- (Qcplus_0_r (ResultsChart.compounded parameters start (S n))) at 1.
  apply Qcplus_le_compat; [apply Qcle_refl|].
  apply NumFacts.toFixed1_nonneg, Qcmult_nonneg_nonneg.
  - by apply compounded_nonneg.
  - unfold Qcdiv. apply Qcmult_nonneg_nonneg; [done|by vm_compute].
Qed.

End Chart.

(** X17. The investment series of the result chart is defined for every
    year of the horizon, and it is the sum of the assets compounded year by
    year in double precision with rounding: the first year shows the assets
    and a return of 0, every later year the return on the year before,
    [toFixed(1)] of the double product of those assets and the double
    [investmentReturn / 100], and [toFixed(1)] of the double sum of the
    two. Liabilities and the cash flow of the years do not enter. *)
Theorem chart_series_compounds (state : SimulatorState.t) :
  let parameters := SimulatorState.parameters state in
  let start :=
    fold_left PrimFloat.add
      (map Double.ofQc
         (Assets.values (AssetsLiabilities.assets (SimulatorState.assetsLiabilities state))))
      PrimFloat.zero in
  let rate :=
    PrimFloat.div (Double.ofQc (Parameters.investmentReturn parameters)) (Double.ofZ 100) in
  exists data : Js.ResultsChart.InvestmentData Double.number,
    Js.ResultsChart.investmentData Double.number state = Some data
    /\ forall (i : nat) (year : Z),
         years (SimulatorState.basicInfo state) !! i = Some year ->
         Js.ResultsChart.assets data !! year
         = Some (Js.ResultsChart.compounded Double.number parameters start i)
         /\ Js.ResultsChart.returns data !! year
            = Some match i with
                   | O => PrimFloat.zero
                   | S j =>
                       Double.toFixed1
                         (PrimFloat.mul
                            (Js.ResultsChart.compounded Double.number parameters start j)
                            rate)
                   end
         /\ Js.ResultsChart.compounded Double.number parameters start (S i)
            = Double.toFixed1
                (PrimFloat.add
                   (Js.ResultsChart.compounded Double.number parameters start i)
                   (Double.toFixed1
                      (PrimFloat.mul
                         (Js.ResultsChart.compounded Double.number parameters start i)
                         rate))).
Proof.
  intros parameters start rate.
  destruct (js_investmentData_holds Double.number state) as (data & Hrun & Hdata).
  exists data. split; [exact Hrun|].
  intros i year Hi. destruct (Hdata i year Hi) as [Hassets Hreturns].
  split; [exact Hassets|]. split; [|reflexivity].
  destruct i; exact Hreturns.
Qed.

Lemma chart_series_compounds_witness :
  exists data : Js.ResultsChart.InvestmentData Double.number,
    Js.ResultsChart.investmentData Double.number (Households.withCash (Num.ofZ 5))
    = Some data
    /\ Js.ResultsChart.assets data !! 2026%Z = Some (Double.dec1 51)
    /\ Js.ResultsChart.returns data !! 2026%Z = Some (Double.dec1 1)
    /\ Js.ResultsChart.assets data !! 2027%Z = Some (Double.dec1 53)
    /\ Js.ResultsChart.returns data !! 2027%Z = Some (Double.dec1 2).
Proof.
  destruct (chart_series_compounds (Households.withCash (Num.ofZ 5)))
    as (data & Hrun & Hdata).
  exists data. split; [exact Hrun|].
  destruct (Hdata 1%nat 2026%Z eq_refl) as (Hassets1 & Hreturns1 & _).
  destruct (Hdata 2%nat 2027%Z eq_refl) as (Hassets2 & Hreturns2 & _).
  split; [etrans; [exact Hassets1|double_eval]|].
  split; [etrans; [exact Hreturns1|double_eval]|].
  split; [etrans; [exact Hassets2|double_eval]|].
  etrans; [exact Hreturns2|double_eval].
Defined.

(** X18. With assets and a return rate that are not negative, the assets
    shown by the result chart are never negative, and from the second year
    on they never decrease from one year to the next. *)
Theorem chart_assets_grow (state : SimulatorState.t) (data : ResultsChart.InvestmentData)
    (i : nat) (year next : Z) (a a' : Qc) :
  0 ≤ Parameters.investmentReturn (SimulatorState.parameters state) ->
  0 ≤ ResultsChart.initialAssets (SimulatorState.assetsLiabilities state) ->
  ResultsChart.investmentData state = Some data ->
  years (SimulatorState.basicInfo state) !! i = Some year ->
  years (SimulatorState.basicInfo state) !! S i = Some next ->
  ResultsChart.assets data !! year = Some a ->
  ResultsChart.assets data !! next = Some a' ->
  0 ≤ a /\ 0 ≤ a' /\ ((1 <= i)%nat -> a ≤ a').
Proof.
  intros Hrate Hstart Hrun Hi HSi Ha Ha'.
  destruct (investmentData_holds state) as (data' & Hrun' & Hdata).
  rewrite Hrun in Hrun'. injection Hrun' as <-.
  destruct (Hdata i year Hi) as [Hyear _]. destruct (Hdata (S i) next HSi) as [Hnext _].
  assert (a = ResultsChart.compounded (SimulatorState.parameters state)
                (ResultsChart.initialAssets (SimulatorState.assetsLiabilities state)) i)
    as -> by congruence.
  assert (a' = ResultsChart.compounded (SimulatorState.parameters state)
                 (ResultsChart.initialAssets (SimulatorState.assetsLiabilities state)) (S i))
    as -> by congruence.
  split; [by apply compounded_nonneg|]. split; [by apply compounded_nonneg|].
  intros Hpos. destruct i as [|i]; [lia|]. by apply compounded_grows.
Qed.

Lemma chart_assets_grow_witness :
  exists data : ResultsChart.InvestmentData,
    ResultsChart.investmentData Sample.state = Some data
    /\ 0 ≤ Q2Qc (3090 # 10)
    /\ Q2Qc (3090 # 10) ≤ Q2Qc (3183 # 10).
Proof.
  destruct (investmentData_holds Sample.state) as (data & Hrun & Hdata).
  exists data. split; [exact Hrun|].
  destruct (Hdata 1%nat 2026%Z eq_refl) as [H26 _].
  destruct (Hdata 2%nat 2027%Z eq_refl) as [H27 _].
  assert (Ha : ResultsChart.assets data !! 2026%Z = Some (Q2Qc (3090 # 10))).
  { rewrite H26. apply (f_equal Some). qc_eval. }
  assert (Ha' : ResultsChart.assets data !! 2027%Z = Some (Q2Qc (3183 # 10))).
  { rewrite H27. apply (f_equal Some). qc_eval. }
  destruct (chart_assets_grow Sample.state data 1 2026 2027 _ _
              ltac:(by vm_compute) ltac:(by vm_compute) Hrun eq_refl eq_refl Ha Ha')
    as (Hnonneg & _ & Hgrow).
  split; [exact Hnonneg|]. apply Hgrow. lia.
Defined.

(** ** The yearly balance of the cash-flow form *)

Section Balances.

Lemma balances_lookup (value : Z -> option Qc) (ys : list Z) (year : Z) :
  forall acc : gmap Z (option Qc),
    year ∈ ys ->
    fold_left (fun acc y => <[y := value y]> acc) ys acc !! year = Some (value year).
Proof.
  assert (Hkeep : forall (ys' : list Z) (acc : gmap Z (option Qc)),
            acc !! year = Some (value year) ->
            fold_left (fun acc y => <[y := value y]> acc) ys' acc !! year
            = Some (value year)).
  { induction ys' as [|y ys' IH]; intros acc Hacc; [done|].
    simpl. apply IH. destruct (decide (y = year)) as [->|Hne].
    - apply lookup_insert_eq.
    - by rewrite lookup_insert_ne. }
  induction ys as [|y ys IH]; intros acc Hyear.
  - by apply elem_of_nil in Hyear.
  - simpl. apply elem_of_cons in Hyear as [->|Hyear].
    + apply Hkeep, lookup_insert_eq.
    + by apply IH.
Qed.

Lemma yearlyBalances_lookup (state : SimulatorState.t) (year : Z) :
  year ∈ years (SimulatorState.basicInfo state) ->
  CashFlowForm.yearlyBalances state !! year
  = Some (CashFlowForm.yearlyBalance (SimulatorState.cashFlow state)
            (SimulatorState.lifeEvents state) year).
Proof.
  intros Hyear. unfold CashFlowForm.yearlyBalances.
  by apply (balances_lookup
              (CashFlowForm.yearlyBalance (SimulatorState.cashFlow state)
                 (SimulatorState.lifeEvents state))).
Qed.

End Balances.

(** X19. After a full recompute the yearly balance of the cash-flow form
    is computed from the stored cells of the year and from the life events:
    the main income cell, the side income (always 0) and the spouse income
    cell, minus the living, housing and education expense cells and the
    other expense cell, plus the life-event impact, each sum in double
    precision in this order and the result not rounded. The other expense
    cell already holds the life events of the year, so they count twice;
    the investment income cell is not part of the balance. *)
Theorem yearly_balance_of_recomputed_table (lib : Js.Calculations Double.number)
    (state : SimulatorState.t) (i : nat) (year : Z) :
  years (SimulatorState.basicInfo state) !! i = Some year ->
  exists (table : gmap Z (gmap Field.t PrimFloat.float))
         (mainIncome spouseIncome livingExpense housingExpense educationExpense
          : PrimFloat.float),
    Js.initializeCashFlow Double.number lib state = Some table
    /\ Js.cell Double.number lib state year Field.mainIncome = Some mainIncome
    /\ Js.cell Double.number lib state year Field.spouseIncome = Some spouseIncome
    /\ Js.cell Double.number lib state year Field.livingExpense = Some livingExpense
    /\ Js.cell Double.number lib state year Field.housingExpense = Some housingExpense
    /\ Js.cell Double.number lib state year Field.educationExpense = Some educationExpense
    /\ Js.cell Double.number lib state year Field.otherExpense
       = Some (Double.toFixed1
                 (Js.calculateLifeEventExpense Double.number
                    (SimulatorState.lifeEvents state) year))
    /\ Js.CashFlowForm.yearlyBalance Double.number table
         (SimulatorState.lifeEvents state) year
       = Some (PrimFloat.add
                 (PrimFloat.sub
                    (PrimFloat.add (PrimFloat.add mainIncome PrimFloat.zero) spouseIncome)
                    (PrimFloat.add
                       (PrimFloat.add (PrimFloat.add livingExpense housingExpense)
                          educationExpense)
                       (Double.toFixed1
                          (Js.calculateLifeEventExpense Double.number
                             (SimulatorState.lifeEvents state) year))))
                 (Js.CashFlowForm.lifeEventImpact Double.number
                    (SimulatorState.lifeEvents state) year)).
Proof.
  intros Hi.
  eexists _, _, _, _, _, _.
  split; [apply js_initializeCashFlow_eq|].
  rewrite !(js_cell_eq _ _ state i year _ Hi). unfold Js.rowOf.
  rewrite !js_makeRow_lookup.
  do 6 (split; [reflexivity|]).
  unfold Js.CashFlowForm.yearlyBalance.
  rewrite (js_loopView_lookup _ _ state _ _ i year (years_NoDup _) Hi).
  unfold Js.rowOf. rewrite !js_makeRow_lookup. reflexivity.
Qed.

Lemma yearly_balance_of_recomputed_table_witness :
  exists table : gmap Z (gmap Field.t PrimFloat.float),
    Js.initializeCashFlow Double.number Double.lib Sample.state = Some table
    /\ Js.cell Double.number Double.lib Sample.state 2026 Field.otherExpense
       = Some (Double.ofZ 120)
    /\ Js.CashFlowForm.lifeEventImpact Double.number Sample.lifeEvents 2026
       = Double.ofZ (-120)
    /\ Js.CashFlowForm.yearlyBalance Double.number table Sample.lifeEvents 2026
       = Some (PrimFloat.next_up (Double.dec1 (-1784))).
Proof.
  destruct (yearly_balance_of_recomputed_table Double.lib Sample.state 1 2026 eq_refl)
    as (table & m & sp & l & h & e & Hrun & Hm & Hsp & Hl & Hh & He & Ho & Hbalance).
  exists table. split; [exact Hrun|].
  split; [etrans; [exact Ho|double_eval]|]. split; [double_eval|].
  etrans; [exact Hbalance|].
  assert (m = Double.ofZ 400) as ->
    by (apply (inj Some); etrans; [symmetry; exact Hm|double_eval]).
  assert (sp = PrimFloat.zero) as ->
    by (apply (inj Some); etrans; [symmetry; exact Hsp|double_eval]).
  assert (l = Double.dec1 2424) as ->
    by (apply (inj Some); etrans; [symmetry; exact Hl|double_eval]).
  assert (h = Double.ofZ 96) as ->
    by (apply (inj Some); etrans; [symmetry; exact Hh|double_eval]).
  assert (e = PrimFloat.zero) as ->
    by (apply (inj Some); etrans; [symmetry; exact He|double_eval]).
  double_eval.
Defined.

(** X20. A year of the horizon without a row has a yearly balance of 0;
    once a single cell of such a year is edited, the row lacks the other
    amounts and the balance of the year is not a number. *)
Theorem yearly_balance_without_row (state : SimulatorState.t) (year : Z)
    (field : Field.t) (value : Qc) :
  year ∈ years (SimulatorState.basicInfo state) ->
  SimulatorState.cashFlow state !! year = None ->
  CashFlowForm.yearlyBalances state !! year = Some (Some 0)
  /\ CashFlowForm.yearlyBalances (updateCashFlowValue year field value state) !! year
     = Some None.
Proof.
  intros Hyear Hrow. split.
  - rewrite yearlyBalances_lookup by done.
    unfold CashFlowForm.yearlyBalance. by rewrite Hrow.
  - rewrite yearlyBalances_lookup by done.
    apply (f_equal Some). unfold CashFlowForm.yearlyBalance, updateCashFlowValue.
    cbn [SimulatorState.cashFlow SimulatorState.lifeEvents SimulatorState.set_cashFlow].
    rewrite lookup_insert_eq, Hrow. cbn [default].
    destruct field;
      repeat (rewrite ?lookup_insert_eq, ?lookup_insert_ne, ?lookup_empty by done;
              cbn [mbind option_bind]);
      reflexivity.
Qed.

Lemma yearly_balance_without_row_witness :
  CashFlowForm.yearlyBalances Sample.state !! 2026%Z = Some (Some 0)
  /\ CashFlowForm.yearlyBalances
       (updateCashFlowValue 2026 Field.mainIncome (Num.ofZ 400) Sample.state) !! 2026%Z
     = Some None.
Proof.
  apply yearly_balance_without_row.
  - apply list_elem_of_lookup. by exists 1%nat.
  - reflexivity.
Defined.

(** ** Which inputs reach which cells *)

Section Dependencies.

Variable lib : Calculations.t.

Lemma cell_outside state year field :
  year ∉ years (SimulatorState.basicInfo state) ->
  cell lib state year field = None.
Proof.
  intros Hyear. unfold cell. rewrite initializeCashFlow_eq.
  cbn [mbind option_bind SimulatorState.cashFlow SimulatorState.set_cashFlow].
  rewrite loopView_lookup_notin by done. cbn [fst]. by rewrite lookup_empty.
Qed.

Lemma stepView_unread state gender additionalExpense pensionAmount
    spousePensionAmount acc year :
  stepView lib
    (withUnreadInputs gender additionalExpense pensionAmount spousePensionAmount state)
    acc year
  = stepView lib state acc year.
Proof.
  assert (Hspouse :
    spouseIncomeValue lib
      (SimulatorState.basicInfo
         (withUnreadInputs gender additionalExpense pensionAmount
            spousePensionAmount state))
      (SimulatorState.incomeInfo
         (withUnreadInputs gender additionalExpense pensionAmount
            spousePensionAmount state)) year
    = spouseIncomeValue lib (SimulatorState.basicInfo state)
        (SimulatorState.incomeInfo state) year).
  { unfold spouseIncomeValue, spouseIncome. simpl.
    destruct (BasicInfo.spouseInfo (SimulatorState.basicInfo state)) as [si|],
      (IncomeInfo.spouse (SimulatorState.incomeInfo state)) as [sp|];
      reflexivity. }
  unfold stepView, rowOf, nextAssets. rewrite Hspouse. reflexivity.
Qed.

Lemma loopView_unread state gender additionalExpense pensionAmount
    spousePensionAmount ys : forall acc,
  loopView lib
    (withUnreadInputs gender additionalExpense pensionAmount spousePensionAmount state)
    ys acc
  = loopView lib state ys acc.
Proof.
  induction ys as [|y ys IH]; intros acc; [done|].
  unfold loopView in *. simpl. by rewrite stepView_unread, IH.
Qed.

End Dependencies.

(** X21. The assets, the liabilities and the investment return rate reach
    the table only through the investment income: two stores that agree on
    the profiles, the life events and the two other rates have the same
    amount in every other cell of every year. *)
Theorem only_investment_income_sees_assets (lib : Calculations.t)
    (state1 state2 : SimulatorState.t) (year : Z) (field : Field.t) :
  SimulatorState.basicInfo state1 = SimulatorState.basicInfo state2 ->
  SimulatorState.incomeInfo state1 = SimulatorState.incomeInfo state2 ->
  SimulatorState.lifeEvents state1 = SimulatorState.lifeEvents state2 ->
  Parameters.inflationRate (SimulatorState.parameters state1)
  = Parameters.inflationRate (SimulatorState.parameters state2) ->
  Parameters.educationCostIncreaseRate (SimulatorState.parameters state1)
  = Parameters.educationCostIncreaseRate (SimulatorState.parameters state2) ->
  field <> Field.investmentIncome ->
  cell lib state1 year field = cell lib state2 year field.
Proof.
  intros Hbasic Hincome Hevents Hinflation Heducation Hfield.
  destruct (decide (year ∈ years (SimulatorState.basicInfo state1))) as [Hyear|Hyear].
  - apply list_elem_of_lookup in Hyear as [i Hi].
    rewrite (cell_eq lib state1 i year field Hi).
    rewrite Hbasic in Hi. rewrite (cell_eq lib state2 i year field Hi).
    unfold rowOf. rewrite !makeRow_lookup. apply (f_equal Some).
    unfold livingExpense, educationExpense, otherExpense.
    rewrite Hbasic, Hincome, Hevents, Hinflation, Heducation.
    by destruct field.
  - rewrite (cell_outside lib state1) by done.
    rewrite Hbasic in Hyear. by rewrite (cell_outside lib state2).
Qed.

Lemma only_investment_income_sees_assets_witness :
  cell Sample.lib Sample.state 2040 Field.livingExpense
  = cell Sample.lib Cases.wealthy 2040 Field.livingExpense.
Proof.
  apply only_investment_income_sees_assets; (reflexivity || discriminate).
Defined.

(** X22. The recompute never reads the gender, the additional expense of
    the spouse or the pension amounts stored in the income profile (the
    pension is computed anew by [calculatePension]): other values for them
    give the same table and the same closing assets. *)
Theorem unread_inputs (lib : Calculations.t) (state : SimulatorState.t)
    (gender : Gender) (additionalExpense : option Qc)
    (pensionAmount spousePensionAmount : Qc) :
  let other :=
    withUnreadInputs gender additionalExpense pensionAmount spousePensionAmount state in
  SimulatorState.cashFlow <$> initializeCashFlow lib other
  = SimulatorState.cashFlow <$> initializeCashFlow lib state
  /\ forall i : nat, closingAssets lib other i = closingAssets lib state i.
Proof.
  intros other. split.
  - rewrite !initializeCashFlow_eq. subst other.
    cbn [fmap option_fmap option_map SimulatorState.cashFlow SimulatorState.set_cashFlow].
    change (years (SimulatorState.basicInfo
                     (withUnreadInputs gender additionalExpense pensionAmount
                        spousePensionAmount state)))
      with (years (SimulatorState.basicInfo state)).
    change (initialAssets (SimulatorState.assetsLiabilities
                             (withUnreadInputs gender additionalExpense pensionAmount
                                spousePensionAmount state)))
      with (initialAssets (SimulatorState.assetsLiabilities state)).
    by rewrite loopView_unread.
  - intros i. unfold closingAssets. rewrite !forEachYear_eq. subst other.
    change (years (SimulatorState.basicInfo
                     (withUnreadInputs gender additionalExpense pensionAmount
                        spousePensionAmount state)))
      with (years (SimulatorState.basicInfo state)).
    change (initialAssets (SimulatorState.assetsLiabilities
                             (withUnreadInputs gender additionalExpense pensionAmount
                                spousePensionAmount state)))
      with (initialAssets (SimulatorState.assetsLiabilities state)).
    by rewrite loopView_unread.
Qed.


